(** * Car insurance claim dashboard: cleaning, metrics, charts

    A shallow embedding of the four scripts of the repository

      - [data_cleaning.py]       (module [Cleaning])
      - [metrics_summary.py]     (module [MetricsSummary])
      - [data_visualization.py]  (module [Visualization])
      - [data/app.py]            (module [App])

    over a small model of the pandas objects they use.

    Modelling conventions.
      - A float is an exact rational ([Q]); the missing value NaN of a
        numeric column is [None].  Numbers are compared by value
        ([Qeq_bool], [Qle_bool]), never by representation.
      - A table as [pd.read_csv] returns it has columns of numeric dtype
        (numbers and NaN) or of object dtype (text and NaN).
      - Text is a [string] of bytes; [str.lower] and [str.strip] act on
        the ASCII letters and the ASCII white space.
      - An exception is a value of [exn]; a computation that may raise
        returns a [result]. *)

From Stdlib Require Import String Ascii List Bool Arith ZArith QArith Qround Qpower Lia Lqa.
Import ListNotations.

Local Open Scope string_scope.
Local Open Scope list_scope.

(* ================================================================= *)
(** ** Python text *)

Module PyStr.

(** Text is modelled on ASCII: a string is a sequence of bytes, and the
    methods below are Python's on text whose characters are all below
    128.  On such text [str.lower] and [str.strip] of Python, which
    know every Unicode letter and space, do what is written here. *)

(** [c.lower()] on one ASCII character. *)
Definition lower_ascii (c : ascii) : ascii :=
  let n := nat_of_ascii c in
  if andb (65 <=? n)%nat (n <=? 90)%nat then ascii_of_nat (n + 32) else c.

(** [s.lower()] *)
Fixpoint lower (s : string) : string :=
  match s with
  | EmptyString => EmptyString
  | String c r => String (lower_ascii c) (lower r)
  end.

(** [c.isspace()] on one ASCII character: tab, line feed, vertical tab,
    form feed, carriage return, the four separators 28..31 and space. *)
Definition isspace (c : ascii) : bool :=
  let n := nat_of_ascii c in
  orb (andb (9 <=? n)%nat (n <=? 13)%nat)
      (orb (andb (28 <=? n)%nat (n <=? 31)%nat) (n =? 32)%nat).

(** [s.lstrip()] *)
Fixpoint lstrip (s : string) : string :=
  match s with
  | EmptyString => EmptyString
  | String c r => if isspace c then lstrip r else s
  end.

(** [s.rstrip()] *)
Fixpoint rstrip (s : string) : string :=
  match s with
  | EmptyString => EmptyString
  | String c r =>
      match rstrip r with
      | EmptyString => if isspace c then EmptyString else String c EmptyString
      | r' => String c r'
      end
  end.

(** [s.strip()] *)
Definition strip (s : string) : string := rstrip (lstrip s).

(** [s.replace(" ", "_")] *)
Fixpoint replace_space (s : string) : string :=
  match s with
  | EmptyString => EmptyString
  | String c r =>
      String (if Ascii.eqb c " "%char then "_"%char else c) (replace_space r)
  end.

(** [s in xs] for a list of text. *)
Definition mem (s : string) (xs : list string) : bool :=
  existsb (String.eqb s) xs.

(** [str(x)] of a cell of an object column read from a file: the text
    itself, and ["nan"] for the float NaN. *)
Definition str (x : option string) : string :=
  match x with
  | Some s => s
  | None => "nan"
  end.

End PyStr.

(* ================================================================= *)
(** ** Python numbers *)

Module PyNum.

Local Open Scope Q_scope.

(** [numpy.rint]: the nearest integer, ties to the even one. *)
Definition rint (q : Q) : Z :=
  let n := Qfloor q in
  let r := q - inject_Z n in
  match Qcompare r (1 # 2) with
  | Lt => n
  | Gt => (n + 1)%Z
  | Eq => if Z.even n then n else (n + 1)%Z
  end.

(** [round(x, 2)] of a numpy float: scale by 100, [rint], scale back. *)
Definition round2 (q : Q) : Q := Qred (inject_Z (rint (q * 100)) / 100).

(** [int(x)]: truncation toward zero. *)
Definition int (q : Q) : Z :=
  if Qle_bool 0 q then Qfloor q else Qceiling q.

Definition sum (xs : list Q) : Q := fold_right Qplus 0 xs.

(** Insertion of a number in an ascending list. *)
Fixpoint insert (x : Q) (xs : list Q) : list Q :=
  match xs with
  | [] => [x]
  | y :: r => if Qle_bool x y then x :: xs else y :: insert x r
  end.

Definition sort (xs : list Q) : list Q := fold_right insert [] xs.

End PyNum.

(* ================================================================= *)
(** ** Doubles *)

(** The floats of Python and numpy are binary64 numbers.  Where a result
    is decided by the last bits of a float -- the claim rate, which is
    rounded to 2 decimals -- the arithmetic is that of doubles: every
    operation gives the double nearest to the exact result.  A double
    is the rational number it stands for. *)
Module F64.

Local Open Scope Q_scope.

(** [2 ** z] *)
Definition pow2 (z : Z) : Q := 2 ^ z.

(** The binary exponent of a positive number: the [e] with
    [2 ** e <= q < 2 ** (e + 1)]. *)
Definition exponent (q : Q) : Z :=
  let l := (Z.log2 (Qnum q) - Z.log2 (Zpos (Qden q)))%Z in
  if Qle_bool (pow2 l) q then l else (l - 1)%Z.

(** The distance between the doubles next to a positive number: 53
    significant bits, and no bit below [2 ** -1074]. *)
Definition ulp (q : Q) : Q := pow2 (Z.max (exponent q - 52) (-1074)).

(** The double nearest to a number, ties to the even significand.
    Numbers beyond the largest double are not met here. *)
Definition rnd (q : Q) : Q :=
  match Qcompare q 0 with
  | Eq => 0
  | Gt => Qred (inject_Z (PyNum.rint (q / ulp q)) * ulp q)
  | Lt => Qred (- (inject_Z (PyNum.rint (- q / ulp (- q))) * ulp (- q)))
  end.

(** [a * b] on doubles *)
Definition mul (a b : Q) : Q := rnd (a * b).

(** [a / b] on doubles *)
Definition div (a b : Q) : Q := rnd (a / b).

(** The mean of a series of doubles: the sum divided by the count.  The
    sum is taken exactly, as it is for the indicators 0 and 1, whose
    sums are integers that doubles hold; the quotient is rounded. *)
Definition mean_of (v : list Q) : option Q :=
  match v with
  | [] => None
  | _ => Some (div (PyNum.sum v) (inject_Z (Z.of_nat (length v))))
  end.

(** [round(x, 2)] of a numpy float64: [rint(x * 100) / 100].  The result
    is written as the decimal [j / 100] that the double is printed as. *)
Definition round2 (x : Q) : Q :=
  Qred (inject_Z (PyNum.rint (mul x 100)) / 100).

End F64.

(* ================================================================= *)
(** ** Exceptions *)

(** The argument of [SystemExit]. *)
Inductive exit_arg : Type :=
| ExitNone                      (* [raise SystemExit] *)
| ExitCode (n : Z)              (* [raise SystemExit(n)] *)
| ExitMsg (msg : string).       (* [raise SystemExit("...")] *)

Inductive exn : Type :=
| KeyError (column : string)
| TypeError
| ValueError
| AttributeError
| IOError (msg : string)        (* what [pd.read_csv] raises on an unreadable file *)
| SystemExit (arg : exit_arg).

Inductive result (A : Type) : Type :=
| Ok (a : A)
| Raise (e : exn).

Arguments Ok {A} a.
Arguments Raise {A} e.

Definition bind {A B} (r : result A) (k : A -> result B) : result B :=
  match r with
  | Ok a => k a
  | Raise e => Raise e
  end.

Notation "x <- r ;; k" := (bind r (fun x => k))
  (at level 61, r at next level, right associativity).

(** The exit status of the interpreter when the exception [e] reaches the
    top level: [SystemExit] with no argument or [None] is status 0, with
    an integer that integer, with any other object status 1 (the object
    is printed); every other exception prints a traceback, status 1. *)
Definition exit_status (e : exn) : Z :=
  match e with
  | SystemExit ExitNone => 0
  | SystemExit (ExitCode n) => n
  | SystemExit (ExitMsg _) => 1
  | _ => 1
  end.

(** The exit status of a script that has come to the end of a step with
    the outcome [r]; [None] when it goes on. *)
Definition stage_exit {A} (r : result A) : option Z :=
  match r with
  | Raise e => Some (exit_status e)
  | Ok _ => None
  end.

(* ================================================================= *)
(** ** Logging *)

Inductive level : Type := INFO | ERROR.

(** The log file of a script: the records written so far. *)
Definition log := list (level * string).

Definition has_error (l : log) : bool :=
  existsb (fun r => match fst r with ERROR => true | INFO => false end) l.

(** [except Exception] catches every exception but [SystemExit]. *)
Definition is_exception (e : exn) : bool :=
  match e with
  | SystemExit _ => false
  | _ => true
  end.

(* ================================================================= *)
(** ** A model of pandas *)

Module Pandas.

Local Open Scope Q_scope.

(** *** Series of numbers *)

Definition dropna {A} (xs : list (option A)) : list A :=
  flat_map (fun x => match x with Some a => [a] | None => [] end) xs.

Definition fillna {A} (v : option A) (xs : list (option A)) : list (option A) :=
  map (fun x => match x with Some a => Some a | None => v end) xs.

Definition isna {A} (x : option A) : bool :=
  match x with Some _ => false | None => true end.

(** [s.sum()]: NaN is skipped. *)
Definition sum (xs : list (option Q)) : Q := PyNum.sum (dropna xs).

(** The mean of a list of numbers; NaN ([None]) for the empty list. *)
Definition mean_of (v : list Q) : option Q :=
  match v with
  | [] => None
  | _ => Some (Qred (PyNum.sum v / inject_Z (Z.of_nat (length v))))
  end.

(** [s.mean()]: NaN is skipped. *)
Definition mean (xs : list (option Q)) : option Q := mean_of (dropna xs).

(** The median of a list of numbers: the middle one of the sorted list,
    or the mean of the two middle ones; NaN for the empty list. *)
Definition median_of (v : list Q) : option Q :=
  let s := PyNum.sort v in
  let n := length s in
  match n with
  | O => None
  | _ =>
      if Nat.odd n then Some (Qred (nth (n / 2) s 0))
      else Some (Qred ((nth (n / 2 - 1) s 0 + nth (n / 2) s 0) / 2))
  end.

(** [s.median()]: NaN is skipped. *)
Definition median (xs : list (option Q)) : option Q := median_of (dropna xs).

(** The strict comparison [a < b] of two floats. *)
Definition Qlt_bool (a b : Q) : bool := negb (Qle_bool b a).

(** [s.clip(lo, hi)]: NaN stays NaN. *)
Definition clip (lo hi : Q) (xs : list (option Q)) : list (option Q) :=
  map (option_map (fun q => if Qlt_bool q lo then lo
                            else if Qlt_bool hi q then hi else q)) xs.

(** *** Boolean indexing *)

(** [xs[mask]]: the cells at the positions where the mask is true. *)
Fixpoint select {A} (mask : list bool) (xs : list A) : list A :=
  match mask, xs with
  | b :: m, x :: r => if b then x :: select m r else select m r
  | _, _ => []
  end.

(** [xs[mask] = v]: the cells where the mask is true are overwritten. *)
Fixpoint assign {A} (mask : list bool) (v : A) (xs : list A) : list A :=
  match mask, xs with
  | b :: m, x :: r => (if b then v else x) :: assign m v r
  | _, _ => xs
  end.

(** *** Columns and tables *)

(** A column as [read_csv] types it: numeric dtype, or object dtype
    holding text; NaN is [None] in both. *)
Inductive column : Type :=
| NumCol (xs : list (option Q))
| ObjCol (xs : list (option string)).

(** A table: row labels and named columns, in order. *)
Record table (C : Type) : Type := mkTable {
  index : list nat;
  cols : list (string * C)
}.

Arguments mkTable {C} index cols.
Arguments index {C} t.
Arguments cols {C} t.

Definition DataFrame := table column.

Section Table.
Context {C : Type}.

(** [df.columns] *)
Definition columns (df : table C) : list string := map fst (cols df).

(** [name in df.columns] *)
Definition has_column (name : string) (df : table C) : bool :=
  PyStr.mem name (columns df).

(** [len(df)] *)
Definition len (df : table C) : nat := length (index df).

Fixpoint lookup (name : string) (cs : list (string * C)) : option C :=
  match cs with
  | [] => None
  | (n, c) :: r => if String.eqb name n then Some c else lookup name r
  end.

(** [df[name]] *)
Definition getitem (name : string) (df : table C) : result C :=
  match lookup name (cols df) with
  | Some c => Ok c
  | None => Raise (KeyError name)
  end.

Fixpoint update (name : string) (c : C) (cs : list (string * C))
  : list (string * C) :=
  match cs with
  | [] => [(name, c)]
  | (n, c') :: r =>
      if String.eqb name n then (n, c) :: r else (n, c') :: update name c r
  end.

(** [df[name] = c]: the column is replaced, or appended when new. *)
Definition setitem (name : string) (c : C) (df : table C) : table C :=
  mkTable (index df) (update name c (cols df)).

(** [df.rename(columns={old: new})] *)
Definition rename (old new : string) (df : table C) : table C :=
  mkTable (index df)
    (map (fun nc => (if String.eqb (fst nc) old then new else fst nc, snd nc))
         (cols df)).

(** [df.reset_index(drop=True)] *)
Definition reset_index (df : table C) : table C :=
  mkTable (seq 0 (len df)) (cols df).

End Table.

Definition col_length (c : column) : nat :=
  match c with
  | NumCol xs => length xs
  | ObjCol xs => length xs
  end.

Definition col_select (mask : list bool) (c : column) : column :=
  match c with
  | NumCol xs => NumCol (select mask xs)
  | ObjCol xs => ObjCol (select mask xs)
  end.

(** [df[mask]]: the rows where the mask is true, as a new table. *)
Definition filter_rows (mask : list bool) (df : DataFrame) : DataFrame :=
  mkTable (select mask (index df))
          (map (fun nc => (fst nc, col_select mask (snd nc))) (cols df)).

(** The cells of a column in arithmetic: those of a numeric column; an
    object column that holds text raises [TypeError]. *)
Definition numeric (c : column) : result (list (option Q)) :=
  match c with
  | NumCol xs => Ok xs
  | ObjCol xs =>
      if forallb isna xs then Ok (map (fun _ => None) xs) else Raise TypeError
  end.

(** Every column has one cell per row label. *)
Definition well_formed (df : DataFrame) : Prop :=
  Forall (fun nc => col_length (snd nc) = len df) (cols df).

(** *** Group keys *)

(** A value of a column used as a group key or in a selection. *)
Inductive key : Type :=
| KNum (q : Q)
| KStr (s : string).

Definition key_eqb (a b : key) : bool :=
  match a, b with
  | KNum p, KNum q => Qeq_bool p q
  | KStr s, KStr t => String.eqb s t
  | _, _ => false
  end.

(** Equality of group keys; the missing key forms a group of its own. *)
Definition okey_eqb (a b : option key) : bool :=
  match a, b with
  | Some x, Some y => key_eqb x y
  | None, None => true
  | _, _ => false
  end.

(** The order of group keys in a result: ascending, missing key last. *)
Definition key_leb (a b : key) : bool :=
  match a, b with
  | KNum p, KNum q => Qle_bool p q
  | KStr s, KStr t => String.leb s t
  | KNum _, KStr _ => true
  | KStr _, KNum _ => false
  end.

Definition okey_leb (a b : option key) : bool :=
  match a, b with
  | Some x, Some y => key_leb x y
  | Some _, None => true
  | None, Some _ => false
  | None, None => true
  end.

Definition keys_of (c : column) : list (option key) :=
  match c with
  | NumCol xs => map (option_map KNum) xs
  | ObjCol xs => map (option_map KStr) xs
  end.

(** [s.isin(values)]: NaN is in no selection of values. *)
Definition isin (values : list key) (c : column) : list bool :=
  map (fun k => match k with
                | Some x => existsb (key_eqb x) values
                | None => false
                end) (keys_of c).

(** [duplicated]: for each element, whether an equal one came before. *)
Fixpoint dup_mask {A} (eqb : A -> A -> bool) (seen : list A) (xs : list A)
  : list bool :=
  match xs with
  | [] => []
  | x :: r => existsb (eqb x) seen :: dup_mask eqb (x :: seen) r
  end.

Definition duplicated {A} (eqb : A -> A -> bool) (xs : list A) : list bool :=
  dup_mask eqb [] xs.

(** The distinct elements, in order of first occurrence. *)
Definition unique {A} (eqb : A -> A -> bool) (xs : list A) : list A :=
  select (map negb (duplicated eqb xs)) xs.

Fixpoint insert_key (k : option key) (ks : list (option key))
  : list (option key) :=
  match ks with
  | [] => [k]
  | j :: r => if okey_leb k j then k :: ks else j :: insert_key k r
  end.

Definition sort_keys (ks : list (option key)) : list (option key) :=
  fold_right insert_key [] ks.

(** [df.groupby(by, dropna=...)[val]]: the groups in ascending order of
    key, each with the cells of [val] of its rows in row order.  With
    [dropna] the rows whose key is missing belong to no group. *)
Definition groupby {V} (dropna : bool) (by_ : list (option key)) (val : list V)
  : list (option key * list V) :=
  let ks := sort_keys (unique okey_eqb by_) in
  let ks := if dropna then filter (fun k => negb (isna k)) ks else ks in
  map (fun k => (k, select (map (okey_eqb k) by_) val)) ks.

End Pandas.

(* ================================================================= *)
(** ** data_cleaning.py *)

Module Cleaning.

Import Pandas.
Local Open Scope Q_scope.

(** *** Loading (section 2 of the script) *)

(** [df_raw = pd.read_csv(input_file)], outside any [try]: only the
    start of the process has been logged when the call raises. *)
Definition load_raw_data (read : result DataFrame) : log * result DataFrame :=
  ([(INFO, "Data Cleaning Process Started")], read).

(** *** Column standardization (section 3) *)

(** [df.columns.str.strip().str.lower().str.replace(" ", "_")] *)
Definition standardize_name (n : string) : string :=
  PyStr.replace_space (PyStr.lower (PyStr.strip n)).

Definition standardize_columns (df : DataFrame) : DataFrame :=
  mkTable (index df)
          (map (fun nc => (standardize_name (fst nc), snd nc)) (cols df)).

(** ['outcome' -> 'claim_status'] when the table has an outcome column. *)
Definition rename_outcome (df : DataFrame) : DataFrame :=
  if has_column "outcome" df then rename "outcome" "claim_status" df else df.

(** *** Text columns (section 4) *)

(** [df[col].astype(str).str.strip().str.lower()] on one cell, for
    ASCII text; a missing cell is the text [nan] whatever the column
    holds. *)
Definition clean_text_cell (x : option string) : option string :=
  Some (PyStr.lower (PyStr.strip (PyStr.str x))).

(** The loop over [df.select_dtypes(include="object").columns]. *)
Definition clean_text (c : column) : column :=
  match c with
  | ObjCol xs => ObjCol (map clean_text_cell xs)
  | NumCol xs => NumCol xs
  end.

(** Every text column of the table standardized. *)
Definition standardize_text (df : DataFrame) : DataFrame :=
  mkTable (index df) (map (fun nc => (fst nc, clean_text (snd nc))) (cols df)).

(** The number of columns called [name]. *)
Definition named_alike (name : string) (df : DataFrame) : nat :=
  length (filter (String.eqb name) (columns df)).

(** Some text column has the name of another column: [df[col]] is then
    a DataFrame, which has no [.str]. *)
Definition name_clash (df : DataFrame) : bool :=
  existsb (fun nc => match snd nc with
                     | ObjCol _ => Nat.ltb 1 (named_alike (fst nc) df)
                     | NumCol _ => false
                     end) (cols df).

(** The loop: [AttributeError] at the first text column whose name is
    not its own. *)
Definition clean_text_columns (df : DataFrame) : result DataFrame :=
  if name_clash df then Raise AttributeError else Ok (standardize_text df).

(** *** Missing values (section 5) *)

(** [df[name] = df[name].fillna(df[name].median())] *)
Definition fill_median (name : string) (df : DataFrame) : result DataFrame :=
  c <- getitem name df ;;
  xs <- numeric c ;;
  Ok (setitem name (NumCol (fillna (median xs) xs)) df).

Definition handle_missing (df : DataFrame) : result DataFrame :=
  df <- fill_median "credit_score" df ;;
  fill_median "annual_mileage" df.

(** *** Validation rules (section 6) *)

Definition issues := list (string * nat).

Definition count_true (m : list bool) : nat := length (filter id m).

(** [(s < 0) | (s > 1)]; a comparison with NaN is false. *)
Definition invalid_cs_mask (xs : list (option Q)) : list bool :=
  map (fun x => match x with
                | Some q => orb (Qlt_bool q 0) (Qlt_bool 1 q)
                | None => false
                end) xs.

(** The credit score range check: when some score is out of [0,1] the
    column is clipped. *)
Definition validate_credit_score (st : DataFrame * issues)
  : result (DataFrame * issues) :=
  let (df, iss) := st in
  c <- getitem "credit_score" df ;;
  xs <- numeric c ;;
  let m := invalid_cs_mask xs in
  if existsb id m
  then Ok (setitem "credit_score" (NumCol (clip 0 1 xs)) df,
           iss ++ [("credit_score", count_true m)])
  else Ok (df, iss).

(** [s <= 0]; a comparison with NaN is false. *)
Definition invalid_mileage_mask (xs : list (option Q)) : list bool :=
  map (fun x => match x with
                | Some q => Qle_bool q 0
                | None => false
                end) xs.

(** The cells of the annual mileage column after the positive check:
    [df.loc[s <= 0, name] = s.median()] when some mileage is not
    positive, the median being that of the whole column. *)
Definition fix_mileage (xs : list (option Q)) : list (option Q) :=
  let m := invalid_mileage_mask xs in
  if existsb id m then assign m (median xs) xs else xs.

(** The positive check on the table. *)
Definition validate_mileage (st : DataFrame * issues)
  : result (DataFrame * issues) :=
  let (df, iss) := st in
  c <- getitem "annual_mileage" df ;;
  xs <- numeric c ;;
  let m := invalid_mileage_mask xs in
  if existsb id m
  then Ok (setitem "annual_mileage" (NumCol (assign m (median xs) xs)) df,
           iss ++ [("annual_mileage", count_true m)])
  else Ok (df, iss).

(** *** Binary columns to readable categories *)

(** A cell of a column once codes have been replaced by labels: a
    number that is no code stays where it is, next to text. *)
Inductive cell : Type :=
| NaN
| Num (q : Q)
| Str (s : string).

Definition Frame := table (list cell).

Definition cells_of (c : column) : list cell :=
  match c with
  | NumCol xs => map (fun x => match x with Some q => Num q | None => NaN end) xs
  | ObjCol xs => map (fun x => match x with Some s => Str s | None => NaN end) xs
  end.

Definition to_frame (df : DataFrame) : Frame :=
  mkTable (index df) (map (fun nc => (fst nc, cells_of (snd nc))) (cols df)).

(** [s.replace({0: zero, 1: one})] on one cell: text never equals a
    number. *)
Definition replace_code (zero one : string) (c : cell) : cell :=
  match c with
  | Num q => if Qeq_bool q 0 then Str zero
             else if Qeq_bool q 1 then Str one else Num q
  | _ => c
  end.

Definition replace_codes (name zero one : string) (f : Frame) : Frame :=
  match lookup name (cols f) with
  | Some c => setitem name (map (replace_code zero one) c) f
  | None => f
  end.

Definition readable_categories (f : Frame) : Frame :=
  replace_codes "claim_status" "no claim" "claim"
    (replace_codes "vehicle_ownership" "leased" "owned" f).

(** *** Validation of the categories (section 7) *)

(** [~s.isin(valid)] *)
Definition invalid_category_mask (valid : list string) (c : list cell)
  : list bool :=
  map (fun x => negb (match x with Str s => PyStr.mem s valid | _ => false end)) c.

Definition validate_category (name : string) (valid : list string)
    (st : Frame * issues) : Frame * issues :=
  let (f, iss) := st in
  match lookup name (cols f) with
  | Some c =>
      let m := invalid_category_mask valid c in
      if existsb id m
      then (setitem name (assign m NaN c) f, iss ++ [(name, count_true m)])
      else (f, iss)
  | None => (f, iss)
  end.

Definition valid_ownership : list string := ["leased"; "owned"].
Definition valid_claims : list string := ["claim"; "no claim"].

(** *** Duplicates and index (section 8) *)

Definition cell_eqb (a b : cell) : bool :=
  match a, b with
  | NaN, NaN => true
  | Num p, Num q => Qeq_bool p q
  | Str s, Str t => String.eqb s t
  | _, _ => false
  end.

Fixpoint row_eqb (a b : list cell) : bool :=
  match a, b with
  | [], [] => true
  | x :: a', y :: b' => andb (cell_eqb x y) (row_eqb a' b')
  | _, _ => false
  end.

Definition head_cell (c : list cell) : cell := hd NaN c.

(** The first [n] rows of a list of columns. *)
Fixpoint rows_of (n : nat) (cs : list (list cell)) : list (list cell) :=
  match n with
  | O => []
  | S k => map head_cell cs :: rows_of k (map (@tl cell) cs)
  end.

Definition rows (f : Frame) : list (list cell) :=
  rows_of (len f) (map snd (cols f)).

(** [~df.duplicated()]: the rows that repeat no earlier row. *)
Definition keep_mask (f : Frame) : list bool :=
  map negb (duplicated row_eqb (rows f)).

(** [df.drop_duplicates()]: of the rows equal in every column the first
    stays, with its label. *)
Definition drop_duplicates (f : Frame) : Frame :=
  let keep := keep_mask f in
  mkTable (select keep (index f))
          (map (fun nc => (fst nc, select keep (snd nc))) (cols f)).

(** Section 8 of the script: [drop_duplicates] then [reset_index]. *)
Definition deduplicate (f : Frame) : Frame :=
  reset_index (drop_duplicates f).

(** *** The script *)

(** Section 3, then section 4: the table with its names and then its
    text standardized. *)
Definition named (df_raw : DataFrame) : DataFrame :=
  rename_outcome (standardize_columns df_raw).

Definition standardized (df_raw : DataFrame) : DataFrame :=
  standardize_text (named df_raw).

(** Sections 5 to 7 on the standardized table: every rule applied, and
    the issues found. *)
Definition apply_rules (df : DataFrame) : result (Frame * issues) :=
  df <- handle_missing df ;;
  st <- validate_credit_score (df, []) ;;
  st <- validate_mileage st ;;
  let f := readable_categories (to_frame (fst st)) in
  let st := validate_category "vehicle_ownership" valid_ownership (f, snd st) in
  Ok (validate_category "claim_status" valid_claims st).

(** Sections 3 to 7: the table as it is before duplicates are
    removed. *)
Definition validate (df_raw : DataFrame) : result (Frame * issues) :=
  df <- clean_text_columns (named df_raw) ;;
  apply_rules df.

(** The script, from the loaded table to the cleaned one. *)
Definition clean (df_raw : DataFrame) : result (Frame * issues) :=
  st <- validate df_raw ;;
  Ok (deduplicate (fst st), snd st).

(** The cells of a column of the cleaned table. *)
Definition cleaned_column (name : string) (df_raw : DataFrame)
  : result (list cell) :=
  r <- clean df_raw ;;
  getitem name (fst r).

(** *** The cleaned file (section 10), as the next scripts load it *)

(** The fields that [pd.read_csv] reads as a missing value. *)
Definition na_values : list string :=
  [EmptyString; "#N/A"; "#N/A N/A"; "#NA"; "-1.#IND"; "-1.#QNAN"; "-NaN";
   "-nan"; "1.#IND"; "1.#QNAN"; "<NA>"; "N/A"; "NA"; "NULL"; "NaN"; "None";
   "n/a"; "nan"; "null"].

(** A cell written by [to_csv] and read back in a text column: a
    missing cell is written as the empty field. *)
Definition read_text (c : cell) : option string :=
  match c with
  | Str s => if PyStr.mem s na_values then None else Some s
  | _ => None
  end.

(** The same in a numeric column. *)
Definition read_number (c : cell) : option Q :=
  match c with
  | Num q => Some q
  | _ => None
  end.

Definition is_letter (c : ascii) : bool :=
  let n := nat_of_ascii c in
  orb (andb (65 <=? n)%nat (n <=? 90)%nat) (andb (97 <=? n)%nat (n <=? 122)%nat).

(** A text that [read_csv] takes neither for a missing value nor for a
    number nor for a truth value: it begins with a letter and is none
    of the words the parser knows. *)
Definition plain_word (c : cell) : bool :=
  match c with
  | Str s =>
      match s with
      | String a _ =>
          andb (is_letter a)
               (andb (negb (PyStr.mem s na_values))
                     (negb (PyStr.mem (PyStr.lower s)
                              ["nan"; "inf"; "infinity"; "true"; "false"])))
      | EmptyString => false
      end
  | _ => false
  end.

Definition is_text (c : cell) : bool :=
  match c with
  | Str _ => true
  | _ => false
  end.

Definition is_number (c : cell) : bool :=
  match c with
  | Num _ => true
  | _ => false
  end.

(** A column of [cleaned_data.csv] as [pd.read_csv] types it: a column
    without rows is of object dtype, a column of numbers and missing
    cells is numeric, a column of text that holds a plain word is of
    object dtype, its missing-value words read as NaN.  [None] stands
    for the columns left out here: text that may all be read as numbers
    or truth values, and numbers next to text. *)
Definition read_column (cs : list cell) : option column :=
  match cs with
  | [] => Some (ObjCol [])
  | _ =>
      if forallb (fun c => negb (is_text c)) cs
      then Some (NumCol (map read_number cs))
      else if andb (existsb plain_word cs) (forallb (fun c => negb (is_number c)) cs)
           then Some (ObjCol (map read_text cs))
           else None
  end.

(** *** Summaries (sections 2 and 9) *)

(** The four numbers of a summary: [df.shape[0]], [df.shape[1]],
    [df.isna().sum().sum()] and [df.duplicated().sum()]. *)
Record summary : Type := mkSummary {
  n_rows : nat;
  n_columns : nat;
  missing_values : nat;
  duplicates : nat
}.

Definition is_missing (c : cell) : bool :=
  match c with
  | NaN => true
  | _ => false
  end.

Definition summarize (f : Frame) : summary :=
  mkSummary (len f)
            (length (cols f))
            (list_sum (map (fun nc => length (filter is_missing (snd nc))) (cols f)))
            (count_true (duplicated row_eqb (rows f))).

(** [raw_summary], of the table as it was loaded. *)
Definition raw_summary (df_raw : DataFrame) : summary :=
  summarize (to_frame df_raw).

(** The two columns of the cleaning report: before and after. *)
Definition report (df_raw : DataFrame) : result (summary * summary) :=
  r <- clean df_raw ;;
  Ok (raw_summary df_raw, summarize (fst r)).

End Cleaning.

(* ================================================================= *)
(** ** data/app.py *)

Module App.

Import Pandas.
Local Open Scope Q_scope.

(** *** Loading the cleaned table *)

(** The [try] around [pd.read_csv("cleaned_data.csv")]; [read] is what
    the call returns or raises. *)
Definition load_cleaned_data (read : result DataFrame) : log * result DataFrame :=
  match read with
  | Ok df => ([(INFO, "Cleaned dataset loaded successfully")], Ok df)
  | Raise e =>
      if is_exception e
      then ([(ERROR, "Failed to load cleaned data")],
            Raise (SystemExit (ExitMsg "Error")))
      else ([], Raise e)
  end.

(** *** Column names and the numeric flag *)

Definition rename_outcome (df : DataFrame) : DataFrame :=
  if andb (has_column "outcome" df) (negb (has_column "claim_status" df))
  then rename "outcome" "claim_status" df
  else df.

(** [s.map({1: "claim", 0: "no claim"})]: a value that is no key of the
    dictionary becomes NaN. *)
Definition map_codes (xs : list (option Q)) : list (option string) :=
  map (fun x => match x with
                | Some q => if Qeq_bool q 1 then Some "claim"
                            else if Qeq_bool q 0 then Some "no claim"
                            else None
                | None => None
                end) xs.

Definition readable_claim_status (df : DataFrame) : DataFrame :=
  match lookup "claim_status" (cols df) with
  | Some (NumCol xs) => setitem "claim_status" (ObjCol (map_codes xs)) df
  | _ => df
  end.

(** [str(x).lower()] looked up in [{"claim": 1, "no claim": 0}]. *)
Definition flag_of_text (s : string) : option Q :=
  let t := PyStr.lower s in
  if String.eqb t "claim" then Some 1
  else if String.eqb t "no claim" then Some 0
  else None.

(** [s.astype(str).str.lower().map({"claim": 1, "no claim": 0})], then
    [pd.to_numeric(..., errors="coerce")].  The text of a number is
    neither of the two labels. *)
Definition claim_flag_of (c : column) : list (option Q) :=
  match c with
  | ObjCol xs => map (fun x => flag_of_text (PyStr.str x)) xs
  | NumCol xs => map (fun _ => None) xs
  end.

Definition add_claim_flag (df : DataFrame) : log * result DataFrame :=
  match lookup "claim_status" (cols df) with
  | Some c =>
      ([(INFO, "Created 'claim_flag' numeric column for aggregations")],
       Ok (setitem "claim_flag" (NumCol (claim_flag_of c)) df))
  | None =>
      ([(ERROR, "Column 'claim_status' not found after loading. Aborting.")],
       Raise (SystemExit (ExitMsg "Column 'claim_status' not found in dataset.")))
  end.

(** The module up to the definition of [calculate_metrics]: the global
    table [df] of the dashboard, with what was logged. *)
Definition prepare (read : result DataFrame) : log * result DataFrame :=
  let (l1, r) := load_cleaned_data read in
  match r with
  | Ok df =>
      let (l2, r2) := add_claim_flag (readable_claim_status (rename_outcome df)) in
      (l1 ++ l2, r2)
  | Raise e => (l1, Raise e)
  end.

(** *** Metrics *)

Record metrics : Type := mkMetrics {
  total_customers : nat;
  total_claims : Z;
  claim_rate : Q;
  (** [None] is Python's [None]; [Some None] is NaN. *)
  avg_credit_score : option (option Q);
  avg_mileage : option (option Q)
}.

(** [round(x, 2)] of a float that may be NaN. *)
Definition round2 (x : option Q) : option Q := option_map PyNum.round2 x.

(** [int(flag.fillna(0).sum())] *)
Definition count_claims (flag : list (option Q)) : Z :=
  PyNum.int (sum (fillna (Some 0) flag)).

(** [round(flag.dropna().mean() * 100, 2) if not flag.dropna().empty
    else 0.0], on doubles: the mean, its product by 100 and the product
    by 100 inside [round] are each rounded to a double. *)
Definition rate_of (flag : list (option Q)) : Q :=
  match F64.mean_of (dropna flag) with
  | Some m => F64.round2 (F64.mul m 100)
  | None => 0
  end.

(** [round(data[name].mean(), 2) if name in data.columns else None] *)
Definition average (name : string) (data : DataFrame)
  : result (option (option Q)) :=
  match lookup name (cols data) with
  | Some c => xs <- numeric c ;; Ok (Some (round2 (mean xs)))
  | None => Ok None
  end.

(** [data["claim_flag"]], as numbers. *)
Definition claim_flag (data : DataFrame) : result (list (option Q)) :=
  c <- getitem "claim_flag" data ;;
  numeric c.

Definition calculate_metrics (data : DataFrame) : result metrics :=
  flag <- claim_flag data ;;
  cs <- average "credit_score" data ;;
  am <- average "annual_mileage" data ;;
  Ok (mkMetrics (len data) (count_claims flag) (rate_of flag) cs am).

(** *** The callback *)

(** The objects of the process: the tables, by reference, and the log
    file.  The global [df] is one of the tables. *)
Record state : Type := mkState {
  heap : list DataFrame;
  logged : log
}.

Definition loc := nat.

Definition M (A : Type) : Type := state -> result A * state.

Definition ret {A} (a : A) : M A := fun s => (Ok a, s).

Definition lift {A} (r : result A) : M A := fun s => (r, s).

Definition bindM {A B} (m : M A) (k : A -> M B) : M B :=
  fun s => match m s with
           | (Ok a, s') => k a s'
           | (Raise e, s') => (Raise e, s')
           end.

Notation "x <~ m ;; k" := (bindM m (fun x => k))
  (at level 61, m at next level, right associativity).

Definition empty_frame : DataFrame := mkTable [] [].

(** The table a reference points to. *)
Definition deref (l : loc) : M DataFrame :=
  fun s => (Ok (nth l (heap s) empty_frame), s).

(** A new table object. *)
Definition alloc (d : DataFrame) : M loc :=
  fun s => (Ok (length (heap s)), mkState (heap s ++ [d]) (logged s)).

Fixpoint set_nth {A} (n : nat) (a : A) (xs : list A) : list A :=
  match n, xs with
  | O, _ :: r => a :: r
  | S k, x :: r => x :: set_nth k a r
  | _, [] => []
  end.

(** A table object changed in place. *)
Definition store (l : loc) (d : DataFrame) : M unit :=
  fun s => (Ok tt, mkState (set_nth l d (heap s)) (logged s)).

Definition logging (lv : level) (msg : string) : M unit :=
  fun s => (Ok tt, mkState (heap s) (logged s ++ [(lv, msg)])).

(** [d.copy()] *)
Definition copy (l : loc) : M loc :=
  d <~ deref l ;; alloc d.

(** [d = d[d[name].isin(selected)]] when something is selected: the
    reference to the new table, or the old reference. *)
Definition filter_isin (name : string) (selected : list key) (l : loc) : M loc :=
  match selected with
  | [] => ret l
  | _ =>
      d <~ deref l ;;
      c <~ lift (getitem name d) ;;
      alloc (filter_rows (isin selected c) d)
  end.

(** [calculate_metrics(d)] on a reference. *)
Definition calculate_metrics_at (l : loc) : M metrics :=
  d <~ deref l ;; lift (calculate_metrics d).

(** The five cards; the thousands separator cannot format [None]. *)
Definition kpi_cards (m : metrics) : result metrics :=
  match avg_mileage m with
  | Some _ => Ok m
  | None => Raise TypeError
  end.

(** The key column of a grouped table has the dtype of the column it
    was grouped by. *)
Definition key_column (like : column) (ks : list (option key)) : column :=
  match like with
  | NumCol _ =>
      NumCol (map (fun k => match k with Some (KNum q) => Some q | _ => None end) ks)
  | ObjCol _ =>
      ObjCol (map (fun k => match k with Some (KStr s) => Some s | _ => None end) ks)
  end.

(** [d.groupby(by, dropna=False)["claim_flag"]]: the groups. *)
Definition claim_groups (by_ : string) (d : DataFrame)
  : result (list (option key * list (option Q))) :=
  kc <- getitem by_ d ;;
  fc <- getitem "claim_flag" d ;;
  flag <- numeric fc ;;
  Ok (groupby false (keys_of kc) flag).

(** [... .mean().reset_index().rename(columns={"claim_flag":
    "claim_rate"})]: a new table of one row per group. *)
Definition grouped_mean (by_ : string) (d : DataFrame) : result DataFrame :=
  kc <- getitem by_ d ;;
  g <- claim_groups by_ d ;;
  Ok (mkTable (seq 0 (length g))
              [(by_, key_column kc (map fst g));
               ("claim_rate", NumCol (map (fun kv => mean (snd kv)) g))]).

(** [g["claim_rate"] = g["claim_rate"] * 100], in place. *)
Definition scale_claim_rate (l : loc) : M unit :=
  g <~ deref l ;;
  c <~ lift (getitem "claim_rate" g) ;;
  xs <~ lift (numeric c) ;;
  store l (setitem "claim_rate"
                   (NumCol (map (option_map (fun q => q * 100)) xs)) g).

(** One bar chart: the grouped table, scaled, and what [px.bar] draws
    from it. *)
Definition claim_rate_chart (by_ : string) (l : loc) : M DataFrame :=
  d <~ deref l ;;
  g <~ lift (grouped_mean by_ d) ;;
  lg <~ alloc g ;;
  _ <~ scale_claim_rate lg ;;
  deref lg.

(** [px.box(d, x=..., y=...)]: the two columns drawn. *)
Definition box_chart (x y : string) (l : loc) : M (column * column) :=
  d <~ deref l ;;
  match lookup x (cols d), lookup y (cols d) with
  | Some cx, Some cy => ret (cx, cy)
  | _, _ => lift (Raise ValueError)
  end.

Record selection : Type := mkSelection {
  selected_age : list key;
  selected_gender : list key;
  selected_experience : list key;
  selected_year : list key
}.

Record dashboard : Type := mkDashboard {
  kpi : metrics;
  fig_age : DataFrame;
  fig_gender : DataFrame;
  fig_experience : DataFrame;
  fig_ownership : DataFrame;
  fig_year : DataFrame;
  fig_speeding : column * column
}.

(** The selected rows of the global table, as a new table. *)
Definition filtered (df : loc) (sel : selection) : M loc :=
  l <~ copy df ;;
  l <~ filter_isin "age" (selected_age sel) l ;;
  l <~ filter_isin "gender" (selected_gender sel) l ;;
  l <~ filter_isin "driving_experience" (selected_experience sel) l ;;
  filter_isin "vehicle_year" (selected_year sel) l.

Definition update_body (df : loc) (sel : selection) : M dashboard :=
  l <~ filtered df sel ;;
  m <~ calculate_metrics_at l ;;
  k <~ lift (kpi_cards m) ;;
  a <~ claim_rate_chart "age" l ;;
  g <~ claim_rate_chart "gender" l ;;
  e <~ claim_rate_chart "driving_experience" l ;;
  o <~ claim_rate_chart "vehicle_ownership" l ;;
  y <~ claim_rate_chart "vehicle_year" l ;;
  b <~ box_chart "claim_status" "speeding_violations" l ;;
  _ <~ logging INFO "Dashboard updated successfully with current filter selection." ;;
  ret (mkDashboard k a g e o y b).

(** [update_dashboard]: the body, and [except Exception] which logs
    and raises again. *)
Definition update_dashboard (df : loc) (sel : selection) : M dashboard :=
  fun s =>
    match update_body df sel s with
    | (Raise e, s') =>
        if is_exception e
        then (Raise e, mkState (heap s') (logged s' ++ [(ERROR, "Dashboard update failed")]))
        else (Raise e, s')
    | r => r
    end.

(** *** The layout *)

(** Insertion of a value in an ascending list. *)
Fixpoint insert_value (k : key) (ks : list key) : list key :=
  match ks with
  | [] => [k]
  | j :: r => if key_leb k j then k :: ks else j :: insert_value k r
  end.

(** [sorted(values)] *)
Definition sorted (ks : list key) : list key := fold_right insert_value [] ks.

(** [sorted(df[name].dropna().unique())]: the options of a dropdown. *)
Definition options (name : string) (df : DataFrame) : result (list key) :=
  c <- getitem name df ;;
  Ok (sorted (unique key_eqb (dropna (keys_of c)))).

End App.

(* ================================================================= *)
(** ** metrics_summary.py *)

Module MetricsSummary.

Import Pandas.
Local Open Scope Q_scope.

(** The [try] around [pd.read_csv("cleaned_data.csv")]. *)
Definition load_cleaned_data (read : result DataFrame) : log * result DataFrame :=
  match read with
  | Ok df => ([(INFO, "Cleaned dataset loaded successfully.")], Ok df)
  | Raise e =>
      if is_exception e
      then ([(ERROR, "Error loading cleaned data")], Raise (SystemExit ExitNone))
      else ([], Raise e)
  end.

(** [x.str.lower() == "claim"] on one cell; false for NaN. *)
Definition is_claim (x : option string) : bool :=
  match x with
  | Some s => String.eqb (PyStr.lower s) "claim"
  | None => false
  end.

Definition indicator (b : bool) : Q := if b then 1 else 0.

(** The mean of a Boolean series: every row counts. *)
Definition bool_mean (bs : list bool) : option Q :=
  mean_of (map indicator bs).

Definition scale (x : option Q) : option Q :=
  option_map (fun q => Qred (q * 100)) x.

(** [total_claims] of section 3, by the dtype of the column. *)
Definition total_claims (c : column) : Q :=
  match c with
  | ObjCol xs => PyNum.sum (map indicator (map is_claim xs))
  | NumCol xs => sum xs
  end.

(** [claim_rate] of section 3, by the dtype of the column; NaN is
    [None].  This is the number that the float stands for, the error
    in its last bits left aside. *)
Definition claim_rate (c : column) : option Q :=
  match c with
  | ObjCol xs => scale (bool_mean (map is_claim xs))
  | NumCol xs => scale (mean xs)
  end.

(** [claim_rate] of section 3 as the double that [round] receives: the
    mean and its product by 100 are each rounded to a double. *)
Definition claim_rate_double (c : column) : option Q :=
  option_map (fun m => F64.mul m 100)
    match c with
    | ObjCol xs => F64.mean_of (map indicator (map is_claim xs))
    | NumCol xs => F64.mean_of (dropna xs)
    end.

(** The row "Claim Rate (%)" of the summary table:
    [round(claim_rate, 2)]. *)
Definition summary_claim_rate (df : DataFrame) : result (option Q) :=
  c <- getitem "claim_status" df ;;
  Ok (option_map F64.round2 (claim_rate_double c)).

(** [df.groupby(by)["claim_status"]]: the groups, each a series of the
    dtype of the column.  Rows whose key is missing are in no group. *)
Definition status_groups (by_ : string) (df : DataFrame)
  : result (list (option key * column)) :=
  kc <- getitem by_ df ;;
  c <- getitem "claim_status" df ;;
  Ok (match c with
      | ObjCol xs =>
          map (fun g => (fst g, ObjCol (snd g))) (groupby true (keys_of kc) xs)
      | NumCol xs =>
          map (fun g => (fst g, NumCol (snd g))) (groupby true (keys_of kc) xs)
      end).

(** [claims_by_age] and its four siblings: the lambda applied to each
    group, in the order of [sort_index]. *)
Definition claims_by (by_ : string) (df : DataFrame)
  : result (list (option key * option Q)) :=
  gs <- status_groups by_ df ;;
  Ok (map (fun g => (fst g, claim_rate (snd g))) gs).

(** The number of rows in each group of a breakdown. *)
Definition group_sizes (by_ : string) (df : DataFrame) : result (list nat) :=
  gs <- status_groups by_ df ;;
  Ok (map (fun g => col_length (snd g)) gs).

End MetricsSummary.

(* ================================================================= *)
(** ** data_visualization.py *)

Module Visualization.

Import Pandas.
Local Open Scope Q_scope.

(** The [try] around [pd.read_csv("cleaned_data.csv")]. *)
Definition load_cleaned_data (read : result DataFrame) : log * result DataFrame :=
  match read with
  | Ok df => ([(INFO, "Dataset loaded successfully")], Ok df)
  | Raise e =>
      if is_exception e
      then ([(ERROR, "Error loading dataset")], Raise (SystemExit ExitNone))
      else ([], Raise e)
  end.

Definition claim_words : list string := ["yes"; "claim"; "1"; "true"].

(** [lambda x: 1 if str(x).lower() in ["yes", "claim", "1", "true"]
    else 0] *)
Definition to_num (x : option string) : Q :=
  if PyStr.mem (PyStr.lower (PyStr.str x)) claim_words then 1 else 0.

(** [df["claim_status_num"]], by the dtype of [claim_status]. *)
Definition claim_status_num (c : column) : list (option Q) :=
  match c with
  | ObjCol xs => map (fun x => Some (to_num x)) xs
  | NumCol xs => xs
  end.

Definition preprocess (df : DataFrame) : result DataFrame :=
  c <- getitem "claim_status" df ;;
  Ok (setitem "claim_status_num" (NumCol (claim_status_num c)) df).

(** [df.groupby(by, as_index=False)["claim_status_num"]]: the groups. *)
Definition num_groups (by_ : string) (df : DataFrame)
  : result (list (option key * list (option Q))) :=
  kc <- getitem by_ df ;;
  c <- getitem "claim_status_num" df ;;
  xs <- numeric c ;;
  Ok (groupby true (keys_of kc) xs).

(** [... .mean().sort_values(by)], then the column times 100: what the
    interactive bar charts draw. *)
Definition grouped_rate (by_ : string) (df : DataFrame)
  : result (list (option key * option Q)) :=
  gs <- num_groups by_ df ;;
  Ok (map (fun g => (fst g, option_map (fun q => Qred (q * 100)) (mean (snd g)))) gs).

End Visualization.

(* ================================================================= *)
(** * Notions of the specification, and tables to try them on *)

Section Notions.

Import Pandas Cleaning App Visualization.
Local Open Scope Q_scope.

(** ** Cleaning *)

(** Every number of the series lies in [0,1]. *)
Definition in_range (xs : list (option Q)) : Prop :=
  forall q, In (Some q) xs -> 0 <= q <= 1.

(** No cell of the series is missing. *)
Definition complete {A} (xs : list (option A)) : Prop :=
  forall x, In x xs -> x <> None.

(** The cells of a numeric column once its missing values are filled
    with its median. *)
Definition filled (xs : list (option Q)) : list (option Q) :=
  fillna (median xs) xs.

(** The annual mileage cells after the positive check. *)
Definition mileage_checked (xs : list (option Q)) : list (option Q) :=
  assign (invalid_mileage_mask xs) (median xs) xs.

(** The cells of a category column after its validation. *)
Definition category_checked (valid : list string) (c : list cell) : list cell :=
  assign (invalid_category_mask valid c) NaN c.

(** A cell holds a number of [0,1]. *)
Definition in_unit_interval (c : cell) : Prop :=
  match c with
  | Num q => 0 <= q <= 1
  | _ => False
  end.

(** The text of a cell of ASCII text after the standardization of
    text columns: the text trimmed and in lower case, and [nan] for a
    missing cell. *)
Definition standard_text (x : option string) : string :=
  match x with
  | Some s => PyStr.lower (PyStr.strip s)
  | None => "nan"
  end.

(** The text is ASCII: each of its characters is below 128. *)
Fixpoint ascii_text (s : string) : bool :=
  match s with
  | EmptyString => true
  | String c r => andb (nat_of_ascii c <? 128)%nat (ascii_text r)
  end.

(** The texts of the column are ASCII. *)
Definition ascii_cells (xs : list (option string)) : Prop :=
  forall s, In (Some s) xs -> ascii_text s = true.

(** The median of the valid values of the column, those above 0. *)
Definition median_of_valid (xs : list (option Q)) : option Q :=
  median (filter (fun x => match x with
                           | Some q => Qlt_bool 0 q
                           | None => false
                           end) xs).

(** The positive check as the specification words it: a value that is
    not above 0 is replaced by the median of the valid values. *)
Definition replace_by_median_of_valid (xs : list (option Q)) : list (option Q) :=
  assign (invalid_mileage_mask xs) (median_of_valid xs) xs.

(** A raw table whose credit score is missing in its only row. *)
Definition no_credit_score : DataFrame :=
  mkTable [0%nat]
    [("credit_score", NumCol [None]); ("annual_mileage", NumCol [Some 12000])].

(** A raw table with a score above 1, a missing score and a score
    below 0. *)
Definition some_credit_scores : DataFrame :=
  mkTable [0%nat; 1%nat; 2%nat]
    [("credit_score", NumCol [Some (3 # 2); None; Some (-1 # 5)]);
     ("annual_mileage", NumCol [Some 12000; Some 9000; None])].

(** A raw table whose text columns each hold a missing value. *)
Definition missing_text : DataFrame :=
  mkTable [0%nat; 1%nat]
    [("credit_score", NumCol [Some (1 # 2); Some (1 # 4)]);
     ("annual_mileage", NumCol [Some 12000; Some 9000]);
     ("age", ObjCol [Some " Young"; None]);
     ("vehicle_ownership", ObjCol [Some "Owned"; None])].

(** A raw table with two mileages that are not positive. *)
Definition negative_mileage : DataFrame :=
  mkTable [0%nat; 1%nat; 2%nat]
    [("credit_score", NumCol [Some (1 # 10); Some (2 # 10); Some (3 # 10)]);
     ("annual_mileage", NumCol [Some (-10); Some (-5); Some 100])].

(** A raw table whose claim status is text in which the codes 1 and 0
    stand next to words. *)
Definition raw_coded_status : DataFrame :=
  mkTable [0%nat; 1%nat; 2%nat; 3%nat; 4%nat]
    [("credit_score",
      NumCol [Some (1 # 10); Some (2 # 10); Some (3 # 10); Some (4 # 10); Some (5 # 10)]);
     ("annual_mileage",
      NumCol [Some 12000; Some 9000; Some 7000; Some 5000; Some 3000]);
     ("claim_status",
      ObjCol [Some "1"; Some "0"; Some "1"; Some "claim"; Some "bogus"])].

(** ** Metrics *)

(** The number of rows whose indicator is not missing. *)
Fixpoint valid_rows (flag : list (option Q)) : nat :=
  match flag with
  | [] => O
  | Some _ :: r => S (valid_rows r)
  | None :: r => valid_rows r
  end.

(** The sum of the indicators that are not missing. *)
Fixpoint claims_among_valid (flag : list (option Q)) : Q :=
  match flag with
  | [] => 0
  | Some q :: r => q + claims_among_valid r
  | None :: r => claims_among_valid r
  end.

(** The mean of the indicator over the rows where it is not missing,
    as a percentage: an exact number. *)
Definition percentage_over_valid (flag : list (option Q)) : Q :=
  100 * (claims_among_valid flag / inject_Z (Z.of_nat (valid_rows flag))).

(** [r] is [x] rounded to 2 decimals: a whole number of hundredths, and
    none is nearer to [x]. *)
Definition rounded_to_2_decimals (x r : Q) : bool :=
  Qeq_bool (inject_Z (Qfloor (r * 100)) / 100) r
  && Qle_bool (x - (1 # 200)) r && Qle_bool r (x + (1 # 200)).

(** The claim rate in the words of the specification: [r] is the mean
    of the indicator over the rows where it is not missing, as a
    percentage rounded to 2 decimals; 0.0 when there is no such row. *)
Definition claim_rate_over_valid (flag : list (option Q)) (r : Q) : bool :=
  match valid_rows flag with
  | O => Qeq_bool r 0
  | S _ => rounded_to_2_decimals (percentage_over_valid flag) r
  end.

(** The indicator of [n] rows of which the first [k] are claims. *)
Definition claims_of (k n : nat) : list (option Q) :=
  repeat (Some 1%Q) k ++ repeat (Some 0%Q) (n - k).

(** The same claim status in the table the dashboard loads: read from
    a file, a column that holds words is text, and so are its 1 and 0. *)
Definition coded_status : DataFrame :=
  mkTable [0%nat; 1%nat; 2%nat; 3%nat; 4%nat]
    [("claim_status",
      ObjCol [Some "1"; Some "0"; Some "1"; Some "claim"; Some "bogus"])].

(** The same column with the labels in place of the codes. *)
Definition labelled_status : DataFrame :=
  mkTable [0%nat; 1%nat; 2%nat; 3%nat; 4%nat]
    [("claim_status",
      ObjCol [Some "claim"; Some "no claim"; Some "claim"; Some "claim"; None])].

(** The metrics of the dashboard on the table it has loaded, nothing
    being selected. *)
Definition loaded_metrics (read : result DataFrame) : result metrics :=
  df <- snd (prepare read) ;;
  calculate_metrics df.

(** A cleaned table, as it is read back, with a missing age. *)
Definition missing_age : DataFrame :=
  mkTable [0%nat; 1%nat]
    [("age", ObjCol [Some "young"; None]);
     ("claim_status", ObjCol [Some "claim"; Some "claim"]);
     ("claim_flag", NumCol [Some 1; Some 1])].

(** ** Charts *)


(** A table of the visualization script with a missing and an unknown
    claim status. *)
Definition chart_table : DataFrame :=
  mkTable [0%nat; 1%nat; 2%nat; 3%nat]
    [("driving_experience", ObjCol [Some "0-9y"; Some "0-9y"; Some "10-19y"; Some "0-9y"]);
     ("claim_status", ObjCol [Some "Claim"; None; Some "bogus"; Some "no claim"])].

(** ** The callback *)

(** A table of the dashboard. *)
Definition dashboard_table : DataFrame :=
  mkTable [0%nat; 1%nat; 2%nat]
    [("age", ObjCol [Some "young"; None; Some "old"]);
     ("gender", ObjCol [Some "female"; Some "male"; Some "male"]);
     ("driving_experience", ObjCol [Some "0-9y"; Some "0-9y"; Some "10-19y"]);
     ("vehicle_year", ObjCol [Some "after 2015"; Some "before 2015"; None]);
     ("vehicle_ownership", ObjCol [Some "owned"; Some "leased"; None]);
     ("credit_score", NumCol [Some (1 # 2); Some (1 # 4); None]);
     ("annual_mileage", NumCol [Some 12000; Some 9000; Some 7000]);
     ("speeding_violations", NumCol [Some 0; Some 2; Some 1]);
     ("claim_status", ObjCol [Some "claim"; Some "no claim"; None]);
     ("claim_flag", NumCol [Some 1; Some 0; None])].

(** A state of the process in which it is the only table. *)
Definition dashboard_state : state := mkState [dashboard_table] [].

Definition young_selected : selection := mkSelection [KStr "young"] [] [] [].

(** The rows a selection keeps. *)
Definition apply_filter (name : string) (selected : list key) (d : DataFrame)
  : result DataFrame :=
  match selected with
  | [] => Ok d
  | _ => c <- getitem name d ;; Ok (filter_rows (isin selected c) d)
  end.

Definition filtered_df (d : DataFrame) (sel : selection) : result DataFrame :=
  d <- apply_filter "age" (selected_age sel) d ;;
  d <- apply_filter "gender" (selected_gender sel) d ;;
  d <- apply_filter "driving_experience" (selected_experience sel) d ;;
  apply_filter "vehicle_year" (selected_year sel) d.

(** The table a bar chart draws. *)
Definition chart_of (by_ : string) (d : DataFrame) : result DataFrame :=
  g <- grouped_mean by_ d ;;
  c <- getitem "claim_rate" g ;;
  xs <- numeric c ;;
  Ok (setitem "claim_rate" (NumCol (map (option_map (fun q => q * 100)) xs)) g).

Definition box_of (x y : string) (d : DataFrame) : result (column * column) :=
  match lookup x (cols d), lookup y (cols d) with
  | Some cx, Some cy => Ok (cx, cy)
  | _, _ => Raise ValueError
  end.

(** The dashboard as a function of the table and of the selection. *)
Definition dashboard_of (df : DataFrame) (sel : selection) : result dashboard :=
  d <- filtered_df df sel ;;
  m <- calculate_metrics d ;;
  k <- kpi_cards m ;;
  a <- chart_of "age" d ;;
  g <- chart_of "gender" d ;;
  e <- chart_of "driving_experience" d ;;
  o <- chart_of "vehicle_ownership" d ;;
  y <- chart_of "vehicle_year" d ;;
  b <- box_of "claim_status" "speeding_violations" d ;;
  Ok (mkDashboard k a g e o y b).

(** The tables of [s] are those of [s'], which may have more. *)
Definition grows (s s' : state) : Prop :=
  exists new, heap s' = heap s ++ new.

(** ** Groups *)

Section Distinct.

Context {A : Type}.
Variable eqb : A -> A -> bool.

(** The elements of a list that are equal to none of the elements
    seen. *)
Definition fresh_in (seen : list A) (y : A) : bool :=
  negb (existsb (eqb y) seen).

(** The elements that repeat none of the elements seen nor an
    earlier element. *)
Definition kept (seen xs : list A) : list A :=
  Pandas.select (map negb (Pandas.dup_mask eqb seen xs)) xs.

(** The size of the group of [k] in [xs]. *)
Definition group_size (xs : list A) (k : A) : nat :=
  length (filter (eqb k) xs).

End Distinct.

(** ** Text *)

(** The character [c] as [str.replace(" ", "_")] leaves it. *)
Definition underscore (c : ascii) : ascii :=
  if Ascii.eqb c " "%char then "_"%char else c.

(** The text is empty or begins with a character that is no space. *)
Definition starts_clean (s : string) : bool :=
  match s with
  | EmptyString => true
  | String c _ => negb (PyStr.isspace c)
  end.

(** The text is empty or ends with a character that is no space. *)
Fixpoint ends_clean (s : string) : bool :=
  match s with
  | EmptyString => true
  | String c EmptyString => negb (PyStr.isspace c)
  | String _ r => ends_clean r
  end.


(** A raw table without mileage, and one without scores. *)
Definition no_mileage_column : DataFrame :=
  mkTable [0%nat] [("Credit Score", NumCol [Some (1 # 2)])].

(** A raw table with the headers [Age] and [age]. *)
Definition clashing_names : DataFrame :=
  mkTable [0%nat]
    [("Age", ObjCol [Some "young"]); ("age", ObjCol [Some "old"]);
     ("credit_score", NumCol [Some (1 # 2)]);
     ("annual_mileage", NumCol [Some 12000])].

Definition text_scores : DataFrame :=
  mkTable [0%nat]
    [("credit_score", ObjCol [Some "high"]); ("annual_mileage", NumCol [Some 12000])].

(** The numbers of the list go up, each no more than all that follow. *)
Fixpoint ascending (s : list Q) : Prop :=
  match s with
  | [] => True
  | x :: r => (forall y, In y r -> x <= y) /\ ascending r
  end.

Definition nonpositive (q : Q) : bool := Qle_bool q 0.

(** The record of a rule: nothing when no cell offends, else the name of
    the column with the number of offending cells. *)
Definition issue (name : string) (m : list bool) : issues :=
  if existsb id m then [(name, count_true m)] else [].

(** The offending cells of a category column of the table, if it has
    the column. *)
Definition category_mask (name zero one : string) (valid : list string)
    (df : DataFrame) : list bool :=
  match lookup name (cols df) with
  | Some c => invalid_category_mask valid (map (replace_code zero one) (cells_of c))
  | None => []
  end.

(** A raw table whose scores are in range, one of them missing. *)
Definition scores_in_range : DataFrame :=
  mkTable [0%nat; 1%nat; 2%nat]
    [("credit_score", NumCol [Some (1 # 5); None; Some (4 # 5)]);
     ("annual_mileage", NumCol [Some 12000; Some (-1); Some 9000])].

(** The cell of a category column for a numeric code. *)
Definition code_label (zero one : string) (x : option Q) : cell :=
  match x with
  | Some q => if Qeq_bool q 0 then Str zero
              else if Qeq_bool q 1 then Str one else NaN
  | None => NaN
  end.

(** The cell of a category column for a text. *)
Definition text_label (valid : list string) (x : option string) : cell :=
  if PyStr.mem (standard_text x) valid then Str (standard_text x) else NaN.

(** A raw table with codes for the ownership and text for the claim. *)
Definition coded_ownership : DataFrame :=
  mkTable [0%nat; 1%nat; 2%nat; 3%nat]
    [("credit_score", NumCol [Some (1 # 10); Some (2 # 10); Some (3 # 10); Some (4 # 10)]);
     ("annual_mileage", NumCol [Some 12000; Some 9000; Some 7000; Some 5000]);
     ("vehicle_ownership", NumCol [Some 1; Some 0; Some 2; None]);
     ("claim_status", ObjCol [Some " Claim"; Some "NO CLAIM"; Some "yes"; None])].

(** A raw table whose second and third rows differ in case and white
    space only. *)
Definition near_duplicates : DataFrame :=
  mkTable [0%nat; 1%nat; 2%nat]
    [("credit_score", NumCol [Some (1 # 10); Some (2 # 10); Some (2 # 10)]);
     ("annual_mileage", NumCol [Some 12000; Some 9000; Some 9000]);
     ("age", ObjCol [Some "young"; Some "Old "; Some "old"])].

(** The flag of a numeric claim code. *)
Definition code_flag (x : option Q) : option Q :=
  match x with
  | Some q => if Qeq_bool q 1 then Some 1%Q
              else if Qeq_bool q 0 then Some 0%Q else None
  | None => None
  end.

(** Every flag of the series is missing, 0 or 1. *)
Definition binary (flag : list (option Q)) : Prop :=
  forall x, In x flag -> x = None \/ x = Some 0%Q \/ x = Some 1%Q.

(** A table as an older cleaning step wrote it: the claim is a numeric
    [outcome]. *)
Definition legacy_table : Pandas.DataFrame :=
  Pandas.mkTable [0%nat; 1%nat; 2%nat; 3%nat]
    [("age", Pandas.ObjCol [Some "young"; Some "old"; Some "old"; None]);
     ("outcome", Pandas.NumCol [Some 1; Some 0; Some 2; None]%Q)].

(** A table without any claim column. *)
Definition no_status : Pandas.DataFrame :=
  Pandas.mkTable [0%nat] [("age", Pandas.ObjCol [Some "young"])].

(** The number of flags that are 1. *)
Definition ones (flag : list (option Q)) : nat :=
  length (filter (fun x => match x with
                           | Some q => Qeq_bool q 1
                           | None => false
                           end) flag).

(** Every cell of the column is present and is one of the selected
    values. *)
Definition within (selected : list Pandas.key) (c : Pandas.column) : Prop :=
  forall k, In k (Pandas.keys_of c) ->
            exists x, k = Some x /\ existsb (Pandas.key_eqb x) selected = true.

(** The table obeys the selection made for the column [name]: nothing
    is selected, or every cell of the column is a selected value. *)
Definition obeys (name : string) (selected : list Pandas.key)
    (d : Pandas.DataFrame) : Prop :=
  selected = []
  \/ exists c, Pandas.lookup name (Pandas.cols d) = Some c /\ within selected c.

(** The four filters of the callback, in the order they are applied. *)
Definition filters (sel : App.selection) : list (string * list Pandas.key) :=
  [("age", App.selected_age sel);
   ("gender", App.selected_gender sel);
   ("driving_experience", App.selected_experience sel);
   ("vehicle_year", App.selected_year sel)].

(** The keys go up, the missing key last: each is below its
    successor. *)
Fixpoint ordered (ks : list (option Pandas.key)) : Prop :=
  match ks with
  | [] => True
  | a :: r =>
      match r with
      | [] => True
      | b :: _ => Pandas.okey_leb a b = true
      end /\ ordered r
  end.

(** A bar is missing or a percentage. *)
Definition percentage (r : option Q) : Prop :=
  r = None \/ exists q, r = Some q /\ (0 <= q)%Q /\ (q <= 100)%Q.

(** The columns the callback reads whatever is selected. *)
Definition required_columns : list string :=
  ["age"; "gender"; "driving_experience"; "vehicle_year"; "vehicle_ownership";
   "claim_status"; "speeding_violations"; "annual_mileage"; "claim_flag"].

Definition is_num (c : Pandas.column) : bool :=
  match c with
  | Pandas.NumCol _ => true
  | Pandas.ObjCol _ => false
  end.

(** The column [name] of the table has a numeric dtype, if the table
    has it. *)
Definition numeric_if_present (name : string) (d : Pandas.DataFrame) : Prop :=
  forall c, Pandas.lookup name (Pandas.cols d) = Some c -> is_num c = true.

(** The outcome is no [SystemExit]. *)
Definition plain {A} (r : result A) : Prop :=
  forall e, r = Raise e -> is_exception e = true.

(** The step writes nothing to the log and raises no [SystemExit]. *)
Definition calm {A} (m : App.M A) : Prop :=
  forall s, App.logged (snd (m s)) = App.logged s /\ plain (fst (m s)).

(** The step writes the record [msg] when it returns, and nothing when
    it raises, which is then no [SystemExit]. *)
Definition reports {A} (msg : string) (m : App.M A) : Prop :=
  forall s,
    match fst (m s) with
    | Ok _ => App.logged (snd (m s)) = App.logged s ++ [(INFO, msg)]
    | Raise e => App.logged (snd (m s)) = App.logged s /\ is_exception e = true
    end.

(** The number of cells whose lower case is [claim]. *)
Definition claims_in (xs : list (option string)) : nat :=
  length (filter MetricsSummary.is_claim xs).

(** The cell holds one of the two labels, in any case. *)
Definition labelled (x : option string) : Prop :=
  exists s, x = Some s
            /\ (PyStr.lower s = "claim" \/ PyStr.lower s = "no claim").

(** A table whose claim status is labelled in every row. *)
Definition labelled_table : Pandas.DataFrame :=
  Pandas.mkTable [0%nat; 1%nat; 2%nat]
    [("age", Pandas.ObjCol [Some "young"; Some "old"; None]);
     ("claim_status", Pandas.ObjCol [Some "Claim"; Some "no claim"; Some "claim"])].

(** A table whose claim status is a code, missing in one row. *)
Definition coded_table : Pandas.DataFrame :=
  Pandas.mkTable [0%nat; 1%nat; 2%nat; 3%nat]
    [("age", Pandas.ObjCol [Some "young"; Some "old"; None; Some "old"]);
     ("claim_status", Pandas.NumCol [Some 1; Some 0; None; Some 1]%Q)].

End Notions.

(* ================================================================= *)
(** * Properties *)

(** ** Boolean indexing and duplicates *)

Section Select.

Import Pandas.
Context {A : Type}.

Lemma select_nil_r (m : list bool) : select m (@nil A) = [].
Proof. destruct m as [|[] m]; reflexivity. Qed.

Lemma select_In (m : list bool) (xs : list A) (x : A) :
  In x (select m xs) -> In x xs.
Proof.
  revert xs; induction m as [|b m IH]; intros [|y r]; simpl; try tauto.
  destruct b; simpl; intros H.
  - destruct H as [H|H]; [left; exact H | right; apply IH, H].
  - right; apply IH, H.
Qed.

Lemma select_all_true (n : nat) (xs : list A) :
  (length xs <= n)%nat -> select (repeat true n) xs = xs.
Proof.
  revert xs; induction n as [|n IH]; intros [|x r]; simpl; intros H;
    try reflexivity; try lia.
  f_equal; apply IH; lia.
Qed.

Lemma select_length_le (m : list bool) (xs : list A) :
  (length (select m xs) <= length (filter id m))%nat.
Proof.
  revert xs; induction m as [|b m IH]; intros [|x r]; simpl; try lia.
  destruct b; simpl; specialize (IH r); lia.
Qed.

Lemma select_length (m : list bool) (xs : list A) :
  length m = length xs -> length (select m xs) = length (filter id m).
Proof.
  revert xs; induction m as [|b m IH]; intros [|x r]; simpl; intros H;
    try reflexivity; try discriminate.
  destruct b; simpl; rewrite IH by lia; reflexivity.
Qed.

Lemma select_map {B : Type} (f : A -> B) (m : list bool) (xs : list A) :
  select m (map f xs) = map f (select m xs).
Proof.
  revert xs; induction m as [|b m IH]; intros [|x r]; simpl; try reflexivity.
  destruct b; simpl; rewrite IH; reflexivity.
Qed.

Variable eqb : A -> A -> bool.

Lemma dup_mask_length (seen xs : list A) :
  length (dup_mask eqb seen xs) = length xs.
Proof.
  revert seen; induction xs as [|x r IH]; intros seen; simpl;
    [reflexivity | rewrite IH; reflexivity].
Qed.

(** A second pass over the kept elements marks none of them, as long
    as it has seen no more than the first pass had. *)
Lemma dup_mask_kept (xs seen seen' : list A) :
  (forall x, existsb (eqb x) seen' = true -> existsb (eqb x) seen = true) ->
  dup_mask eqb seen' (select (map negb (dup_mask eqb seen xs)) xs)
  = repeat false (length (select (map negb (dup_mask eqb seen xs)) xs)).
Proof.
  revert seen seen'; induction xs as [|x r IH]; intros seen seen' Hsub; simpl.
  - reflexivity.
  - destruct (existsb (eqb x) seen) eqn:E; simpl.
    + apply IH. intros y Hy. simpl. rewrite (Hsub y Hy). apply orb_true_r.
    + destruct (existsb (eqb x) seen') eqn:E'.
      * rewrite (Hsub x E') in E. discriminate.
      * f_equal. apply IH. intros y. simpl.
        destruct (eqb y x); simpl; [reflexivity | apply Hsub].
Qed.

Lemma duplicated_unique (xs : list A) :
  duplicated eqb (unique eqb xs) = repeat false (length (unique eqb xs)).
Proof.
  unfold unique, duplicated. apply dup_mask_kept. intros x H; exact H.
Qed.

End Select.

Lemma map_negb_repeat_false (n : nat) :
  map negb (repeat false n) = repeat true n.
Proof. induction n; simpl; [reflexivity | rewrite IHn; reflexivity]. Qed.

Lemma filter_id_repeat_true (n : nat) :
  length (filter id (repeat true n)) = n.
Proof. induction n; simpl; [reflexivity | rewrite IHn; reflexivity]. Qed.

(** ** Deduplication *)

Section Dedup.

Import Pandas Cleaning.

(** Taking rows commutes with boolean indexing of the columns. *)
Lemma rows_of_select (m : list bool) (cs : list (list cell)) :
  rows_of (length (filter id m)) (map (select m) cs)
  = select m (rows_of (length m) cs).
Proof.
  revert cs; induction m as [|b m IH]; intros cs; simpl.
  - reflexivity.
  - destruct b; simpl.
    + f_equal.
      * rewrite map_map. apply map_ext. intros [|x c]; reflexivity.
      * rewrite <- IH. f_equal. rewrite !map_map. apply map_ext.
        intros [|x c]; simpl; [symmetry; apply select_nil_r | reflexivity].
    + rewrite <- IH. f_equal. rewrite map_map. apply map_ext.
      intros [|x c]; simpl; [symmetry; apply select_nil_r | reflexivity].
Qed.

Lemma rows_length (f : Frame) : length (rows f) = len f.
Proof.
  unfold rows. generalize (map snd (cols f)). generalize (len f).
  induction n as [|n IH]; intros cs; simpl; [reflexivity | rewrite IH; reflexivity].
Qed.

Lemma keep_mask_length (f : Frame) : length (keep_mask f) = len f.
Proof.
  unfold keep_mask, duplicated.
  rewrite length_map, dup_mask_length. apply rows_length.
Qed.

Lemma len_drop_duplicates (f : Frame) :
  len (drop_duplicates f) = length (filter id (keep_mask f)).
Proof.
  unfold drop_duplicates, len; simpl.
  apply select_length. rewrite keep_mask_length. reflexivity.
Qed.

Lemma rows_drop_duplicates (f : Frame) :
  rows (drop_duplicates f) = unique row_eqb (rows f).
Proof.
  unfold rows at 1. rewrite len_drop_duplicates.
  unfold drop_duplicates; simpl.
  rewrite map_map; simpl.
  rewrite <- (map_map snd (select (keep_mask f))).
  rewrite rows_of_select, keep_mask_length. reflexivity.
Qed.

(** An already deduplicated table keeps all its rows. *)
Lemma keep_mask_drop_duplicates (f : Frame) :
  keep_mask (drop_duplicates f) = repeat true (len (drop_duplicates f)).
Proof.
  unfold keep_mask at 1. rewrite rows_drop_duplicates, duplicated_unique.
  rewrite map_negb_repeat_false. f_equal.
  rewrite <- rows_drop_duplicates. apply rows_length.
Qed.

Lemma rows_reset_index (f : Frame) : rows (reset_index f) = rows f.
Proof. unfold rows, reset_index, len; simpl. rewrite length_seq. reflexivity. Qed.

Lemma drop_duplicates_twice (f : Frame) :
  cols (drop_duplicates (reset_index (drop_duplicates f)))
  = cols (drop_duplicates f)
  /\ len (drop_duplicates (reset_index (drop_duplicates f)))
     = len (drop_duplicates f).
Proof.
  set (g := drop_duplicates f).
  assert (K : keep_mask (reset_index g) = repeat true (len g)).
  { unfold keep_mask. rewrite rows_reset_index. apply keep_mask_drop_duplicates. }
  split.
  - unfold drop_duplicates at 1. cbv zeta. rewrite K.
    cbn [cols reset_index].
    rewrite <- (map_id (cols g)) at 2. apply map_ext_in.
    intros [n c] Hin; simpl. f_equal. apply select_all_true.
    unfold g, drop_duplicates in Hin; simpl in Hin.
    apply in_map_iff in Hin. destruct Hin as [[n' c'] [E _]]. simpl in E.
    injection E as _ <-. unfold g. rewrite len_drop_duplicates.
    apply select_length_le.
  - rewrite len_drop_duplicates, K, filter_id_repeat_true. reflexivity.
Qed.

End Dedup.

(** C7.  Deduplication -- dropping the rows that repeat an earlier row in
    every column, the first occurrence staying, then numbering the rows
    from zero -- is idempotent: applied twice it yields the table it
    yields applied once. *)
Theorem deduplicate_idempotent (f : Cleaning.Frame) :
  Cleaning.deduplicate (Cleaning.deduplicate f) = Cleaning.deduplicate f.
Proof.
  unfold Cleaning.deduplicate.
  destruct (drop_duplicates_twice f) as [Hc Hl].
  unfold Pandas.reset_index at 1 3. rewrite Hc, Hl. reflexivity.
Qed.

(** ** Tables *)

Lemma bind_Ok {A B} (r : result A) (k : A -> result B) (b : B) :
  bind r k = Ok b -> exists a, r = Ok a /\ k a = Ok b.
Proof. destruct r as [a|e]; simpl; intros H; [eauto | discriminate]. Qed.

Ltac bind_inv H :=
  let a := fresh "a" in
  let E := fresh "E" in
  apply bind_Ok in H; destruct H as [a [E H]].

Section TableFacts.

Import Pandas.
Context {C : Type}.

Lemma lookup_update (n m : string) (c : C) (cs : list (string * C)) :
  lookup n (update m c cs) = if String.eqb n m then Some c else lookup n cs.
Proof.
  induction cs as [|[k c'] r IH]; simpl.
  - reflexivity.
  - destruct (String.eqb m k) eqn:Emk; simpl.
    + apply String.eqb_eq in Emk; subst k.
      destruct (String.eqb n m); reflexivity.
    + rewrite IH. destruct (String.eqb n k) eqn:Enk; [|reflexivity].
      apply String.eqb_eq in Enk; subst k.
      rewrite String.eqb_sym, Emk. reflexivity.
Qed.

Lemma lookup_setitem (n m : string) (c : C) (df : table C) :
  lookup n (cols (setitem m c df))
  = if String.eqb n m then Some c else lookup n (cols df).
Proof. apply lookup_update. Qed.

Lemma lookup_map {D : Type} (f : C -> D) (n : string) (cs : list (string * C)) :
  lookup n (map (fun nc => (fst nc, f (snd nc))) cs) = option_map f (lookup n cs).
Proof.
  induction cs as [|[k c] r IH]; simpl; [reflexivity|].
  destruct (String.eqb n k); [reflexivity | exact IH].
Qed.

Lemma getitem_Ok (n : string) (df : table C) (c : C) :
  getitem n df = Ok c <-> lookup n (cols df) = Some c.
Proof.
  unfold getitem. destruct (lookup n (cols df)); split; intros H;
    try discriminate; congruence.
Qed.

Lemma len_setitem (n : string) (c : C) (df : table C) :
  len (setitem n c df) = len df.
Proof. reflexivity. Qed.

End TableFacts.

(** ** The numeric rules of the validator *)

Section NumericRules.

Import Pandas Cleaning.
Local Open Scope Q_scope.

Lemma Qlt_bool_false (a b : Q) : Qlt_bool a b = false -> b <= a.
Proof.
  unfold Qlt_bool. intros H. apply negb_false_iff in H.
  apply Qle_bool_iff. exact H.
Qed.

Lemma clip_in_range (xs : list (option Q)) : in_range (clip 0 1 xs).
Proof.
  intros q H. unfold clip in H. apply in_map_iff in H.
  destruct H as [[p|] [E _]]; simpl in E; [|discriminate].
  injection E as <-.
  destruct (Qlt_bool p 0) eqn:E0; [lra|].
  apply Qlt_bool_false in E0.
  destruct (Qlt_bool 1 p) eqn:E1; [lra|].
  apply Qlt_bool_false in E1. lra.
Qed.

Lemma existsb_id_false {A} (f : A -> bool) (xs : list A) (x : A) :
  existsb id (map f xs) = false -> In x xs -> f x = false.
Proof.
  induction xs as [|y r IH]; simpl; [tauto|].
  intros H [->|Hin]; apply orb_false_iff in H; destruct H as [H1 H2].
  - exact H1.
  - apply IH; assumption.
Qed.

Lemma no_invalid_in_range (xs : list (option Q)) :
  existsb id (invalid_cs_mask xs) = false -> in_range xs.
Proof.
  intros H q Hin.
  pose proof (existsb_id_false _ xs (Some q) H Hin) as E. simpl in E.
  apply orb_false_iff in E. destruct E as [E0 E1].
  apply Qlt_bool_false in E0. apply Qlt_bool_false in E1. lra.
Qed.

Lemma clip_complete (xs : list (option Q)) :
  complete xs -> complete (clip 0 1 xs).
Proof.
  intros H x Hin. unfold clip in Hin. apply in_map_iff in Hin.
  destruct Hin as [[p|] [E Hp]]; simpl in E; subst x; [discriminate|].
  exfalso. exact (H None Hp eq_refl).
Qed.

Lemma insert_length (x : Q) (xs : list Q) :
  length (PyNum.insert x xs) = S (length xs).
Proof.
  induction xs as [|y r IH]; simpl; [reflexivity|].
  destruct (Qle_bool x y); simpl; [reflexivity | rewrite IH; reflexivity].
Qed.

Lemma sort_length (xs : list Q) : length (PyNum.sort xs) = length xs.
Proof.
  induction xs as [|x r IH]; simpl; [reflexivity|].
  rewrite insert_length, IH. reflexivity.
Qed.

(** The median is a number as soon as the series holds one. *)
Lemma median_defined (xs : list (option Q)) (q : Q) :
  In (Some q) xs -> median xs <> None.
Proof.
  intros Hin. unfold median, median_of.
  assert (L : length (PyNum.sort (dropna xs)) <> O).
  { rewrite sort_length. unfold dropna.
    assert (Hq : In q (flat_map (fun x => match x with Some a => [a] | None => [] end) xs)).
    { apply in_flat_map. exists (Some q). split; [exact Hin | left; reflexivity]. }
    destruct (flat_map _ xs); [destruct Hq | simpl; discriminate]. }
  destruct (length (PyNum.sort (dropna xs))) as [|n]; [congruence|].
  destruct (Nat.odd (S n)); discriminate.
Qed.

Lemma fillna_complete {A} (v : A) (xs : list (option A)) :
  complete (fillna (Some v) xs).
Proof.
  intros x Hin. unfold fillna in Hin. apply in_map_iff in Hin.
  destruct Hin as [[a|] [E _]]; subst x; discriminate.
Qed.

Lemma fillna_In {A} (v : option A) (xs : list (option A)) (a : A) :
  In (Some a) (fillna v xs) -> In (Some a) xs \/ v = Some a.
Proof.
  unfold fillna. intros Hin. apply in_map_iff in Hin.
  destruct Hin as [[b|] [E Hb]].
  - left. rewrite <- E. exact Hb.
  - right. exact E.
Qed.

End NumericRules.

(** ** The cleaning script, column by column *)

Section CleaningTrace.

Import Pandas Cleaning.
Local Open Scope Q_scope.

(** The loop over the text columns returns when no text column shares
    its name, and then the rules run on the standardized table. *)
Lemma validate_Ok (raw : DataFrame) (r : Frame * issues) :
  validate raw = Ok r ->
  name_clash (named raw) = false /\ apply_rules (standardized raw) = Ok r.
Proof.
  unfold validate, clean_text_columns, standardized.
  destruct (name_clash (named raw)); [discriminate|].
  cbn [bind]. auto.
Qed.

Lemma validate_no_clash (raw : DataFrame) :
  name_clash (named raw) = false ->
  validate raw = apply_rules (standardized raw).
Proof.
  intros H. unfold validate, clean_text_columns, standardized.
  rewrite H. reflexivity.
Qed.

Lemma validate_clash (raw : DataFrame) :
  name_clash (named raw) = true -> validate raw = Raise AttributeError.
Proof.
  intros H. unfold validate, clean_text_columns. rewrite H. reflexivity.
Qed.

Lemma named_alike_NoDup (n : string) (names : list string) :
  NoDup names -> (length (filter (String.eqb n) names) <= 1)%nat.
Proof.
  assert (F : forall l, ~ In n l -> filter (String.eqb n) l = []).
  { induction l as [|y l IH]; intros H; [reflexivity|]. simpl.
    destruct (String.eqb n y) eqn:E.
    - apply String.eqb_eq in E. subst y. exfalso. apply H. left. reflexivity.
    - apply IH. intros Hin. apply H. right. exact Hin. }
  induction 1 as [|x r Hx Hr IH]; simpl; [lia|].
  destruct (String.eqb n x) eqn:E; [|exact IH].
  apply String.eqb_eq in E. subst x. rewrite (F r Hx). simpl. lia.
Qed.

(** No clash when the names are distinct. *)
Lemma NoDup_no_clash (df : DataFrame) :
  NoDup (columns df) -> name_clash df = false.
Proof.
  intros H. unfold name_clash.
  destruct (existsb _ (cols df)) eqn:E; [|reflexivity].
  apply existsb_exists in E. destruct E as [nc [_ Hc]].
  destruct (snd nc); [discriminate|].
  apply Nat.ltb_lt in Hc. pose proof (named_alike_NoDup (fst nc) _ H) as L.
  unfold named_alike in Hc. lia.
Qed.

Lemma assign_no_true {A} (m : list bool) (v : A) (xs : list A) :
  existsb id m = false -> assign m v xs = xs.
Proof.
  revert xs; induction m as [|b m IH]; intros [|x r]; simpl; try reflexivity.
  intros H. apply orb_false_iff in H. destruct H as [Hb H].
  unfold id in Hb. subst b. rewrite IH by exact H. reflexivity.
Qed.

Lemma clip_valid (xs : list (option Q)) :
  existsb id (invalid_cs_mask xs) = false -> clip 0 1 xs = xs.
Proof.
  unfold invalid_cs_mask, clip.
  induction xs as [|[q|] r IH]; simpl; intros H; try reflexivity.
  - apply orb_false_iff in H. destruct H as [H1 H2].
    unfold id in H1. apply orb_false_iff in H1. destruct H1 as [-> ->].
    rewrite IH by exact H2. reflexivity.
  - rewrite IH by exact H. reflexivity.
Qed.

Lemma fix_mileage_assign (xs : list (option Q)) :
  fix_mileage xs = mileage_checked xs.
Proof.
  unfold fix_mileage, mileage_checked.
  destruct (existsb id (invalid_mileage_mask xs)) eqn:E; [reflexivity|].
  rewrite assign_no_true by exact E. reflexivity.
Qed.

Lemma fill_median_inv (name : string) (df df' : DataFrame) :
  fill_median name df = Ok df' ->
  exists c xs, lookup name (cols df) = Some c /\ numeric c = Ok xs
               /\ df' = setitem name (NumCol (filled xs)) df.
Proof.
  unfold fill_median. intros H.
  bind_inv H. bind_inv H. injection H as <-.
  apply getitem_Ok in E. eauto.
Qed.

Lemma validate_credit_score_inv (df df' : DataFrame) (iss iss' : issues) :
  validate_credit_score (df, iss) = Ok (df', iss') ->
  forall n, lookup n (cols df')
            = if String.eqb n "credit_score"
              then match lookup n (cols df) with
                   | Some (NumCol xs) => Some (NumCol (clip 0 1 xs))
                   | other => other
                   end
              else lookup n (cols df).
Proof.
  unfold validate_credit_score. intros H n.
  bind_inv H. bind_inv H. apply getitem_Ok in E.
  destruct (String.eqb n "credit_score") eqn:En.
  - apply String.eqb_eq in En; subst n. rewrite E.
    destruct (existsb id (invalid_cs_mask a0)) eqn:Ex; injection H as <- _.
    + rewrite lookup_setitem; simpl.
      destruct a as [xs|xs]; simpl in E0.
      * injection E0 as <-. reflexivity.
      * destruct (forallb isna xs); discriminate || exfalso.
        injection E0 as <-.
        clear -Ex. induction xs; simpl in Ex; [discriminate | auto].
    + rewrite E. destruct a as [xs|xs]; [|reflexivity].
      simpl in E0. injection E0 as <-. rewrite clip_valid by exact Ex.
      reflexivity.
  - destruct (existsb id (invalid_cs_mask a0)); injection H as <- _.
    + rewrite lookup_setitem, En. reflexivity.
    + reflexivity.
Qed.

Lemma validate_mileage_inv (df df' : DataFrame) (iss iss' : issues) :
  validate_mileage (df, iss) = Ok (df', iss') ->
  forall n, lookup n (cols df')
            = if String.eqb n "annual_mileage"
              then match lookup n (cols df) with
                   | Some (NumCol xs) => Some (NumCol (mileage_checked xs))
                   | other => other
                   end
              else lookup n (cols df).
Proof.
  unfold validate_mileage. intros H n.
  bind_inv H. bind_inv H. apply getitem_Ok in E.
  destruct (String.eqb n "annual_mileage") eqn:En.
  - apply String.eqb_eq in En; subst n. rewrite E.
    destruct (existsb id (invalid_mileage_mask a0)) eqn:Ex; injection H as <- _.
    + rewrite lookup_setitem; simpl. fold (mileage_checked a0).
      destruct a as [xs|xs]; simpl in E0.
      * injection E0 as <-. reflexivity.
      * destruct (forallb isna xs); discriminate || exfalso.
        injection E0 as <-.
        clear -Ex. induction xs; simpl in Ex; [discriminate | auto].
    + rewrite E. destruct a as [xs|xs]; [|reflexivity].
      simpl in E0. injection E0 as <-. unfold mileage_checked.
      rewrite assign_no_true by exact Ex. reflexivity.
  - destruct (existsb id (invalid_mileage_mask a0)); injection H as <- _.
    + rewrite lookup_setitem, En. reflexivity.
    + reflexivity.
Qed.

Lemma lookup_replace_codes (n m zero one : string) (f : Frame) :
  lookup n (cols (replace_codes m zero one f))
  = if String.eqb n m
    then option_map (map (replace_code zero one)) (lookup n (cols f))
    else lookup n (cols f).
Proof.
  unfold replace_codes.
  destruct (String.eqb n m) eqn:En.
  - apply String.eqb_eq in En; subst n.
    destruct (lookup m (cols f)) eqn:El.
    + rewrite lookup_setitem, String.eqb_refl. reflexivity.
    + rewrite El. reflexivity.
  - destruct (lookup m (cols f)); [|reflexivity].
    rewrite lookup_setitem, En. reflexivity.
Qed.

Lemma lookup_validate_category (n m : string) (valid : list string)
    (st : Frame * issues) :
  lookup n (cols (fst (validate_category m valid st)))
  = if String.eqb n m
    then option_map (category_checked valid) (lookup n (cols (fst st)))
    else lookup n (cols (fst st)).
Proof.
  destruct st as [f iss]. unfold validate_category. simpl.
  destruct (String.eqb n m) eqn:En.
  - apply String.eqb_eq in En; subst n.
    destruct (lookup m (cols f)) as [c|] eqn:El; simpl.
    + destruct (existsb id (invalid_category_mask valid c)) eqn:Ex; simpl.
      * rewrite lookup_update, String.eqb_refl. reflexivity.
      * rewrite El. simpl. unfold category_checked.
        rewrite assign_no_true by exact Ex. reflexivity.
    + rewrite El. reflexivity.
  - destruct (lookup m (cols f)) as [c|]; simpl; [|reflexivity].
    destruct (existsb id (invalid_category_mask valid c)); simpl; [|reflexivity].
    rewrite lookup_update, En. reflexivity.
Qed.

Lemma lookup_deduplicate (n : string) (f : Frame) :
  lookup n (cols (deduplicate f))
  = option_map (select (keep_mask f)) (lookup n (cols f)).
Proof. unfold deduplicate, drop_duplicates; simpl. apply lookup_map. Qed.

End CleaningTrace.

Section CleaningColumns.

Import Pandas Cleaning.
Local Open Scope Q_scope.

Lemma validate_inv (raw : DataFrame) (g : Frame) (iss : issues) :
  validate raw = Ok (g, iss) ->
  exists df3 : DataFrame,
    (forall n, lookup n (cols g)
               = option_map
                   (fun c =>
                      if String.eqb n "vehicle_ownership"
                      then category_checked valid_ownership
                             (map (replace_code "leased" "owned") (cells_of c))
                      else if String.eqb n "claim_status"
                      then category_checked valid_claims
                             (map (replace_code "no claim" "claim") (cells_of c))
                      else cells_of c)
                   (lookup n (cols df3)))
    /\ (exists c xs, lookup "credit_score" (cols (standardized raw)) = Some c
                     /\ numeric c = Ok xs
                     /\ lookup "credit_score" (cols df3)
                        = Some (NumCol (clip 0 1 (filled xs))))
    /\ (exists c xs, lookup "annual_mileage" (cols (standardized raw)) = Some c
                     /\ numeric c = Ok xs
                     /\ lookup "annual_mileage" (cols df3)
                        = Some (NumCol (mileage_checked (filled xs))))
    /\ (forall n, n <> "credit_score" -> n <> "annual_mileage" ->
                  lookup n (cols df3) = lookup n (cols (standardized raw))).
Proof.
  intros H. apply validate_Ok in H. destruct H as [_ H]. unfold apply_rules in H.
  bind_inv H. rename a into df1, E into Hm.
  bind_inv H. destruct a as [df2 iss2]. rename E into Hcs.
  bind_inv H. destruct a as [df3 iss3]. rename E into Ham.
  exists df3. split; [|split; [|split]].
  - intros n. cbv zeta in H. simpl fst in H. simpl snd in H.
    apply (f_equal (fun r => match r with Ok p => fst p | Raise _ => g end)) in H.
    cbv beta iota in H. change (fst (g, iss)) with g in H.
    rename H into Hg. symmetry in Hg.
    rewrite Hg. rewrite !lookup_validate_category. simpl fst.
    unfold readable_categories. rewrite !lookup_replace_codes.
    unfold to_frame. simpl cols. rewrite lookup_map.
    destruct (String.eqb n "vehicle_ownership") eqn:Evo.
    + apply String.eqb_eq in Evo; subst n. simpl.
      destruct (lookup "vehicle_ownership" (cols df3)); reflexivity.
    + destruct (String.eqb n "claim_status") eqn:Ecl.
      * destruct (lookup n (cols df3)); reflexivity.
      * reflexivity.
  - unfold handle_missing in Hm. bind_inv Hm. rename a into dfa.
    apply fill_median_inv in E. destruct E as [c [xs [Hc [Hx ->]]]].
    apply fill_median_inv in Hm. destruct Hm as [c' [xs' [_ [_ ->]]]].
    exists c, xs. split; [exact Hc | split; [exact Hx|]].
    rewrite (validate_mileage_inv _ _ _ _ Ham). simpl.
    rewrite (validate_credit_score_inv _ _ _ _ Hcs). simpl.
    rewrite !lookup_update. simpl. reflexivity.
  - unfold handle_missing in Hm. bind_inv Hm. rename a into dfa.
    apply fill_median_inv in E. destruct E as [c [xs [Hc [Hx ->]]]].
    apply fill_median_inv in Hm. destruct Hm as [c' [xs' [Hc' [Hx' ->]]]].
    simpl in Hc'. rewrite lookup_update in Hc'. simpl in Hc'.
    exists c', xs'. split; [exact Hc' | split; [exact Hx'|]].
    rewrite (validate_mileage_inv _ _ _ _ Ham). simpl.
    rewrite (validate_credit_score_inv _ _ _ _ Hcs). simpl.
    rewrite !lookup_update. simpl. reflexivity.
  - intros n Hn1 Hn2.
    apply String.eqb_neq in Hn1, Hn2.
    unfold handle_missing in Hm. bind_inv Hm. rename a into dfa.
    apply fill_median_inv in E. destruct E as [c [xs [Hc [Hx ->]]]].
    apply fill_median_inv in Hm. destruct Hm as [c' [xs' [_ [_ ->]]]].
    rewrite (validate_mileage_inv _ _ _ _ Ham), Hn2.
    rewrite (validate_credit_score_inv _ _ _ _ Hcs), Hn1.
    simpl. rewrite !lookup_update, Hn1, Hn2. reflexivity.
Qed.

Lemma clean_inv (raw : DataFrame) (f : Frame) (iss : issues) :
  clean raw = Ok (f, iss) ->
  exists g, validate raw = Ok (g, iss) /\ f = deduplicate g.
Proof.
  unfold clean. intros H. bind_inv H. destruct a as [g iss'].
  injection H as <- <-. eauto.
Qed.

End CleaningColumns.

Section Totality.

Import Pandas Cleaning.
Local Open Scope Q_scope.

Lemma fill_median_numeric (name : string) (df : DataFrame) (xs : list (option Q)) :
  lookup name (cols df) = Some (NumCol xs) ->
  fill_median name df = Ok (setitem name (NumCol (filled xs)) df).
Proof. intros H. unfold fill_median, getitem. rewrite H. reflexivity. Qed.

Lemma validate_credit_score_numeric (st : DataFrame * issues)
    (xs : list (option Q)) :
  lookup "credit_score" (cols (fst st)) = Some (NumCol xs) ->
  exists st', validate_credit_score st = Ok st'.
Proof.
  destruct st as [df iss]. simpl fst. intros H. unfold validate_credit_score, getitem. rewrite H. cbn [bind numeric].
  destruct (existsb id (invalid_cs_mask xs)); eexists; reflexivity.
Qed.

Lemma validate_mileage_numeric (st : DataFrame * issues)
    (xs : list (option Q)) :
  lookup "annual_mileage" (cols (fst st)) = Some (NumCol xs) ->
  exists st', validate_mileage st = Ok st'.
Proof.
  destruct st as [df iss]. simpl fst. intros H. unfold validate_mileage, getitem. rewrite H. cbn [bind numeric].
  destruct (existsb id (invalid_mileage_mask xs)); eexists; reflexivity.
Qed.

(** The cleaning script returns a cleaned table as soon as the raw
    table has numeric [credit_score] and [annual_mileage] columns. *)
Lemma clean_succeeds (raw : DataFrame) (xs ys : list (option Q)) :
  name_clash (named raw) = false ->
  lookup "credit_score" (cols (named raw)) = Some (NumCol xs) ->
  lookup "annual_mileage" (cols (named raw)) = Some (NumCol ys) ->
  exists f iss, clean raw = Ok (f, iss).
Proof.
  intros Hclash Hc Hm.
  assert (Hc' : lookup "credit_score" (cols (standardized raw)) = Some (NumCol xs)).
  { unfold standardized, standardize_text. simpl cols.
    rewrite lookup_map, Hc. reflexivity. }
  assert (Hm' : lookup "annual_mileage" (cols (standardized raw)) = Some (NumCol ys)).
  { unfold standardized, standardize_text. simpl cols.
    rewrite lookup_map, Hm. reflexivity. }
  unfold clean. rewrite (validate_no_clash raw Hclash).
  unfold apply_rules, handle_missing.
  rewrite (fill_median_numeric _ _ _ Hc'). cbn [bind].
  rewrite (fill_median_numeric "annual_mileage" _ ys)
    by (rewrite lookup_setitem; exact Hm').
  cbn [bind].
  match goal with
  | |- context [validate_credit_score ?st] =>
      destruct (validate_credit_score_numeric st (filled xs)) as [[df2 iss2] E2];
      [simpl fst; rewrite !lookup_setitem; reflexivity | rewrite E2; cbn [bind]];
      pose proof (validate_credit_score_inv _ _ _ _ E2 "annual_mileage") as L2;
      simpl String.eqb in L2; cbv iota in L2;
      rewrite lookup_setitem in L2; simpl String.eqb in L2; cbv iota in L2
  end.
  destruct (validate_mileage_numeric (df2, iss2) _ L2) as [[df3 iss3] E3].
  rewrite E3. cbn [bind]. cbv zeta.
  match goal with
  | |- context [Ok (deduplicate (fst ?st), snd ?st)] =>
      exists (deduplicate (fst st)), (snd st); reflexivity
  end.
Qed.

End Totality.

(** ** The cleaned credit score *)

Section CreditScore.

Import Pandas Cleaning.
Local Open Scope Q_scope.

Lemma cleaned_column_inv (n : string) (raw : DataFrame) (col : list cell) :
  cleaned_column n raw = Ok col ->
  exists g iss c,
    validate raw = Ok (g, iss)
    /\ lookup n (cols g) = Some c
    /\ col = select (keep_mask g) c.
Proof.
  unfold cleaned_column. intros H. bind_inv H. destruct a as [f iss].
  apply clean_inv in E. destruct E as [g [Hv ->]].
  apply getitem_Ok in H. simpl fst in H. rewrite lookup_deduplicate in H.
  destruct (lookup n (cols g)) as [c|] eqn:El; [|discriminate].
  injection H as <-. exists g, iss, c. auto.
Qed.

Lemma cleaned_credit_score (raw : DataFrame) (col : list cell) :
  cleaned_column "credit_score" raw = Ok col ->
  exists c xs keep,
    lookup "credit_score" (cols (standardized raw)) = Some c
    /\ numeric c = Ok xs
    /\ col = select keep (cells_of (NumCol (clip 0 1 (filled xs)))).
Proof.
  intros H. apply cleaned_column_inv in H.
  destruct H as [g [iss [c [Hv [Hl ->]]]]].
  apply validate_inv in Hv.
  destruct Hv as [df3 [Hg [[c0 [xs [Hc [Hx H3]]]] _]]].
  rewrite Hg, H3 in Hl. simpl in Hl. injection Hl as <-.
  exists c0, xs, (keep_mask g). auto.
Qed.

Lemma cells_of_num_In (xs : list (option Q)) (c : cell) :
  In c (cells_of (NumCol xs)) ->
  (c = NaN /\ In None xs) \/ (exists q, c = Num q /\ In (Some q) xs).
Proof.
  simpl. intros H. apply in_map_iff in H. destruct H as [[q|] [<- Hin]].
  - right. eauto.
  - left. auto.
Qed.

End CreditScore.

(** C5, as the code has it.  After the cleaning stage every number of
    the cleaned [credit_score] column lies in [0,1] and the column holds
    no text; when the raw column holds at least one number, no cell of
    the cleaned column is missing either, so that every cell lies in
    [0,1].  (A column without any number has no median: its cells stay
    missing.) *)
Theorem cleaned_credit_score_in_unit_interval
    (raw : Pandas.DataFrame) (col : list Cleaning.cell) :
  Cleaning.cleaned_column "credit_score" raw = Ok col ->
  (forall q, In (Cleaning.Num q) col -> (0 <= q <= 1)%Q)
  /\ (forall s, ~ In (Cleaning.Str s) col)
  /\ (forall xs q0,
        Pandas.lookup "credit_score" (Pandas.cols (Cleaning.named raw))
        = Some (Pandas.NumCol xs) ->
        In (Some q0) xs ->
        Forall in_unit_interval col).
Proof.
  intros H. apply cleaned_credit_score in H.
  destruct H as [c [xs [keep [Hc [Hx ->]]]]].
  split; [|split].
  - intros q Hin. apply select_In in Hin. apply cells_of_num_In in Hin.
    destruct Hin as [[E _]|[p [E Hp]]]; [discriminate|].
    injection E as ->. exact (clip_in_range _ _ Hp).
  - intros s Hin. apply select_In in Hin. apply cells_of_num_In in Hin.
    destruct Hin as [[E _]|[p [E _]]]; discriminate.
  - intros xs0 q0 Hn Hq.
    unfold Cleaning.standardized, Cleaning.standardize_text in Hc.
    simpl in Hc. rewrite lookup_map, Hn in Hc. simpl in Hc.
    injection Hc as <-. simpl in Hx. injection Hx as <-.
    apply Forall_forall. intros c Hin.
    apply select_In in Hin. apply cells_of_num_In in Hin.
    destruct Hin as [[_ Hnone]|[p [-> Hp]]].
    + exfalso. revert Hnone. unfold filled.
      destruct (Pandas.median xs0) as [m|] eqn:Em.
      * intros Hnone. apply (clip_complete _ (fillna_complete m xs0) None Hnone).
        reflexivity.
      * exfalso. exact (median_defined xs0 q0 Hq Em).
    + exact (clip_in_range _ _ Hp).
Qed.

(** The theorem at a table with a score above 1, a missing score and a
    score below 0. *)
Lemma cleaned_credit_score_in_unit_interval_witness :
  exists col,
    Cleaning.cleaned_column "credit_score" some_credit_scores = Ok col
    /\ Forall in_unit_interval col.
Proof.
  eexists. split; [vm_compute; reflexivity|].
  refine (proj2 (proj2 (cleaned_credit_score_in_unit_interval
                          some_credit_scores _ eq_refl))
            [Some (3 # 2); None; Some (-1 # 5)] (3 # 2) eq_refl _)%Q.
  left. reflexivity.
Defined.

(** C5, as stated, fails on a table whose credit score column holds no
    number: the median is NaN, nothing is filled, and the cleaned column
    holds a missing value, which is no number of [0,1]. *)
Lemma credit_score_may_stay_missing :
  exists col,
    Cleaning.cleaned_column "credit_score" no_credit_score = Ok col
    /\ ~ Forall in_unit_interval col.
Proof.
  exists [Cleaning.NaN]. split; [vm_compute; reflexivity|].
  intros H. inversion H as [|c r Hc _]. exact Hc.
Qed.

(** ** Missing text *)

Section MissingText.

Import Pandas Cleaning.
Local Open Scope Q_scope.

Lemma clean_text_cell_standard (x : option string) :
  clean_text_cell x = Some (standard_text x).
Proof. destruct x; reflexivity. Qed.

Lemma cells_of_clean_text (xs : list (option string)) :
  cells_of (clean_text (ObjCol xs)) = map (fun x => Str (standard_text x)) xs.
Proof.
  simpl. rewrite map_map. apply map_ext. intros x.
  rewrite clean_text_cell_standard. reflexivity.
Qed.

Lemma numeric_clean_text (xs : list (option string)) (ys : list (option Q)) :
  numeric (clean_text (ObjCol xs)) = Ok ys -> xs = [] /\ ys = [].
Proof.
  destruct xs as [|x r]; simpl.
  - intros H. injection H as <-. auto.
  - discriminate.
Qed.

Lemma assign_map_In {A} (f : A -> bool) (v : A) (xs : list A) (x : A) :
  In x (assign (map f xs) v xs) -> x = v \/ (In x xs /\ f x = false).
Proof.
  induction xs as [|y r IH]; simpl; [tauto|].
  intros [H|H].
  - destruct (f y) eqn:E; [left; auto | right; subst x; auto].
  - destruct (IH H) as [->|[Hin Hf]]; auto.
Qed.

Lemma category_checked_In (valid : list string) (c : list cell) (x : cell) :
  In x (category_checked valid c) ->
  x = NaN \/ exists s, x = Str s /\ PyStr.mem s valid = true.
Proof.
  unfold category_checked, invalid_category_mask. intros H.
  apply assign_map_In in H. destruct H as [->|[_ Hf]]; [left; reflexivity|].
  apply negb_false_iff in Hf. destruct x as [|q|s]; try discriminate.
  right. eauto.
Qed.

Lemma mem_two (s a b : string) :
  PyStr.mem s [a; b] = true -> s = a \/ s = b.
Proof.
  unfold PyStr.mem. simpl. intros H.
  apply orb_true_iff in H. destruct H as [H|H].
  - left. apply String.eqb_eq, H.
  - rewrite orb_false_r in H. right. apply String.eqb_eq, H.
Qed.

(** A column read back as text holds the fields read as text. *)
Lemma read_column_text (cs : list cell) (col : list (option string)) :
  read_column cs = Some (ObjCol col) -> col = map read_text cs.
Proof.
  unfold read_column. destruct cs as [|c r]; [intros H; injection H as <-; reflexivity|].
  destruct (forallb _ (c :: r)); [discriminate|].
  destruct (andb _ _); [|discriminate].
  intros H. injection H as <-. reflexivity.
Qed.

End MissingText.

(** C9, as the code has it.  The standardization of text turns every
    missing cell of a text column into the text [nan], and leaves no
    cell missing.  In the cleaned table no cell of a text column other
    than [vehicle_ownership] and [claim_status] is missing: for ASCII
    text its cells are the standardized texts of the rows that are
    kept, [nan] for a missing one; the cells of [vehicle_ownership] and
    of [claim_status] are a valid label or missing, never the text
    [nan].  In the file the next scripts load, no cell of a text column
    is the text [nan]: [read_csv] reads it as a missing value. *)
Theorem missing_text_becomes_nan
    (raw : Pandas.DataFrame) (f : Cleaning.Frame) (iss : Cleaning.issues) :
  Cleaning.clean raw = Ok (f, iss) ->
  (forall xs, exists ys,
      Cleaning.clean_text (Pandas.ObjCol xs) = Pandas.ObjCol ys
      /\ Forall2 (fun x y => y <> None /\ (x = None -> y = Some "nan")) xs ys
      /\ (ascii_cells xs -> ys = map (fun x => Some (standard_text x)) xs))
  /\ (forall name xs col,
        name <> "vehicle_ownership" -> name <> "claim_status" ->
        Pandas.lookup name (Pandas.cols (Cleaning.named raw))
        = Some (Pandas.ObjCol xs) ->
        Pandas.lookup name (Pandas.cols f) = Some col ->
        (forall c, In c col -> exists s, c = Cleaning.Str s)
        /\ (ascii_cells xs ->
            exists keep,
              col = Pandas.select keep
                      (map (fun x => Cleaning.Str (standard_text x)) xs)))
  /\ (forall col c,
        Pandas.lookup "vehicle_ownership" (Pandas.cols f) = Some col ->
        In c col ->
        c = Cleaning.NaN \/ c = Cleaning.Str "leased" \/ c = Cleaning.Str "owned")
  /\ (forall col c,
        Pandas.lookup "claim_status" (Pandas.cols f) = Some col ->
        In c col ->
        c = Cleaning.NaN \/ c = Cleaning.Str "claim" \/ c = Cleaning.Str "no claim")
  /\ (forall cs col,
        Cleaning.read_column cs = Some (Pandas.ObjCol col) ->
        ~ In (Some "nan") col
        /\ Forall2 (fun c x => c = Cleaning.Str "nan" -> x = None) cs col).
Proof.
  intros H. apply clean_inv in H. destruct H as [g [Hv ->]].
  apply validate_inv in Hv.
  destruct Hv as [df3 [Hg [[c1 [xs1 [Hc1 [Hx1 H31]]]]
                           [[c2 [xs2 [Hc2 [Hx2 H32]]]] Hother]]]].
  unfold Cleaning.standardized, Cleaning.standardize_text in Hc1, Hc2, Hother.
  simpl Pandas.cols in Hc1, Hc2, Hother.
  assert (Hsel : forall name xs col,
             name <> "vehicle_ownership" -> name <> "claim_status" ->
             Pandas.lookup name (Pandas.cols (Cleaning.named raw))
             = Some (Pandas.ObjCol xs) ->
             Pandas.lookup name (Pandas.cols (Cleaning.deduplicate g)) = Some col ->
             exists keep,
               col = Pandas.select keep
                       (map (fun x => Cleaning.Str (standard_text x)) xs)).
  { intros name xs col Hvo Hcl Hn Hl.
    apply String.eqb_neq in Hvo, Hcl.
    rewrite lookup_deduplicate, Hg, Hvo, Hcl in Hl.
    destruct (String.eqb name "credit_score") eqn:E1;
      [|destruct (String.eqb name "annual_mileage") eqn:E2].
    + apply String.eqb_eq in E1; subst name.
      rewrite lookup_map, Hn in Hc1. simpl option_map in Hc1.
      injection Hc1 as <-. apply numeric_clean_text in Hx1.
      destruct Hx1 as [-> ->]. rewrite H31 in Hl. simpl in Hl.
      injection Hl as <-. exists []. apply select_nil_r.
    + apply String.eqb_eq in E2; subst name.
      rewrite lookup_map, Hn in Hc2. simpl option_map in Hc2.
      injection Hc2 as <-. apply numeric_clean_text in Hx2.
      destruct Hx2 as [-> ->]. rewrite H32 in Hl. simpl in Hl.
      injection Hl as <-. exists []. apply select_nil_r.
    + apply String.eqb_neq in E1, E2.
      rewrite (Hother name E1 E2), lookup_map, Hn in Hl. simpl option_map in Hl.
      injection Hl as <-. exists (Cleaning.keep_mask g).
      exact (f_equal _ (cells_of_clean_text xs)). }
  split; [|split; [|split; [|split]]].
  - intros xs. eexists. split; [reflexivity|]. split.
    + induction xs as [|x r IH]; [constructor|].
      simpl. constructor; [|exact IH].
      split; [discriminate|]. intros ->. reflexivity.
    + intros _. apply map_ext. apply clean_text_cell_standard.
  - intros name xs col Hvo Hcl Hn Hl.
    destruct (Hsel name xs col Hvo Hcl Hn Hl) as [keep Hk].
    split; [|intros _; exists keep; exact Hk].
    intros c Hc. rewrite Hk in Hc. apply select_In in Hc.
    apply in_map_iff in Hc. destruct Hc as [x [<- _]]. eauto.
  - intros col c Hl Hin.
    rewrite lookup_deduplicate, Hg in Hl. simpl String.eqb in Hl.
    destruct (Pandas.lookup "vehicle_ownership" (Pandas.cols df3)); [|discriminate].
    simpl in Hl. injection Hl as <-. apply select_In in Hin.
    apply category_checked_In in Hin. destruct Hin as [->|[s [-> Hm]]]; [auto|].
    apply mem_two in Hm. destruct Hm as [->| ->]; auto.
  - intros col c Hl Hin.
    rewrite lookup_deduplicate, Hg in Hl. simpl String.eqb in Hl.
    destruct (Pandas.lookup "claim_status" (Pandas.cols df3)); [|discriminate].
    simpl in Hl. injection Hl as <-. apply select_In in Hin.
    apply category_checked_In in Hin. destruct Hin as [->|[s [-> Hm]]]; [auto|].
    apply mem_two in Hm. destruct Hm as [->| ->]; auto.
  - intros cs col Hr. apply read_column_text in Hr. subst col. split.
    + intros Hin. apply in_map_iff in Hin. destruct Hin as [c [Hc _]].
      destruct c as [|q|s]; try discriminate. cbn [Cleaning.read_text] in Hc.
      destruct (PyStr.mem s Cleaning.na_values) eqn:E; [discriminate|].
      injection Hc as ->. vm_compute in E. discriminate.
    + clear. induction cs as [|c r IH]; [constructor|].
      cbn [map]. constructor; [|exact IH]. intros ->. reflexivity.
Qed.

(** The theorem at a table with a missing age and a missing ownership:
    the age is [nan] in the cleaned table. *)
Lemma missing_text_becomes_nan_witness :
  exists f iss keep,
    Cleaning.clean missing_text = Ok (f, iss)
    /\ Pandas.lookup "age" (Pandas.cols f)
       = Some (Pandas.select keep [Cleaning.Str "young"; Cleaning.Str "nan"]).
Proof.
  eexists. eexists.
  assert (H : Cleaning.clean missing_text = Ok _) by (vm_compute; reflexivity).
  destruct (proj2 (proj1 (proj2 (missing_text_becomes_nan _ _ _ H))
                     "age" [Some " Young"; None] _
                     ltac:(discriminate) ltac:(discriminate) eq_refl eq_refl))
    as [keep Hk].
  { intros s [E|[E|[]]]; [injection E as <-; reflexivity | discriminate]. }
  exists keep. split; [exact H|]. exact (f_equal Some Hk).
Defined.

(** C9, as stated, fails twice.  For a text column [vehicle_ownership]
    the missing value is missing in the cleaned table, not the text
    [nan].  For [age] the text [nan] of the cleaned table is a missing
    value again in the column the next scripts load, so that their
    groupings have no category [nan]. *)
Lemma missing_values_are_null_again :
  Cleaning.cleaned_column "vehicle_ownership" missing_text
  = Ok [Cleaning.Str "owned"; Cleaning.NaN]
  /\ ~ In (Cleaning.Str "nan") [Cleaning.Str "owned"; Cleaning.NaN]
  /\ Cleaning.cleaned_column "age" missing_text
     = Ok [Cleaning.Str "young"; Cleaning.Str "nan"]
  /\ Cleaning.read_column [Cleaning.Str "young"; Cleaning.Str "nan"]
     = Some (Pandas.ObjCol [Some "young"; None])
  /\ map fst (Pandas.groupby false
                (Pandas.keys_of (Pandas.ObjCol [Some "young"; None])) [tt; tt])
     = [Some (Pandas.KStr "young"); None].
Proof.
  split; [vm_compute; reflexivity|]. split.
  - simpl. intros [H|[H|[]]]; discriminate.
  - repeat split; vm_compute; reflexivity.
Qed.

(** ** The annual mileage check *)

(** C2 at the mileages -10, -5 and 100.  The code replaces the two
    values that are not positive by -5, the median of the three values;
    the median of the valid values is 100.  The cleaned column still
    holds values that are not positive. *)
Theorem mileage_median_counts_invalid_values :
  Cleaning.fix_mileage [Some (-10); Some (-5); Some 100]%Q
  = [Some (-5); Some (-5); Some 100]%Q
  /\ replace_by_median_of_valid [Some (-10); Some (-5); Some 100]%Q
     = [Some 100; Some 100; Some 100]%Q
  /\ Cleaning.cleaned_column "annual_mileage" negative_mileage
     = Ok [Cleaning.Num (-5); Cleaning.Num (-5); Cleaning.Num 100]%Q.
Proof. repeat split; vm_compute; reflexivity. Qed.

(** For every column the value written by the positive check is the
    median of the whole column. *)
Lemma mileage_check_uses_column_median (xs : list (option Q)) :
  Cleaning.fix_mileage xs
  = Pandas.assign (Cleaning.invalid_mileage_mask xs) (Pandas.median xs) xs.
Proof. apply fix_mileage_assign. Qed.

(** ** Unreadable input *)

(** C3 at an input that cannot be read ([pd.read_csv] raises).  The
    summary and the visualization scripts log the error and raise
    [SystemExit] without a status: the process ends with status 0.  The
    dashboard logs it and ends with status 1; the cleaning script ends
    with status 1 and has logged no error. *)
Theorem unreadable_input_exit_status (msg : string) :
  (let (l, r) := MetricsSummary.load_cleaned_data (Raise (IOError msg)) in
   has_error l = true /\ stage_exit r = Some 0%Z)
  /\ (let (l, r) := Visualization.load_cleaned_data (Raise (IOError msg)) in
      has_error l = true /\ stage_exit r = Some 0%Z)
  /\ (let (l, r) := App.prepare (Raise (IOError msg)) in
      has_error l = true /\ stage_exit r = Some 1%Z)
  /\ (let (l, r) := Cleaning.load_raw_data (Raise (IOError msg)) in
      has_error l = false /\ stage_exit r = Some 1%Z).
Proof. repeat split. Qed.

(** ** The claim rate of the dashboard *)

Section ClaimRate.

Import Pandas App.
Local Open Scope Q_scope.

Lemma rint_comp (p q : Q) : p == q -> PyNum.rint p = PyNum.rint q.
Proof.
  intros E. unfold PyNum.rint.
  rewrite (Qfloor_comp _ _ E).
  assert (E' : p - inject_Z (Qfloor q) == q - inject_Z (Qfloor q))
    by (rewrite E; reflexivity).
  rewrite (Qcompare_comp _ _ E' _ _ (Qeq_refl (1 # 2))). reflexivity.
Qed.

Lemma round2_comp (p q : Q) : p == q -> PyNum.round2 p = PyNum.round2 q.
Proof.
  intros E. unfold PyNum.round2.
  rewrite (rint_comp (p * 100) (q * 100)) by (rewrite E; reflexivity).
  reflexivity.
Qed.

Lemma dropna_length (flag : list (option Q)) :
  length (dropna flag) = valid_rows flag.
Proof.
  induction flag as [|[q|] r IH]; simpl; [reflexivity | f_equal; exact IH | exact IH].
Qed.

Lemma dropna_sum (flag : list (option Q)) :
  PyNum.sum (dropna flag) = claims_among_valid flag.
Proof.
  induction flag as [|[q|] r IH]; simpl; [reflexivity| |exact IH].
  unfold PyNum.sum in *. simpl. rewrite IH. reflexivity.
Qed.

Lemma dropna_all_missing (flag : list (option Q)) :
  Forall (fun x => x = None) flag -> dropna flag = [].
Proof.
  induction 1 as [|x r Hx _ IH]; [reflexivity|].
  subst x. exact IH.
Qed.

Lemma fillna_all_missing (flag : list (option Q)) :
  Forall (fun x => x = None) flag ->
  dropna (fillna (Some 0) flag) = repeat 0 (length flag).
Proof.
  induction 1 as [|x r Hx _ IH]; [reflexivity|].
  subst x. simpl. f_equal. exact IH.
Qed.

Lemma sum_repeat_zero (n : nat) : PyNum.sum (repeat 0 n) == 0.
Proof.
  induction n as [|n IH]; simpl; [reflexivity|].
  unfold PyNum.sum in *. simpl. rewrite IH. reflexivity.
Qed.

Lemma int_comp (p q : Q) : p == q -> PyNum.int p = PyNum.int q.
Proof.
  intros E. unfold PyNum.int.
  assert (B : Qle_bool 0 p = Qle_bool 0 q).
  { destruct (Qle_bool 0 p) eqn:Ep, (Qle_bool 0 q) eqn:Eq; try reflexivity.
    - apply Qle_bool_iff in Ep. rewrite E in Ep. apply Qle_bool_iff in Ep.
      congruence.
    - apply Qle_bool_iff in Eq. rewrite <- E in Eq. apply Qle_bool_iff in Eq.
      congruence. }
  rewrite B, (Qfloor_comp _ _ E). unfold Qceiling.
  assert (E' : - p == - q) by (rewrite E; reflexivity).
  rewrite (Qfloor_comp _ _ E'). reflexivity.
Qed.

Lemma count_claims_all_missing (flag : list (option Q)) :
  Forall (fun x => x = None) flag -> count_claims flag = 0%Z.
Proof.
  intros H. unfold count_claims, sum.
  rewrite (fillna_all_missing _ H).
  rewrite (int_comp _ 0 (sum_repeat_zero _)). reflexivity.
Qed.

End ClaimRate.

Section Rounding.

Local Open Scope Q_scope.

Lemma rint_cases (q : Q) :
  PyNum.rint q = Qfloor q
  \/ (PyNum.rint q = (Qfloor q + 1)%Z /\ 1 # 2 <= q - inject_Z (Qfloor q)).
Proof.
  unfold PyNum.rint. cbv zeta.
  destruct (Qcompare (q - inject_Z (Qfloor q)) (1 # 2)) eqn:E.
  - destruct (Z.even (Qfloor q)); [left; reflexivity|].
    right. split; [reflexivity|]. apply Qeq_alt in E. rewrite E. apply Qle_refl.
  - left; reflexivity.
  - right. split; [reflexivity|]. apply Qgt_alt in E. apply Qlt_le_weak, E.
Qed.

(** Rounding to the nearest integer stays between integer bounds. *)
Lemma rint_between (a b : Z) (q : Q) :
  inject_Z a <= q -> q <= inject_Z b -> (a <= PyNum.rint q <= b)%Z.
Proof.
  intros Ha Hb.
  assert (Hfa : (a <= Qfloor q)%Z).
  { rewrite <- (Qfloor_Z a). apply Qfloor_resp_le, Ha. }
  assert (Hfb : (Qfloor q <= b)%Z).
  { rewrite <- (Qfloor_Z b). apply Qfloor_resp_le, Hb. }
  destruct (rint_cases q) as [->|[-> Hr]]; [lia|].
  split; [lia|].
  destruct (Z.eq_dec (Qfloor q) b) as [E|E]; [|lia].
  exfalso. rewrite E in Hr.
  assert (H : q - inject_Z b <= 0) by lra.
  assert (H2 : (1 # 2) <= 0) by (eapply Qle_trans; [exact Hr | exact H]).
  revert H2. apply Qlt_not_le. reflexivity.
Qed.

Lemma round2_between (q : Q) :
  0 <= q -> q <= 100 -> 0 <= PyNum.round2 q /\ PyNum.round2 q <= 100.
Proof.
  intros H0 H1. unfold PyNum.round2.
  destruct (rint_between 0 10000 (q * 100)) as [Ha Hb].
  - change (inject_Z 0) with 0. lra.
  - change (inject_Z 10000) with 10000. lra.
  - rewrite Qred_correct.
    assert (Ha' : inject_Z 0 <= inject_Z (PyNum.rint (q * 100)))
      by (rewrite <- Zle_Qle; exact Ha).
    assert (Hb' : inject_Z (PyNum.rint (q * 100)) <= inject_Z 10000)
      by (rewrite <- Zle_Qle; exact Hb).
    change (inject_Z 0) with 0 in Ha'. change (inject_Z 10000) with 10000 in Hb'.
    set (z := inject_Z (PyNum.rint (q * 100))) in *.
    split.
    + apply Qle_shift_div_l; [reflexivity | lra].
    + apply Qle_shift_div_r; [reflexivity | lra].
Qed.

End Rounding.

Section Doubles.

Local Open Scope Q_scope.

Lemma pow2_pos (z : Z) : 0 < F64.pow2 z.
Proof. unfold F64.pow2. apply Qpower_0_lt. reflexivity. Qed.

Lemma pow2_nat (z : Z) : (0 <= z)%Z -> F64.pow2 z == inject_Z (2 ^ z).
Proof.
  intros H. unfold F64.pow2. rewrite Zpower_Qpower by exact H. reflexivity.
Qed.

Lemma pow2_add (a b : Z) : F64.pow2 (a + b) == F64.pow2 a * F64.pow2 b.
Proof. unfold F64.pow2. apply Qpower_plus. discriminate. Qed.

Lemma pow2_le (a b : Z) : (a <= b)%Z -> F64.pow2 a <= F64.pow2 b.
Proof.
  intros H. unfold F64.pow2. apply Qpower_le_compat_l; [exact H|].
  discriminate.
Qed.

Lemma exponent_le (q : Q) : 0 < q -> F64.pow2 (F64.exponent q) <= q.
Proof.
  intros Hq. unfold F64.exponent.
  destruct (Qle_bool _ q) eqn:E; [apply Qle_bool_iff, E|]. clear E.
  destruct q as [a b]. cbn [Qnum Qden].
  assert (Ha : (0 < a)%Z).
  { unfold Qlt in Hq. cbn in Hq. lia. }
  pose proof (Z.log2_spec a Ha) as [La _].
  pose proof (Z.log2_spec (Zpos b) (Pos2Z.is_pos b)) as [_ Lb].
  pose proof (Z.log2_nonneg a) as Na.
  pose proof (Z.log2_nonneg (Zpos b)) as Nb.
  set (la := Z.log2 a) in *. set (lb := Z.log2 (Zpos b)) in *.
  assert (Hb : inject_Z (Zpos b) * F64.pow2 (la - lb - 1) <= inject_Z a).
  { apply Qle_trans with (F64.pow2 (lb + 1) * F64.pow2 (la - lb - 1)).
    - apply Qmult_le_compat_r; [|apply Qlt_le_weak, pow2_pos].
      rewrite pow2_nat by lia. rewrite <- Zle_Qle. lia.
    - rewrite <- pow2_add. replace (lb + 1 + (la - lb - 1))%Z with la by lia.
      rewrite pow2_nat by lia. rewrite <- Zle_Qle. exact La. }
  rewrite (Qmake_Qdiv a b).
  apply Qle_shift_div_l; [reflexivity|].
  rewrite Qmult_comm. exact Hb.
Qed.

Lemma rint_near (q : Q) :
  q - (1 # 2) <= inject_Z (PyNum.rint q) <= q + (1 # 2).
Proof.
  pose proof (Qfloor_le q) as Hl. pose proof (Qlt_floor q) as Hu.
  rewrite inject_Z_plus in Hu. change (inject_Z 1) with 1 in Hu.
  unfold PyNum.rint. cbv zeta.
  destruct (Qcompare (q - inject_Z (Qfloor q)) (1 # 2)) eqn:E.
  - apply Qeq_alt in E.
    destruct (Z.even _);
      [|rewrite inject_Z_plus; change (inject_Z 1) with 1]; split; lra.
  - apply Qlt_alt in E. split; lra.
  - apply Qgt_alt in E. rewrite inject_Z_plus. change (inject_Z 1) with 1.
    split; lra.
Qed.

Lemma rint_nonneg (q : Q) : 0 <= q -> (0 <= PyNum.rint q)%Z.
Proof.
  intros H. apply (Qfloor_resp_le 0 q) in H. cbn in H.
  destruct (rint_cases q) as [->|[-> _]]; lia.
Qed.

Lemma ulp_pos (q : Q) : 0 < F64.ulp q.
Proof. apply pow2_pos. Qed.

Lemma ulp_bound (q : Q) :
  0 < q -> F64.ulp q <= q * (1 # 4503599627370496) + (1 # 1152921504606846976).
Proof.
  intros Hq. unfold F64.ulp.
  destruct (Z.max_spec (F64.exponent q - 52) (-1074)) as [[_ ->]|[_ ->]].
  - apply Qle_trans with (1 # 1152921504606846976).
    + apply Qle_trans with (F64.pow2 (-60)); [apply pow2_le; lia|].
      apply Qle_bool_iff. vm_compute. reflexivity.
    + assert (0 <= q * (1 # 4503599627370496)) by (apply Qmult_le_0_compat; lra).
      lra.
  - replace (F64.exponent q - 52)%Z with (F64.exponent q + -52)%Z by lia.
    rewrite pow2_add. pose proof (exponent_le q Hq) as He.
    assert (E : F64.pow2 (-52) == 1 # 4503599627370496)
      by (apply Qeq_bool_iff; vm_compute; reflexivity).
    rewrite E.
    assert (F64.pow2 (F64.exponent q) * (1 # 4503599627370496)
            <= q * (1 # 4503599627370496)).
    { apply Qmult_le_compat_r; [exact He|discriminate]. }
    lra.
Qed.

(** A double is within half a spacing of the number it stands for. *)
Lemma rnd_near (q : Q) :
  0 <= q ->
  0 <= F64.rnd q
  /\ q - (q * (1 # 9007199254740992) + (1 # 2305843009213693952)) <= F64.rnd q
  /\ F64.rnd q <= q + (q * (1 # 9007199254740992) + (1 # 2305843009213693952)).
Proof.
  intros Hq. unfold F64.rnd.
  destruct (Qcompare q 0) eqn:E.
  - apply Qeq_alt in E. rewrite E. repeat split; try lra; discriminate.
  - apply Qlt_alt in E. lra.
  - apply Qgt_alt in E. rewrite Qred_correct.
    pose proof (ulp_pos q) as Hu. pose proof (ulp_bound q E) as Hb.
    pose proof (rint_near (q / F64.ulp q)) as [Hl Hh].
    assert (Hn : 0 <= inject_Z (PyNum.rint (q / F64.ulp q))).
    { change 0 with (inject_Z 0). rewrite <- Zle_Qle. apply rint_nonneg.
      apply Qle_shift_div_l; [exact Hu|]. lra. }
    set (u := F64.ulp q) in *.
    set (m := inject_Z (PyNum.rint (q / u))) in *.
    assert (Hx : q / u * u == q) by (field; lra).
    assert (H1 : (q / u - (1 # 2)) * u <= m * u)
      by (apply Qmult_le_compat_r; lra).
    assert (H2 : m * u <= (q / u + (1 # 2)) * u)
      by (apply Qmult_le_compat_r; lra).
    assert (H3 : (q / u - (1 # 2)) * u == q - (1 # 2) * u) by (rewrite <- Hx at 2; ring).
    assert (H4 : (q / u + (1 # 2)) * u == q + (1 # 2) * u) by (rewrite <- Hx at 2; ring).
    rewrite H3 in H1. rewrite H4 in H2.
    split; [apply Qmult_le_0_compat; lra|]. split; lra.
Qed.

(** A share, scaled to a percentage and again by 100 as [round] does,
    is a double next to the exact number of hundredths. *)
Lemma hundredths_near (q : Q) :
  0 <= q <= 1 ->
  let x := F64.mul (F64.mul (F64.rnd q) 100) 100 in
  0 <= x
  /\ 10000 * q - (1 # 137438953472) <= x
  /\ x <= 10000 * q + (1 # 137438953472).
Proof.
  intros [Hq0 Hq1]. cbv zeta. unfold F64.mul.
  destruct (rnd_near q Hq0) as [A0 [A1 A2]].
  assert (B : 0 <= F64.rnd q * 100) by lra.
  destruct (rnd_near _ B) as [B0 [B1 B2]].
  assert (C : 0 <= F64.rnd (F64.rnd q * 100) * 100) by lra.
  destruct (rnd_near _ C) as [C0 [C1 C2]].
  set (x1 := F64.rnd q) in *.
  set (x2 := F64.rnd (x1 * 100)) in *.
  set (x3 := F64.rnd (x2 * 100)) in *.
  split; [exact C0|]. split; lra.
Qed.

(** The number of hundredths that [round] finds for the percentage of
    a share [q] of [k] rows among [n]: within 0 and 10000, and as near
    to [10000 * q] as an integer is while [n] is at most [2 ** 32]. *)
Lemma hundredths_of_share (q : Q) (k n : Z) :
  (0 <= k <= n)%Z -> (0 < n)%Z ->
  q * inject_Z n == inject_Z k ->
  let j := PyNum.rint (F64.mul (F64.mul (F64.rnd q) 100) 100) in
  (0 <= j <= 10000)%Z
  /\ ((n <= 4294967296)%Z ->
      10000 * q - (1 # 2) <= inject_Z j /\ inject_Z j <= 10000 * q + (1 # 2)).
Proof.
  intros Hk Hn Eq. cbv zeta.
  assert (HN : 0 < inject_Z n)
    by (change 0 with (inject_Z 0); rewrite <- Zlt_Qlt; exact Hn).
  assert (HK : 0 <= inject_Z k)
    by (change 0 with (inject_Z 0); rewrite <- Zle_Qle; lia).
  assert (HKN : inject_Z k <= inject_Z n) by (rewrite <- Zle_Qle; lia).
  assert (Hq : 0 <= q <= 1).
  { split.
    - apply (Qmult_le_r _ _ (inject_Z n) HN). rewrite Eq. lra.
    - apply (Qmult_le_r _ _ (inject_Z n) HN). rewrite Eq. lra. }
  destruct (hundredths_near q Hq) as [X0 [X1 X2]]. cbv zeta in X0, X1, X2.
  set (x := F64.mul (F64.mul (F64.rnd q) 100) 100) in *.
  destruct (rint_near x) as [R1 R2].
  pose proof (rint_nonneg x X0) as J0.
  set (j := PyNum.rint x) in *.
  split.
  - split; [exact J0|].
    assert (H : inject_Z j < inject_Z 10001).
    { change (inject_Z 10001) with 10001. lra. }
    rewrite <- Zlt_Qlt in H. lia.
  - intros Hb.
    assert (HB : inject_Z n <= 4294967296).
    { change 4294967296 with (inject_Z 4294967296). rewrite <- Zle_Qle. exact Hb. }
    assert (U : inject_Z j * inject_Z n
                <= 10000 * inject_Z k + (1 # 2) * inject_Z n
                   + (1 # 137438953472) * inject_Z n).
    { rewrite <- Eq.
      assert (inject_Z j * inject_Z n
              <= (10000 * q + (1 # 137438953472) + (1 # 2)) * inject_Z n)
        by (apply Qmult_le_compat_r; lra).
      lra. }
    assert (L : 10000 * inject_Z k - (1 # 2) * inject_Z n
                - (1 # 137438953472) * inject_Z n
                <= inject_Z j * inject_Z n).
    { rewrite <- Eq.
      assert ((10000 * q - (1 # 137438953472) - (1 # 2)) * inject_Z n
              <= inject_Z j * inject_Z n)
        by (apply Qmult_le_compat_r; lra).
      lra. }
    split.
    + assert (H : inject_Z (2 * (10000 * k)) < inject_Z (n + 1 + 2 * (j * n))).
      { rewrite !inject_Z_plus, !inject_Z_mult.
        change (inject_Z 2) with 2. change (inject_Z 10000) with 10000.
        change (inject_Z 1) with 1. lra. }
      rewrite <- Zlt_Qlt in H.
      assert (H' : inject_Z (2 * (10000 * k)) <= inject_Z (n + 2 * (j * n)))
        by (rewrite <- Zle_Qle; lia).
      rewrite !inject_Z_plus, !inject_Z_mult in H'.
      change (inject_Z 2) with 2 in H'. change (inject_Z 10000) with 10000 in H'.
      apply (Qmult_le_r _ _ (inject_Z n) HN).
      rewrite <- Eq in H'. lra.
    + assert (H : inject_Z (2 * (j * n)) < inject_Z (n + 1 + 2 * (10000 * k))).
      { rewrite !inject_Z_plus, !inject_Z_mult.
        change (inject_Z 2) with 2. change (inject_Z 10000) with 10000.
        change (inject_Z 1) with 1. lra. }
      rewrite <- Zlt_Qlt in H.
      assert (H' : inject_Z (2 * (j * n)) <= inject_Z (n + 2 * (10000 * k)))
        by (rewrite <- Zle_Qle; lia).
      rewrite !inject_Z_plus, !inject_Z_mult in H'.
      change (inject_Z 2) with 2 in H'. change (inject_Z 10000) with 10000 in H'.
      apply (Qmult_le_r _ _ (inject_Z n) HN).
      rewrite <- Eq in H'. lra.
Qed.

End Doubles.

Section BinaryFlags.

Import Pandas App.
Local Open Scope Q_scope.

Lemma binary_tail (x : option Q) (r : list (option Q)) :
  binary (x :: r) -> binary r.
Proof. intros H y Hy. apply H. right. exact Hy. Qed.

Lemma binary_select (m : list bool) (flag : list (option Q)) :
  binary flag -> binary (select m flag).
Proof. intros H x Hx. apply H. eapply select_In, Hx. Qed.

Lemma inject_S (n : nat) : inject_Z (Z.of_nat (S n)) == 1 + inject_Z (Z.of_nat n).
Proof. rewrite Nat2Z.inj_succ. unfold Z.succ. rewrite inject_Z_plus. simpl. ring. Qed.

(** The sum of binary flags, missing ones counted as 0 or left out, is
    the number of ones. *)
Lemma sum_fillna_binary (flag : list (option Q)) :
  binary flag ->
  sum (fillna (Some 0) flag) == inject_Z (Z.of_nat (ones flag)).
Proof.
  induction flag as [|x r IH]; intros H.
  - reflexivity.
  - specialize (IH (binary_tail _ _ H)).
    destruct (H x (or_introl eq_refl)) as [->|[->| ->]].
    + change (0 + sum (fillna (Some 0) r) == inject_Z (Z.of_nat (ones r))).
      rewrite IH. ring.
    + change (0 + sum (fillna (Some 0) r) == inject_Z (Z.of_nat (ones r))).
      rewrite IH. ring.
    + change (1 + sum (fillna (Some 0) r) == inject_Z (Z.of_nat (S (ones r)))).
      rewrite inject_S, IH. reflexivity.
Qed.

Lemma sum_dropna_binary (flag : list (option Q)) :
  binary flag ->
  PyNum.sum (dropna flag) == inject_Z (Z.of_nat (ones flag)).
Proof.
  induction flag as [|x r IH]; intros H.
  - reflexivity.
  - specialize (IH (binary_tail _ _ H)).
    destruct (H x (or_introl eq_refl)) as [->|[->| ->]].
    + exact IH.
    + change (0 + PyNum.sum (dropna r) == inject_Z (Z.of_nat (ones r))).
      rewrite IH. ring.
    + change (1 + PyNum.sum (dropna r) == inject_Z (Z.of_nat (S (ones r)))).
      rewrite inject_S, IH. reflexivity.
Qed.

Lemma ones_le_valid (flag : list (option Q)) :
  (ones flag <= length (dropna flag))%nat.
Proof.
  unfold ones. induction flag as [|[q|] r IH]; simpl; [lia| |exact IH].
  destruct (Qeq_bool q 1); simpl; lia.
Qed.

Lemma valid_le_length (flag : list (option Q)) :
  (length (dropna flag) <= length flag)%nat.
Proof. induction flag as [|[q|] r IH]; simpl; lia. Qed.

Lemma int_of_nat (n : nat) (q : Q) :
  q == inject_Z (Z.of_nat n) -> PyNum.int q = Z.of_nat n.
Proof.
  intros H. rewrite (int_comp _ _ H). unfold PyNum.int.
  assert (E : Qle_bool 0 (inject_Z (Z.of_nat n)) = true).
  { apply Qle_bool_iff. change 0 with (inject_Z 0). rewrite <- Zle_Qle. lia. }
  rewrite E. apply Qfloor_Z.
Qed.

Lemma count_claims_binary (flag : list (option Q)) :
  binary flag -> count_claims flag = Z.of_nat (ones flag).
Proof. intros H. apply int_of_nat, sum_fillna_binary, H. Qed.

(** The claim rate of binary flags is a number of hundredths, found
    from the share of the ones among the flags that are present. *)
Lemma rate_of_hundredths (flag : list (option Q)) (v : Q) (vs : list Q) :
  binary flag -> dropna flag = v :: vs ->
  exists q j,
    q * inject_Z (Z.of_nat (length (dropna flag)))
    == inject_Z (Z.of_nat (ones flag))
    /\ PyNum.sum (dropna flag) / inject_Z (Z.of_nat (length (dropna flag))) == q
    /\ rate_of flag = Qred (inject_Z j / 100)
    /\ (0 <= j <= 10000)%Z
    /\ ((Z.of_nat (length (dropna flag)) <= 4294967296)%Z ->
        10000 * q - (1 # 2) <= inject_Z j /\ inject_Z j <= 10000 * q + (1 # 2)).
Proof.
  intros H E.
  pose proof (sum_dropna_binary flag H) as Hs.
  pose proof (ones_le_valid flag) as Ho.
  assert (Hn : (0 < Z.of_nat (length (dropna flag)))%Z)
    by (rewrite E; cbn [length]; lia).
  assert (HN : 0 < inject_Z (Z.of_nat (length (dropna flag))))
    by (change 0 with (inject_Z 0); rewrite <- Zlt_Qlt; exact Hn).
  set (q := PyNum.sum (dropna flag) / inject_Z (Z.of_nat (length (dropna flag)))).
  assert (Eq : q * inject_Z (Z.of_nat (length (dropna flag)))
               == inject_Z (Z.of_nat (ones flag))).
  { rewrite <- Hs. unfold q. field. lra. }
  destruct (hundredths_of_share q (Z.of_nat (ones flag))
              (Z.of_nat (length (dropna flag)))) as [J B]; [lia|exact Hn|exact Eq|].
  cbv zeta in J, B.
  exists q, (PyNum.rint (F64.mul (F64.mul (F64.rnd q) 100) 100)).
  split; [exact Eq|]. split; [reflexivity|]. split; [|split; [exact J|exact B]].
  unfold rate_of, F64.mean_of. rewrite E. rewrite <- E. reflexivity.
Qed.

Lemma rate_of_binary (flag : list (option Q)) :
  binary flag -> 0 <= rate_of flag /\ rate_of flag <= 100.
Proof.
  intros H.
  destruct (dropna flag) as [|v vs] eqn:E.
  - unfold rate_of. rewrite E. split; [apply Qle_refl | discriminate].
  - destruct (rate_of_hundredths flag v vs H E) as [q [j [_ [_ [-> [[J0 J1] _]]]]]].
    rewrite Qred_correct.
    assert (Ha : inject_Z 0 <= inject_Z j) by (rewrite <- Zle_Qle; exact J0).
    assert (Hb : inject_Z j <= inject_Z 10000) by (rewrite <- Zle_Qle; exact J1).
    change (inject_Z 0) with 0 in Ha. change (inject_Z 10000) with 10000 in Hb.
    split.
    + apply Qle_shift_div_l; [reflexivity | lra].
    + apply Qle_shift_div_r; [reflexivity | lra].
Qed.

(** The claim rate of binary flags is the mean over the flags that are
    present, as a percentage, rounded to 2 decimals. *)
Lemma rate_of_rounded (flag : list (option Q)) :
  binary flag ->
  (Z.of_nat (valid_rows flag) <= 4294967296)%Z ->
  claim_rate_over_valid flag (rate_of flag) = true.
Proof.
  intros H Hb. unfold claim_rate_over_valid, percentage_over_valid.
  rewrite <- dropna_length in *. rewrite <- dropna_sum.
  destruct (dropna flag) as [|v vs] eqn:E.
  - unfold rate_of. rewrite E. reflexivity.
  - rewrite <- E in *.
    destruct (rate_of_hundredths flag v vs H E) as [q [j [_ [Eq [-> [_ B]]]]]].
    destruct (B Hb) as [B1 B2].
    replace (length (dropna flag)) with (S (length vs)) at 1
      by (rewrite E; reflexivity).
    unfold rounded_to_2_decimals.
    assert (R : Qred (inject_Z j / 100) == inject_Z j / 100) by apply Qred_correct.
    assert (F : Qfloor (Qred (inject_Z j / 100) * 100) = j).
    { rewrite <- (Qfloor_Z j) at 2. apply Qfloor_comp.
      rewrite Qred_correct. field. }
    rewrite F.
    apply andb_true_intro. split; [apply andb_true_intro; split|].
    + apply Qeq_bool_iff. symmetry. exact R.
    + apply Qle_bool_iff. rewrite R, Eq.
      apply Qle_shift_div_l; [reflexivity|]. lra.
    + apply Qle_bool_iff. rewrite R, Eq.
      apply Qle_shift_div_r; [reflexivity|]. lra.
Qed.

End BinaryFlags.

Section ClaimRateExamples.

Import Pandas.
Local Open Scope Q_scope.

Lemma calculate_metrics_inv (data : DataFrame) (m : App.metrics) :
  App.calculate_metrics data = Ok m ->
  exists flag, App.claim_flag data = Ok flag
               /\ App.total_customers m = len data
               /\ App.total_claims m = App.count_claims flag
               /\ App.claim_rate m = App.rate_of flag.
Proof.
  unfold App.calculate_metrics. intros H.
  bind_inv H. bind_inv H. bind_inv H. injection H as <-.
  exists a. auto.
Qed.

End ClaimRateExamples.

(** C1, as the code has it.  For every table whose claim indicator
    holds only 0, 1 and missing values, in at most [2 ** 32] rows that
    have one, the claim rate of the dashboard is the mean of the
    indicator over the rows where it is not missing, times 100 and
    rounded to 2 decimals -- a whole number of hundredths, at most
    0.005 away from the exact percentage -- and 0.0 when there is no
    such row.  The rate is computed on doubles, and a percentage that
    lies halfway between two hundredths goes where the double falls:
    for 23 claims among 160 rows, 14.375 percent, the rate is 14.37.
    For the claim status [claim, no claim, claim, claim, null] there
    are 3 claims and the rate is 75.0.  The inputs
    [1, 0, 1, claim, bogus] are a text column: its codes are not
    replaced by labels (only those of a numeric column are), the
    cleaning stage leaves [null, null, null, claim, null], the
    indicator is [null, null, null, 1, null], there is 1 claim and the
    rate is 100.0. *)
Theorem claim_rate_is_mean_over_valid_rows
    (data : Pandas.DataFrame) (flag : list (option Q)) (m : App.metrics) :
  App.claim_flag data = Ok flag ->
  binary flag ->
  (Z.of_nat (valid_rows flag) <= 4294967296)%Z ->
  App.calculate_metrics data = Ok m ->
  claim_rate_over_valid flag (App.claim_rate m) = true
  /\ App.rate_of (claims_of 23 160) = (1437 # 100)%Q
  /\ loaded_metrics (Ok labelled_status) = Ok (App.mkMetrics 5 3 75 None None)
  /\ loaded_metrics (Ok coded_status) = Ok (App.mkMetrics 5 1 100 None None)
  /\ Cleaning.cleaned_column "claim_status" raw_coded_status
     = Ok [Cleaning.NaN; Cleaning.NaN; Cleaning.NaN; Cleaning.Str "claim"; Cleaning.NaN].
Proof.
  intros Hf Hb Hn Hm. split; [|repeat split; vm_compute; reflexivity].
  apply calculate_metrics_inv in Hm. destruct Hm as [flag' [Hf' [_ [_ ->]]]].
  rewrite Hf in Hf'.
  apply (f_equal (fun r => match r with Ok x => x | Raise _ => flag end)) in Hf'.
  subst flag'. apply rate_of_rounded; assumption.
Qed.

(** The theorem at the table of the dashboard for the claim status
    [claim, no claim, claim, claim, null]: the rate 75.0 is the mean
    over the four rows with an indicator. *)
Lemma claim_rate_is_mean_over_valid_rows_witness :
  percentage_over_valid [Some 1; Some 0; Some 1; Some 1; None]%Q == 75
  /\ claim_rate_over_valid [Some 1; Some 0; Some 1; Some 1; None]%Q 75 = true.
Proof.
  split; [reflexivity|].
  pose (t := Pandas.mkTable [0; 1; 2; 3; 4]%nat
               [("claim_status",
                 Pandas.ObjCol [Some "claim"; Some "no claim"; Some "claim";
                                Some "claim"; None]);
                ("claim_flag",
                 Pandas.NumCol [Some 1; Some 0; Some 1; Some 1; None]%Q)]).
  assert (Hm : App.calculate_metrics t = Ok (App.mkMetrics 5 3 75 None None))
    by (vm_compute; reflexivity).
  refine (proj1 (claim_rate_is_mean_over_valid_rows t
                   [Some 1; Some 0; Some 1; Some 1; None]%Q
                   (App.mkMetrics 5 3 75 None None) eq_refl _ _ Hm)).
  - intros x [<-|[<-|[<-|[<-|[<-|[]]]]]]; tauto.
  - vm_compute. discriminate.
Defined.

(** C1, as stated, fails at the inputs [1, 0, 1, claim, bogus]: the
    dashboard does not count 3 claims and a rate of 75.0. *)
Lemma coded_status_is_not_mapped :
  ~ (exists m, loaded_metrics (Ok coded_status) = Ok m
               /\ App.total_claims m = 3%Z /\ (App.claim_rate m == 75)%Q).
Proof.
  intros [m [H [Ht _]]].
  assert (E : loaded_metrics (Ok coded_status) = Ok (App.mkMetrics 5 1 100 None None))
    by (vm_compute; reflexivity).
  rewrite E in H.
  apply (f_equal (fun r => match r with
                           | Ok x => App.total_claims x
                           | Raise _ => 0%Z
                           end)) in H.
  cbn [App.total_claims] in H. rewrite <- H in Ht. discriminate Ht.
Qed.

(** C4.  For every table in which no row has an indicator -- the empty
    table is one -- the claim rate of the dashboard is 0.0, a number:
    [calculate_metrics] returns it with 0 claims whenever it returns,
    and an exception it raises is one raised by the average of the
    credit score or of the mileage. *)
Theorem claim_rate_zero_without_valid_rows
    (data : Pandas.DataFrame) (flag : list (option Q)) :
  App.claim_flag data = Ok flag ->
  Forall (fun x => x = None) flag ->
  App.rate_of flag = 0%Q
  /\ (forall m, App.calculate_metrics data = Ok m ->
                App.claim_rate m = 0%Q /\ App.total_claims m = 0%Z)
  /\ (forall e, App.calculate_metrics data = Raise e ->
                App.average "credit_score" data = Raise e
                \/ App.average "annual_mileage" data = Raise e).
Proof.
  intros Hf Hall.
  assert (R : App.rate_of flag = 0%Q).
  { unfold App.rate_of. rewrite (dropna_all_missing _ Hall). reflexivity. }
  split; [exact R|split].
  - intros m Hm. apply calculate_metrics_inv in Hm.
    destruct Hm as [flag' [Hf' [_ [-> ->]]]].
    rewrite Hf in Hf'. injection Hf' as <-.
    split; [exact R | apply count_claims_all_missing, Hall].
  - intros e. unfold App.calculate_metrics. rewrite Hf. simpl.
    destruct (App.average "credit_score" data) as [cs|e1]; simpl.
    + destruct (App.average "annual_mileage" data) as [am|e2]; simpl.
      * discriminate.
      * intros H. right. injection H as ->. reflexivity.
    + intros H. left. injection H as ->. reflexivity.
Qed.

(** The theorem at the table of the dashboard for the claim status
    [bogus, null]; and at the empty table. *)
Lemma claim_rate_zero_without_valid_rows_witness :
  App.rate_of [None; None] = 0%Q /\ App.rate_of [] = 0%Q.
Proof.
  split.
  - refine (proj1 (claim_rate_zero_without_valid_rows
                     (Pandas.mkTable [0; 1]%nat
                        [("claim_status", Pandas.ObjCol [Some "bogus"; None]);
                         ("claim_flag", Pandas.NumCol [None; None])])
                     [None; None] eq_refl _)).
    repeat constructor.
  - refine (proj1 (claim_rate_zero_without_valid_rows
                     (Pandas.mkTable []
                        [("claim_status", Pandas.ObjCol []);
                         ("claim_flag", Pandas.NumCol [])])
                     [] eq_refl _)).
    constructor.
Defined.

(** ** The indicator of the charts *)

Section Indicator.

Import Pandas Visualization.
Local Open Scope Q_scope.



Lemma groupby_members {V} (dropna : bool) (ks : list (option key))
    (vals : list V) (g : option key * list V) (v : V) :
  In g (groupby dropna ks vals) -> In v (snd g) -> In v vals.
Proof.
  unfold groupby. intros Hg Hv. apply in_map_iff in Hg.
  destruct Hg as [k [<- _]]. simpl in Hv. exact (select_In _ _ _ Hv).
Qed.



End Indicator.



(** ** Groups *)

Section Partition.

Import Pandas.
Context {A : Type}.
Variable eqb : A -> A -> bool.
Hypothesis eqb_refl : forall x, eqb x x = true.
Hypothesis eqb_sym : forall x y, eqb x y = eqb y x.
Hypothesis eqb_trans :
  forall x y z, eqb x y = true -> eqb y z = true -> eqb x z = true.

Lemma kept_fresh (xs seen : list A) (k : A) :
  In k (kept eqb seen xs) -> existsb (eqb k) seen = false.
Proof.
  unfold kept. revert seen; induction xs as [|x r IH]; intros seen; simpl; [tauto|].
  destruct (existsb (eqb x) seen) eqn:E; simpl.
  - intros H. specialize (IH _ H). simpl in IH.
    apply orb_false_iff in IH. tauto.
  - intros [<-|H]; [exact E|].
    specialize (IH _ H). simpl in IH. apply orb_false_iff in IH. tauto.
Qed.

Lemma filter_split (p q t : A -> bool) (xs : list A) :
  (forall y, (Nat.b2n (p y) + Nat.b2n (q y) = Nat.b2n (t y))%nat) ->
  (length (filter p xs) + length (filter q xs) = length (filter t xs))%nat.
Proof.
  intros H. induction xs as [|x r IH]; simpl; [reflexivity|].
  specialize (H x).
  destruct (p x), (q x), (t x); simpl in *; lia.
Qed.

Lemma filter_same (p q : A -> bool) (xs : list A) :
  (forall y, p y = q y) -> length (filter p xs) = length (filter q xs).
Proof.
  intros H. induction xs as [|x r IH]; simpl; [reflexivity|].
  rewrite (H x). destruct (q x); simpl; lia.
Qed.

Lemma group_size_cons_other (x k : A) (xs : list A) :
  eqb k x = false -> group_size eqb (x :: xs) k = group_size eqb xs k.
Proof. unfold group_size. simpl. intros ->. reflexivity. Qed.

Lemma sum_sizes_cons (x : A) (xs ks : list A) :
  (forall k, In k ks -> eqb k x = false) ->
  list_sum (map (group_size eqb (x :: xs)) ks) = list_sum (map (group_size eqb xs) ks).
Proof.
  induction ks as [|k r IH]; simpl; intros H; [reflexivity|].
  rewrite group_size_cons_other by (apply H; left; reflexivity).
  rewrite IH by (intros; apply H; right; assumption). reflexivity.
Qed.

(** The groups of the keys kept partition the fresh elements. *)
Lemma sum_sizes_kept (xs seen : list A) :
  list_sum (map (group_size eqb xs) (kept eqb seen xs))
  = length (filter (fresh_in eqb seen) xs).
Proof.
  revert seen; induction xs as [|x r IH]; intros seen; [reflexivity|].
  unfold kept. simpl dup_mask. simpl map. cbn [select].
  unfold fresh_in at 1. simpl filter.
  destruct (existsb (eqb x) seen) eqn:E; simpl negb; cbv iota.
  - fold (kept eqb (x :: seen) r).
    rewrite sum_sizes_cons.
    2:{ intros k Hk. apply kept_fresh in Hk. simpl in Hk.
        apply orb_false_iff in Hk. tauto. }
    rewrite IH. apply filter_same. intros y. unfold fresh_in. simpl.
    destruct (eqb y x) eqn:Eyx; [|reflexivity]. simpl.
    assert (Hy : existsb (eqb y) seen = true).
    { apply existsb_exists in E. destruct E as [s [Hs Exs]].
      apply existsb_exists. exists s. split; [exact Hs|].
      exact (eqb_trans _ _ _ Eyx Exs). }
    rewrite Hy. reflexivity.
  - fold (kept eqb (x :: seen) r). simpl map. simpl list_sum.
    rewrite sum_sizes_cons.
    2:{ intros k Hk. apply kept_fresh in Hk. simpl in Hk.
        apply orb_false_iff in Hk. tauto. }
    rewrite IH. unfold group_size at 1. simpl filter. rewrite eqb_refl.
    simpl length. rewrite Nat.add_succ_l. f_equal.
    apply filter_split. intros y. unfold fresh_in. simpl.
    rewrite (eqb_sym y x).
    destruct (eqb x y) eqn:Exy; simpl; [|reflexivity].
    destruct (existsb (eqb y) seen) eqn:Ey; [|reflexivity].
    exfalso. apply existsb_exists in Ey. destruct Ey as [s [Hs Eys]].
    assert (Hx : existsb (eqb x) seen = true).
    { apply existsb_exists. exists s. split; [exact Hs|].
      exact (eqb_trans _ _ _ Exy Eys). }
    congruence.
Qed.

Lemma sum_sizes_unique (xs : list A) :
  list_sum (map (group_size eqb xs) (unique eqb xs)) = length xs.
Proof.
  unfold unique, duplicated. fold (kept eqb [] xs). rewrite sum_sizes_kept.
  clear. induction xs as [|x r IH]; simpl; [reflexivity|].
  rewrite IH. reflexivity.
Qed.

End Partition.

Section GroupBy.

Import Pandas.
Local Open Scope Q_scope.

Lemma okey_eqb_refl (k : option key) : okey_eqb k k = true.
Proof.
  destruct k as [[q|s]|]; simpl;
    [apply Qeq_bool_refl | apply String.eqb_refl | reflexivity].
Qed.

Lemma okey_eqb_sym (j k : option key) : okey_eqb j k = okey_eqb k j.
Proof.
  destruct j as [[p|s]|], k as [[q|t]|]; simpl; try reflexivity;
    [apply Qeq_bool_comm | apply String.eqb_sym].
Qed.

Lemma okey_eqb_trans (i j k : option key) :
  okey_eqb i j = true -> okey_eqb j k = true -> okey_eqb i k = true.
Proof.
  destruct i as [[p|s]|], j as [[q|t]|], k as [[r|u]|]; simpl;
    try discriminate; try reflexivity.
  - apply Qeq_bool_trans.
  - rewrite !String.eqb_eq. congruence.
Qed.

Lemma list_sum_insert_key (f : option key -> nat) (k : option key)
    (ks : list (option key)) :
  list_sum (map f (insert_key k ks)) = (f k + list_sum (map f ks))%nat.
Proof.
  induction ks as [|j r IH]; simpl; [reflexivity|].
  destruct (okey_leb k j); simpl; [reflexivity|]. rewrite IH. lia.
Qed.

Lemma list_sum_sort_keys (f : option key -> nat) (ks : list (option key)) :
  list_sum (map f (sort_keys ks)) = list_sum (map f ks).
Proof.
  induction ks as [|k r IH]; simpl; [reflexivity|].
  rewrite list_sum_insert_key, IH. reflexivity.
Qed.

Lemma filter_id_map {A} (f : A -> bool) (xs : list A) :
  length (filter id (map f xs)) = length (filter f xs).
Proof.
  induction xs as [|x r IH]; simpl; [reflexivity|].
  unfold id at 1. destruct (f x); simpl; rewrite IH; reflexivity.
Qed.

(** With the group of the missing key kept, the groups partition the
    rows: their sizes add up to the number of rows. *)
Lemma groupby_partition {V} (by_ : list (option key)) (val : list V) :
  length val = length by_ ->
  list_sum (map (fun g => length (snd g)) (groupby false by_ val))
  = length by_.
Proof.
  intros L. unfold groupby. rewrite map_map. simpl snd.
  rewrite (map_ext _ (group_size okey_eqb by_)).
  - rewrite list_sum_sort_keys.
    apply sum_sizes_unique;
      [exact okey_eqb_refl | exact okey_eqb_sym | exact okey_eqb_trans].
  - intros k. rewrite select_length by (rewrite length_map; auto).
    apply filter_id_map.
Qed.

Lemma numeric_length (c : column) (xs : list (option Q)) :
  numeric c = Ok xs -> length xs = col_length c.
Proof.
  destruct c as [ys|ys]; simpl.
  - intros H. injection H as <-. reflexivity.
  - destruct (forallb isna ys); [|discriminate].
    intros H. injection H as <-. apply length_map.
Qed.

Lemma keys_of_length (c : column) : length (keys_of c) = col_length c.
Proof. destruct c; simpl; apply length_map. Qed.

Lemma lookup_In {C} (n : string) (cs : list (string * C)) (c : C) :
  lookup n cs = Some c -> exists n', In (n', c) cs.
Proof.
  induction cs as [|[k c'] r IH]; simpl; [discriminate|].
  destruct (String.eqb n k).
  - intros H. injection H as ->. eauto.
  - intros H. destruct (IH H) as [n' Hn]. eauto.
Qed.

Lemma well_formed_lookup (d : DataFrame) (n : string) (c : column) :
  well_formed d -> lookup n (cols d) = Some c -> col_length c = len d.
Proof.
  intros W H. apply lookup_In in H. destruct H as [n' Hin].
  unfold well_formed in W. rewrite Forall_forall in W.
  exact (W _ Hin).
Qed.

(** The breakdowns of the dashboard partition the rows of the table. *)
Lemma dashboard_groups_partition (d : DataFrame) (by_ : string)
    (gs : list (option key * list (option Q))) :
  well_formed d ->
  App.claim_groups by_ d = Ok gs ->
  list_sum (map (fun g => length (snd g)) gs) = len d.
Proof.
  intros W H. unfold App.claim_groups in H.
  bind_inv H. bind_inv H. bind_inv H. injection H as <-.
  apply getitem_Ok in E, E0.
  rewrite groupby_partition.
  - rewrite keys_of_length. exact (well_formed_lookup _ _ _ W E).
  - rewrite keys_of_length, (numeric_length _ _ E1).
    rewrite (well_formed_lookup _ _ _ W E), (well_formed_lookup _ _ _ W E0).
    reflexivity.
Qed.

End GroupBy.

(** C6 at a table of two rows, one with a missing age.  The breakdown
    by age of the summary script has the single group of one row: the
    row with the missing age is in no group, and the sizes add up to 1,
    not 2.  The breakdown of the dashboard has a group for the missing
    age and its sizes add up to 2. *)
Theorem summary_groups_drop_missing_keys :
  MetricsSummary.group_sizes "age" missing_age = Ok [1%nat]
  /\ Pandas.len missing_age = 2%nat
  /\ MetricsSummary.claims_by "age" missing_age
     = Ok [(Some (Pandas.KStr "young"), Some 100%Q)]
  /\ App.claim_groups "age" missing_age
     = Ok [(Some (Pandas.KStr "young"), [Some 1%Q]); (None, [Some 1%Q])].
Proof. repeat split. Qed.

(** ** The tables of the dashboard *)

Section DashboardTables.

Import Pandas App.
Local Open Scope Q_scope.

(** The table of the dashboard has a numeric claim flag. *)
Lemma prepare_claim_flag (read : result DataFrame) (df : DataFrame) :
  snd (prepare read) = Ok df ->
  exists flag, lookup "claim_flag" (cols df) = Some (NumCol flag).
Proof.
  unfold prepare. destruct (load_cleaned_data read) as [l1 [d|e]] eqn:E;
    [|discriminate].
  unfold add_claim_flag.
  destruct (lookup "claim_status" (cols (readable_claim_status (rename_outcome d))))
    as [c|]; simpl; [|discriminate].
  intros H. injection H as <-. exists (claim_flag_of c).
  rewrite lookup_setitem. reflexivity.
Qed.

Lemma lookup_filter_rows (n : string) (mask : list bool) (d : DataFrame) :
  lookup n (cols (filter_rows mask d))
  = option_map (col_select mask) (lookup n (cols d)).
Proof. unfold filter_rows. simpl. apply lookup_map. Qed.

Lemma apply_filter_claim_flag (name : string) (sel : list key)
    (d d' : DataFrame) (flag : list (option Q)) :
  lookup "claim_flag" (cols d) = Some (NumCol flag) ->
  apply_filter name sel d = Ok d' ->
  exists flag', lookup "claim_flag" (cols d') = Some (NumCol flag').
Proof.
  intros Hf. unfold apply_filter. destruct sel as [|k sel].
  - intros H. injection H as <-. eauto.
  - intros H. bind_inv H. injection H as <-.
    rewrite lookup_filter_rows, Hf. simpl. eauto.
Qed.

(** So has every table of selected rows: on them the claim rate is
    computed without an exception. *)
Lemma filtered_claim_flag (d d' : DataFrame) (sel : selection)
    (flag : list (option Q)) :
  lookup "claim_flag" (cols d) = Some (NumCol flag) ->
  filtered_df d sel = Ok d' ->
  exists flag', claim_flag d' = Ok flag'.
Proof.
  intros Hf H. unfold filtered_df in H.
  bind_inv H. destruct (apply_filter_claim_flag _ _ _ _ _ Hf E) as [f1 H1].
  bind_inv H. destruct (apply_filter_claim_flag _ _ _ _ _ H1 E0) as [f2 H2].
  bind_inv H. destruct (apply_filter_claim_flag _ _ _ _ _ H2 E1) as [f3 H3].
  destruct (apply_filter_claim_flag _ _ _ _ _ H3 H) as [f4 H4].
  exists f4. unfold claim_flag, getitem. rewrite H4. reflexivity.
Qed.

End DashboardTables.

(** The summary script divides by every row of a text column: for the
    claim status [claim, no claim, claim, claim, null] its claim rate
    is 60.0, where the dashboard has 75.0. *)
Example summary_rate_counts_missing_rows :
  MetricsSummary.summary_claim_rate labelled_status = Ok (Some 60%Q).
Proof. vm_compute. reflexivity. Qed.

(** ** The callback and the table *)

Section Callback.

Import Pandas App.
Local Open Scope Q_scope.

Lemma grows_refl (s : state) : grows s s.
Proof. exists []. rewrite app_nil_r. reflexivity. Qed.

Lemma grows_trans (s1 s2 s3 : state) : grows s1 s2 -> grows s2 s3 -> grows s1 s3.
Proof.
  intros [n1 H1] [n2 H2]. exists (n1 ++ n2).
  rewrite H2, H1, app_assoc. reflexivity.
Qed.

Lemma grows_nth (s s' : state) (l : loc) :
  grows s s' -> (l < length (heap s))%nat ->
  nth l (heap s') empty_frame = nth l (heap s) empty_frame.
Proof. intros [new H] Hl. rewrite H. apply app_nth1, Hl. Qed.

Lemma grows_length (s s' : state) :
  grows s s' -> (length (heap s) <= length (heap s'))%nat.
Proof. intros [new H]. rewrite H, length_app. lia. Qed.

Lemma set_nth_last {A} (xs : list A) (a b : A) :
  set_nth (length xs) b (xs ++ [a]) = xs ++ [b].
Proof. induction xs as [|x r IH]; simpl; [reflexivity | rewrite IH; reflexivity]. Qed.

Lemma filter_isin_spec (name : string) (sel : list key) (l : loc) (s : state) :
  (l < length (heap s))%nat ->
  exists r s',
    filter_isin name sel l s = (r, s') /\ grows s s'
    /\ match r with
       | Ok l' => (l' < length (heap s'))%nat
                  /\ apply_filter name sel (nth l (heap s) empty_frame)
                     = Ok (nth l' (heap s') empty_frame)
       | Raise e => apply_filter name sel (nth l (heap s) empty_frame) = Raise e
       end.
Proof.
  intros Hl. unfold filter_isin, apply_filter.
  destruct sel as [|k sel].
  - exists (Ok l), s. split; [reflexivity|]. split; [apply grows_refl|]. auto.
  - unfold bindM, deref, lift, alloc. simpl.
    destruct (getitem name (nth l (heap s) empty_frame)) as [c|e]; simpl.
    + eexists; eexists. split; [reflexivity|]. split; [|split].
      * eexists. reflexivity.
      * simpl. rewrite length_app. simpl. lia.
      * simpl. rewrite nth_middle. reflexivity.
    + eexists; eexists. split; [reflexivity|]. split; [apply grows_refl|].
      reflexivity.
Qed.

Lemma copy_spec (l : loc) (s : state) :
  exists s',
    copy l s = (Ok (length (heap s)), s') /\ grows s s'
    /\ (length (heap s) < length (heap s'))%nat
    /\ nth (length (heap s)) (heap s') empty_frame = nth l (heap s) empty_frame.
Proof.
  unfold copy, bindM, deref, alloc. simpl.
  eexists. split; [reflexivity|]. split; [|split].
  - eexists. reflexivity.
  - simpl. rewrite length_app. simpl. lia.
  - simpl. apply nth_middle.
Qed.

End Callback.

Section CallbackRun.

Import Pandas App.
Local Open Scope Q_scope.

Lemma filtered_spec (df : loc) (sel : selection) (s : state) :
  (df < length (heap s))%nat ->
  exists r s',
    filtered df sel s = (r, s') /\ grows s s'
    /\ match r with
       | Ok l => (l < length (heap s'))%nat
                 /\ filtered_df (nth df (heap s) empty_frame) sel
                    = Ok (nth l (heap s') empty_frame)
       | Raise e => filtered_df (nth df (heap s) empty_frame) sel = Raise e
       end.
Proof.
  intros Hdf. unfold filtered, filtered_df.
  destruct (copy_spec df s) as [s0 [E0 [G0 [L0 N0]]]].
  unfold bindM at 1. rewrite E0, <- N0.
  destruct (filter_isin_spec "age" (selected_age sel) _ s0 L0)
    as [r1 [s1 [E1 [G1 P1]]]].
  unfold bindM at 1. rewrite E1.
  destruct r1 as [l1|e]; [destruct P1 as [L1 P1]|];
    rewrite P1; simpl bind;
    [|exists (Raise e), s1; split; [reflexivity|split; [eauto using grows_trans|reflexivity]]].
  destruct (filter_isin_spec "gender" (selected_gender sel) _ s1 L1)
    as [r2 [s2 [E2 [G2 P2]]]].
  unfold bindM at 1. rewrite E2.
  destruct r2 as [l2|e]; [destruct P2 as [L2 P2]|];
    rewrite P2; simpl bind;
    [|exists (Raise e), s2; split; [reflexivity|split; [eauto using grows_trans|reflexivity]]].
  destruct (filter_isin_spec "driving_experience" (selected_experience sel) _ s2 L2)
    as [r3 [s3 [E3 [G3 P3]]]].
  unfold bindM at 1. rewrite E3.
  destruct r3 as [l3|e]; [destruct P3 as [L3 P3]|];
    rewrite P3; simpl bind;
    [|exists (Raise e), s3; split; [reflexivity|split; [eauto using grows_trans|reflexivity]]].
  destruct (filter_isin_spec "vehicle_year" (selected_year sel) _ s3 L3)
    as [r4 [s4 [E4 [G4 P4]]]].
  rewrite E4. exists r4, s4. split; [reflexivity|].
  split; [eauto using grows_trans|]. exact P4.
Qed.

Lemma chart_spec (by_ : string) (l : loc) (s : state) :
  exists s',
    claim_rate_chart by_ l s = (chart_of by_ (nth l (heap s) empty_frame), s')
    /\ grows s s'.
Proof.
  unfold claim_rate_chart, chart_of, scale_claim_rate, bindM, deref, lift,
    alloc, store.
  simpl.
  destruct (grouped_mean by_ (nth l (heap s) empty_frame)) as [g|e]; simpl.
  - rewrite nth_middle.
    destruct (getitem "claim_rate" g) as [c|e]; simpl.
    + destruct (numeric c) as [xs|e]; simpl.
      * rewrite set_nth_last, nth_middle.
        eexists. split; [reflexivity|]. eexists. reflexivity.
      * eexists. split; [reflexivity|]. eexists. reflexivity.
    + eexists. split; [reflexivity|]. eexists. reflexivity.
  - eexists. split; [reflexivity|]. apply grows_refl.
Qed.

Lemma box_spec (x y : string) (l : loc) (s : state) :
  box_chart x y l s = (box_of x y (nth l (heap s) empty_frame), s).
Proof.
  unfold box_chart, box_of, bindM, deref, lift, ret. simpl.
  destruct (lookup x (cols (nth l (heap s) empty_frame)));
    [destruct (lookup y (cols (nth l (heap s) empty_frame)))|]; reflexivity.
Qed.

Lemma metrics_at_spec (l : loc) (s : state) :
  calculate_metrics_at l s = (calculate_metrics (nth l (heap s) empty_frame), s).
Proof. reflexivity. Qed.

Lemma update_body_spec (df : loc) (sel : selection) (s : state) :
  (df < length (heap s))%nat ->
  exists s',
    update_body df sel s = (dashboard_of (nth df (heap s) empty_frame) sel, s')
    /\ grows s s'.
Proof.
  intros Hdf. unfold update_body, dashboard_of.
  destruct (filtered_spec df sel s Hdf) as [r [s0 [E0 [G0 P0]]]].
  unfold bindM at 1. rewrite E0.
  destruct r as [l|e]; [destruct P0 as [L0 P0]|]; rewrite P0; simpl bind;
    [|exists s0; split; [reflexivity|exact G0]].
  set (d := nth l (heap s0) empty_frame).
  unfold bindM at 1. rewrite metrics_at_spec. fold d.
  destruct (calculate_metrics d) as [m|e]; simpl bind; [|exists s0; split; [reflexivity|exact G0]].
  unfold bindM at 1. unfold lift at 1.
  destruct (kpi_cards m) as [k|e]; simpl bind; [|exists s0; split; [reflexivity|exact G0]].
  destruct (chart_spec "age" l s0) as [s1 [E1 G1]].
  unfold bindM at 1. rewrite E1. fold d.
  pose proof (Nat.lt_le_trans _ _ _ L0 (grows_length _ _ G1)) as L1.
  pose proof (grows_nth _ _ l G1 L0) as N1. fold d in N1.
  destruct (chart_of "age" d) as [a|e]; simpl bind;
    [|exists s1; split; [reflexivity|eauto 10 using grows_trans]].
  destruct (chart_spec "gender" l s1) as [s2 [E2 G2]].
  unfold bindM at 1. rewrite E2, N1.
  pose proof (Nat.lt_le_trans _ _ _ L1 (grows_length _ _ G2)) as L2.
  pose proof (grows_nth _ _ l G2 L1) as N2. rewrite N1 in N2.
  destruct (chart_of "gender" d) as [g|e]; simpl bind;
    [|exists s2; split; [reflexivity|eauto 10 using grows_trans]].
  destruct (chart_spec "driving_experience" l s2) as [s3 [E3 G3]].
  unfold bindM at 1. rewrite E3, N2.
  pose proof (Nat.lt_le_trans _ _ _ L2 (grows_length _ _ G3)) as L3.
  pose proof (grows_nth _ _ l G3 L2) as N3. rewrite N2 in N3.
  destruct (chart_of "driving_experience" d) as [x|e]; simpl bind;
    [|exists s3; split; [reflexivity|eauto 10 using grows_trans]].
  destruct (chart_spec "vehicle_ownership" l s3) as [s4 [E4 G4]].
  unfold bindM at 1. rewrite E4, N3.
  pose proof (Nat.lt_le_trans _ _ _ L3 (grows_length _ _ G4)) as L4.
  pose proof (grows_nth _ _ l G4 L3) as N4. rewrite N3 in N4.
  destruct (chart_of "vehicle_ownership" d) as [o|e]; simpl bind;
    [|exists s4; split; [reflexivity|eauto 10 using grows_trans]].
  destruct (chart_spec "vehicle_year" l s4) as [s5 [E5 G5]].
  unfold bindM at 1. rewrite E5, N4.
  pose proof (grows_nth _ _ l G5 L4) as N5. rewrite N4 in N5.
  destruct (chart_of "vehicle_year" d) as [y|e]; simpl bind;
    [|exists s5; split; [reflexivity|eauto 10 using grows_trans]].
  unfold bindM at 1. rewrite box_spec, N5.
  destruct (box_of "claim_status" "speeding_violations" d) as [b|e]; simpl bind;
    [|exists s5; split; [reflexivity|eauto 10 using grows_trans]].
  unfold bindM, logging, ret. simpl.
  eexists. split; [reflexivity|].
  assert (G : grows s s5) by eauto 10 using grows_trans.
  destruct G as [new Hn]. exists new. exact Hn.
Qed.

Lemma update_dashboard_spec (df : loc) (sel : selection) (s : state) :
  (df < length (heap s))%nat ->
  exists s',
    update_dashboard df sel s = (dashboard_of (nth df (heap s) empty_frame) sel, s')
    /\ grows s s'.
Proof.
  intros Hdf. destruct (update_body_spec df sel s Hdf) as [s' [E G]].
  unfold update_dashboard. rewrite E.
  destruct (dashboard_of (nth df (heap s) empty_frame) sel) as [r|e].
  - exists s'. auto.
  - destruct (is_exception e).
    + eexists. split; [reflexivity|]. exact G.
    + exists s'. auto.
Qed.

End CallbackRun.

(** C8.  For every state of the process, table of it and selection: the
    callback leaves the table as it is -- it leaves every table of the
    process as it is, the tables it works on are new ones -- and what it
    returns is a function of the table and of the selection alone;
    [calculate_metrics] itself changes nothing at all. *)
Theorem aggregation_leaves_table_unchanged
    (df : App.loc) (sel : App.selection) (s : App.state) :
  (df < length (App.heap s))%nat ->
  nth df (App.heap (snd (App.update_dashboard df sel s))) App.empty_frame
  = nth df (App.heap s) App.empty_frame
  /\ (exists new, App.heap (snd (App.update_dashboard df sel s)) = App.heap s ++ new)
  /\ fst (App.update_dashboard df sel s)
     = dashboard_of (nth df (App.heap s) App.empty_frame) sel
  /\ (forall l, snd (App.calculate_metrics_at l s) = s).
Proof.
  intros Hdf. destruct (update_dashboard_spec df sel s Hdf) as [s' [E G]].
  rewrite E. simpl fst. simpl snd.
  split; [exact (grows_nth _ _ _ G Hdf)|].
  split; [exact G|]. split; reflexivity.
Qed.

(** The theorem at a state of one table, the young drivers selected:
    the table is as it was and two new tables were made for the rows
    selected, before those of the charts. *)
Lemma aggregation_leaves_table_unchanged_witness :
  nth 0 (App.heap (snd (App.update_dashboard 0%nat young_selected dashboard_state)))
      App.empty_frame
  = dashboard_table.
Proof.
  exact (proj1 (aggregation_leaves_table_unchanged 0%nat young_selected dashboard_state
                  (Nat.lt_0_succ 0))).
Defined.

(* ================================================================= *)
(** * Further properties of the scripts *)

(** ** Names and text *)

Section TextFacts.

Import PyStr.

Lemma isspace_lower (c : ascii) : isspace (lower_ascii c) = isspace c.
Proof. destruct c as [[] [] [] [] [] [] [] []]; reflexivity. Qed.

Lemma lower_ascii_idem (c : ascii) : lower_ascii (lower_ascii c) = lower_ascii c.
Proof. destruct c as [[] [] [] [] [] [] [] []]; reflexivity. Qed.

Lemma isspace_underscore (c : ascii) :
  isspace c = false -> isspace (underscore c) = false.
Proof. destruct c as [[] [] [] [] [] [] [] []]; simpl; auto. Qed.

Lemma underscore_idem (c : ascii) : underscore (underscore c) = underscore c.
Proof. destruct c as [[] [] [] [] [] [] [] []]; reflexivity. Qed.

Lemma lower_underscore (c : ascii) :
  lower_ascii (underscore c) = underscore (lower_ascii c).
Proof. destruct c as [[] [] [] [] [] [] [] []]; reflexivity. Qed.

Lemma lower_idem (s : string) : lower (lower s) = lower s.
Proof.
  induction s as [|c r IH]; simpl; [reflexivity|].
  rewrite lower_ascii_idem, IH. reflexivity.
Qed.

Lemma replace_space_idem (s : string) :
  replace_space (replace_space s) = replace_space s.
Proof.
  induction s as [|c r IH]; simpl; [reflexivity|].
  fold (underscore c). fold (underscore (underscore c)).
  rewrite underscore_idem, IH. reflexivity.
Qed.

Lemma lower_replace_space (s : string) :
  lower (replace_space s) = replace_space (lower s).
Proof.
  induction s as [|c r IH]; simpl; [reflexivity|].
  fold (underscore c). fold (underscore (lower_ascii c)).
  rewrite lower_underscore, IH. reflexivity.
Qed.

Lemma lstrip_lower (s : string) : lstrip (lower s) = lower (lstrip s).
Proof.
  induction s as [|c r IH]; simpl; [reflexivity|].
  rewrite isspace_lower. destruct (isspace c); [exact IH | reflexivity].
Qed.

Lemma rstrip_lower (s : string) : rstrip (lower s) = lower (rstrip s).
Proof.
  induction s as [|c r IH]; simpl; [reflexivity|].
  rewrite IH, isspace_lower.
  destruct (rstrip r) as [|d t]; simpl; [destruct (isspace c)|]; reflexivity.
Qed.

Lemma strip_lower (s : string) : strip (lower s) = lower (strip s).
Proof. unfold strip. rewrite lstrip_lower, rstrip_lower. reflexivity. Qed.

Lemma lstrip_starts_clean (s : string) : starts_clean (lstrip s) = true.
Proof.
  induction s as [|c r IH]; simpl; [reflexivity|].
  destruct (isspace c) eqn:E; [exact IH | simpl; rewrite E; reflexivity].
Qed.

Lemma lstrip_fixed (s : string) : starts_clean s = true -> lstrip s = s.
Proof.
  destruct s as [|c r]; simpl; [reflexivity|].
  intros H. apply negb_true_iff in H. rewrite H. reflexivity.
Qed.

Lemma rstrip_ends_clean (s : string) : ends_clean (rstrip s) = true.
Proof.
  induction s as [|c r IH]; simpl; [reflexivity|].
  destruct (rstrip r) as [|d t] eqn:E.
  - destruct (isspace c) eqn:Ec; simpl; [reflexivity | rewrite Ec; reflexivity].
  - simpl in *. exact IH.
Qed.

Lemma rstrip_fixed (s : string) : ends_clean s = true -> rstrip s = s.
Proof.
  induction s as [|c r IH]; simpl; [reflexivity|].
  destruct r as [|d t].
  - intros H. apply negb_true_iff in H. simpl. rewrite H. reflexivity.
  - intros H. rewrite (IH H). reflexivity.
Qed.

Lemma rstrip_starts_clean (s : string) :
  starts_clean s = true -> starts_clean (rstrip s) = true.
Proof.
  destruct s as [|c r]; simpl; [reflexivity|].
  intros H. destruct (rstrip r); [|exact H].
  apply negb_true_iff in H. rewrite H. simpl. rewrite H. reflexivity.
Qed.

Lemma strip_clean (s : string) :
  starts_clean (strip s) = true /\ ends_clean (strip s) = true.
Proof.
  unfold strip. split.
  - apply rstrip_starts_clean, lstrip_starts_clean.
  - apply rstrip_ends_clean.
Qed.

Lemma strip_fixed (s : string) :
  starts_clean s = true -> ends_clean s = true -> strip s = s.
Proof.
  intros H1 H2. unfold strip. rewrite (lstrip_fixed _ H1). apply rstrip_fixed, H2.
Qed.

Lemma strip_idem (s : string) : strip (strip s) = strip s.
Proof. destruct (strip_clean s). apply strip_fixed; assumption. Qed.

Lemma lower_clean (s : string) :
  starts_clean (lower s) = starts_clean s /\ ends_clean (lower s) = ends_clean s.
Proof.
  split.
  - destruct s; simpl; [reflexivity | rewrite isspace_lower; reflexivity].
  - induction s as [|c r IH]; simpl; [reflexivity|].
    destruct r as [|d t]; simpl in *; [rewrite isspace_lower; reflexivity | exact IH].
Qed.

Lemma replace_space_clean (s : string) :
  (starts_clean s = true -> starts_clean (replace_space s) = true)
  /\ (ends_clean s = true -> ends_clean (replace_space s) = true).
Proof.
  split.
  - destruct s as [|c r]; simpl; [reflexivity|]. intros H.
    apply negb_true_iff in H. apply negb_true_iff.
    exact (isspace_underscore c H).
  - induction s as [|c r IH]; simpl; [reflexivity|].
    destruct r as [|d t]; simpl in *.
    + intros H. apply negb_true_iff in H. apply negb_true_iff.
      exact (isspace_underscore c H).
    + exact IH.
Qed.

Lemma mem_false_iff (s : string) (xs : list string) :
  mem s xs = false <-> ~ In s xs.
Proof.
  unfold mem. split.
  - intros H Hin. assert (E : existsb (String.eqb s) xs = true).
    { apply existsb_exists. exists s. split; [exact Hin | apply String.eqb_refl]. }
    congruence.
  - intros H. destruct (existsb (String.eqb s) xs) eqn:E; [|reflexivity].
    apply existsb_exists in E. destruct E as [x [Hx Ex]].
    apply String.eqb_eq in Ex. subst x. contradiction.
Qed.

End TextFacts.

(** X1.  Standardizing a column name twice gives the name standardized
    once: a table written by the script keeps its names when it is
    cleaned again. *)
Theorem standardize_name_idempotent (n : string) :
  Cleaning.standardize_name (Cleaning.standardize_name n)
  = Cleaning.standardize_name n.
Proof.
  unfold Cleaning.standardize_name.
  set (v := PyStr.lower (PyStr.strip n)).
  assert (Cv : starts_clean v = true /\ ends_clean v = true).
  { unfold v. destruct (lower_clean (PyStr.strip n)) as [-> ->].
    apply strip_clean. }
  destruct Cv as [C1 C2].
  destruct (replace_space_clean v) as [R1 R2].
  rewrite (strip_fixed _ (R1 C1) (R2 C2)).
  rewrite lower_replace_space, replace_space_idem.
  unfold v. rewrite lower_idem. reflexivity.
Qed.

(** X2.  The standardization of text columns is idempotent: applied to
    a table whose text is already standardized it changes no cell. *)
Theorem clean_text_idempotent (c : Pandas.column) :
  Cleaning.clean_text (Cleaning.clean_text c) = Cleaning.clean_text c.
Proof.
  destruct c as [xs|xs]; simpl; [reflexivity|].
  f_equal. rewrite map_map. apply map_ext. intros x.
  unfold Cleaning.clean_text_cell. simpl PyStr.str.
  rewrite strip_lower, lower_idem, strip_idem. reflexivity.
Qed.

(** ** The shape of the cleaned table *)

Section Shape.

Import Pandas Cleaning.
Local Open Scope Q_scope.

Lemma lookup_None_iff {C} (n : string) (cs : list (string * C)) :
  lookup n cs = None <-> PyStr.mem n (map fst cs) = false.
Proof.
  unfold PyStr.mem. induction cs as [|[k c] r IH]; simpl; [tauto|].
  destruct (String.eqb n k); simpl; [split; discriminate | exact IH].
Qed.

Lemma columns_update {C} (n : string) (c c0 : C) (cs : list (string * C)) :
  lookup n cs = Some c0 -> map fst (update n c cs) = map fst cs.
Proof.
  induction cs as [|[k c'] r IH]; simpl; [discriminate|].
  destruct (String.eqb n k) eqn:E; simpl; [reflexivity|].
  intros H. rewrite (IH H). reflexivity.
Qed.

Lemma columns_map {C D} (f : C -> D) (cs : list (string * C)) :
  map fst (map (fun nc => (fst nc, f (snd nc))) cs) = map fst cs.
Proof. rewrite map_map. reflexivity. Qed.

Lemma fill_median_shape (name : string) (df df' : DataFrame) :
  fill_median name df = Ok df' ->
  columns df' = columns df /\ index df' = index df.
Proof.
  intros H. apply fill_median_inv in H. destruct H as [c [xs [Hl [_ ->]]]].
  split; [|reflexivity]. unfold columns, setitem. simpl.
  exact (columns_update _ _ _ _ Hl).
Qed.

Lemma validate_credit_score_shape (st st' : DataFrame * issues) :
  validate_credit_score st = Ok st' ->
  columns (fst st') = columns (fst st) /\ index (fst st') = index (fst st).
Proof.
  destruct st as [df iss]. unfold validate_credit_score. intros H.
  bind_inv H. bind_inv H. apply getitem_Ok in E.
  destruct (existsb id (invalid_cs_mask a0)); injection H as <-; simpl.
  - split; [|reflexivity]. unfold columns. simpl.
    exact (columns_update _ _ _ _ E).
  - auto.
Qed.

Lemma validate_mileage_shape (st st' : DataFrame * issues) :
  validate_mileage st = Ok st' ->
  columns (fst st') = columns (fst st) /\ index (fst st') = index (fst st).
Proof.
  destruct st as [df iss]. unfold validate_mileage. intros H.
  bind_inv H. bind_inv H. apply getitem_Ok in E.
  destruct (existsb id (invalid_mileage_mask a0)); injection H as <-; simpl.
  - split; [|reflexivity]. unfold columns. simpl.
    exact (columns_update _ _ _ _ E).
  - auto.
Qed.

Lemma replace_codes_shape (n zero one : string) (f : Frame) :
  columns (replace_codes n zero one f) = columns f
  /\ index (replace_codes n zero one f) = index f.
Proof.
  unfold replace_codes. destruct (lookup n (cols f)) eqn:E; [|auto].
  split; [|reflexivity]. unfold columns. simpl.
  exact (columns_update _ _ _ _ E).
Qed.

Lemma validate_category_shape (n : string) (valid : list string)
    (st : Frame * issues) :
  columns (fst (validate_category n valid st)) = columns (fst st)
  /\ index (fst (validate_category n valid st)) = index (fst st).
Proof.
  destruct st as [f iss]. unfold validate_category.
  destruct (lookup n (cols f)) eqn:E; [|auto].
  destruct (existsb id (invalid_category_mask valid l)); [|auto].
  split; [|reflexivity]. unfold columns. simpl.
  exact (columns_update _ _ _ _ E).
Qed.

Lemma validate_shape (raw : DataFrame) (g : Frame) (iss : issues) :
  validate raw = Ok (g, iss) ->
  columns g = columns (named raw) /\ index g = index raw.
Proof.
  intros H. apply validate_Ok in H. destruct H as [_ H]. unfold apply_rules in H.
  bind_inv H. rename a into df1. unfold handle_missing in E.
  bind_inv E. apply fill_median_shape in E0, E. destruct E0 as [C0 I0], E as [C1 I1].
  bind_inv H. rename E into Hcs. apply validate_credit_score_shape in Hcs.
  destruct Hcs as [C2 I2]. simpl fst in C2, I2.
  bind_inv H. rename E into Ham. apply validate_mileage_shape in Ham.
  destruct Ham as [C3 I3].
  cbv zeta in H.
  set (f0 := to_frame (fst a1)) in *.
  set (st1 := (readable_categories f0, snd a1)) in *.
  set (st2 := validate_category "vehicle_ownership" valid_ownership st1) in *.
  assert (Hg : g = fst (validate_category "claim_status" valid_claims st2)).
  { apply (f_equal (fun r => match r with Ok p => fst p | Raise _ => g end)) in H.
    cbv beta iota in H. symmetry. exact H. }
  destruct (validate_category_shape "claim_status" valid_claims st2) as [C4 I4].
  destruct (validate_category_shape "vehicle_ownership" valid_ownership st1) as [C5 I5].
  fold st2 in C5, I5.
  assert (S1 : columns (fst st1) = columns f0 /\ index (fst st1) = index f0).
  { unfold st1, readable_categories. cbn [fst].
    destruct (replace_codes_shape "claim_status" "no claim" "claim"
                (replace_codes "vehicle_ownership" "leased" "owned" f0)) as [C6 I6].
    destruct (replace_codes_shape "vehicle_ownership" "leased" "owned" f0) as [C7 I7].
    rewrite C6, C7, I6, I7. auto. }
  destruct S1 as [C6 I6].
  assert (C8 : columns f0 = columns (fst a1))
    by (unfold f0, columns, to_frame; simpl; apply columns_map).
  assert (C9 : columns (standardized raw) = columns (named raw))
    by (unfold columns, standardized, standardize_text; simpl; apply columns_map).
  rewrite Hg. split.
  - rewrite C4, C5, C6, C8, C3, C2, C1, C0, C9. reflexivity.
  - rewrite I4, I5, I6. unfold f0. simpl. rewrite I3, I2, I1, I0.
    unfold standardized, standardize_text, named, rename_outcome. simpl.
    destruct (has_column "outcome" (standardize_columns raw)); reflexivity.
Qed.

End Shape.

(** X3.  The validation drops no row and no column: when the script
    gets to the removal of duplicates the table has the rows of the raw
    table and the columns of the raw table under their standardized
    names; the cleaned table has these columns and at most these
    rows. *)
Theorem cleaning_keeps_columns
    (raw : Pandas.DataFrame) (f : Cleaning.Frame) (iss : Cleaning.issues) :
  Cleaning.clean raw = Ok (f, iss) ->
  Pandas.columns f = Pandas.columns (Cleaning.named raw)
  /\ (Pandas.len f <= Pandas.len raw)%nat
  /\ exists g, Cleaning.validate raw = Ok (g, iss)
               /\ Pandas.len g = Pandas.len raw
               /\ Pandas.columns g = Pandas.columns (Cleaning.named raw).
Proof.
  intros H. apply clean_inv in H. destruct H as [g [Hv ->]].
  destruct (validate_shape _ _ _ Hv) as [C I].
  assert (L : Pandas.len g = Pandas.len raw) by (unfold Pandas.len; rewrite I; reflexivity).
  split; [|split].
  - rewrite <- C. unfold Pandas.columns, Cleaning.deduplicate, Cleaning.drop_duplicates.
    simpl. apply columns_map.
  - rewrite <- L. unfold Cleaning.deduplicate, Pandas.reset_index, Pandas.len at 1.
    simpl. rewrite length_seq, len_drop_duplicates.
    rewrite <- (keep_mask_length g). apply filter_length_le.
  - exists g. auto.
Qed.

(** The theorem at a table of four columns. *)
Lemma cleaning_keeps_columns_witness :
  exists f iss,
    Cleaning.clean missing_text = Ok (f, iss)
    /\ Pandas.columns f = ["credit_score"; "annual_mileage"; "age"; "vehicle_ownership"].
Proof.
  eexists. eexists.
  assert (H : Cleaning.clean missing_text = Ok _) by (vm_compute; reflexivity).
  split; [exact H|].
  exact (proj1 (cleaning_keeps_columns _ _ _ H)).
Defined.

(** ** When the cleaning script stops *)

Section CleaningErrors.

Import Pandas Cleaning.
Local Open Scope Q_scope.

Lemma lookup_standardized (n : string) (raw : DataFrame) :
  lookup n (cols (standardized raw))
  = option_map clean_text (lookup n (cols (named raw))).
Proof. unfold standardized, standardize_text. simpl. apply lookup_map. Qed.

End CleaningErrors.

(** X4.  The cleaning script stops with [AttributeError] in the loop
    over the text columns when a text column shares its standardized
    name with another column.  On a table whose standardized names are
    distinct it stops with [KeyError] on [credit_score] when the table
    has no such column, with [KeyError] on [annual_mileage] when it has
    numeric scores but no mileage, and with [TypeError] when the scores
    are a text column with at least one row. *)
Theorem cleaning_stops_without_numeric_scores (raw : Pandas.DataFrame) :
  (Cleaning.name_clash (Cleaning.named raw) = true ->
   Cleaning.clean raw = Raise AttributeError)
  /\ (NoDup (Pandas.columns (Cleaning.named raw)) ->
      (Pandas.lookup "credit_score" (Pandas.cols (Cleaning.named raw)) = None ->
       Cleaning.clean raw = Raise (KeyError "credit_score"))
      /\ (forall xs,
            Pandas.lookup "credit_score" (Pandas.cols (Cleaning.named raw))
            = Some (Pandas.NumCol xs) ->
            Pandas.lookup "annual_mileage" (Pandas.cols (Cleaning.named raw)) = None ->
            Cleaning.clean raw = Raise (KeyError "annual_mileage"))
      /\ (forall x xs,
            Pandas.lookup "credit_score" (Pandas.cols (Cleaning.named raw))
            = Some (Pandas.ObjCol (x :: xs)) ->
            Cleaning.clean raw = Raise TypeError)).
Proof.
  split.
  { intros H. unfold Cleaning.clean. rewrite (validate_clash raw H). reflexivity. }
  intros D. pose proof (NoDup_no_clash _ D) as Hclash.
  split; [|split].
  - intros H. unfold Cleaning.clean. rewrite (validate_no_clash raw Hclash).
    unfold Cleaning.apply_rules, Cleaning.handle_missing,
      Cleaning.fill_median, Pandas.getitem.
    rewrite lookup_standardized, H. reflexivity.
  - intros xs Hc Hm.
    unfold Cleaning.clean. rewrite (validate_no_clash raw Hclash).
    unfold Cleaning.apply_rules, Cleaning.handle_missing.
    rewrite (fill_median_numeric "credit_score" _ xs)
      by (rewrite lookup_standardized, Hc; reflexivity).
    cbn [bind]. unfold Cleaning.fill_median, Pandas.getitem.
    rewrite lookup_setitem. simpl String.eqb. cbv iota.
    rewrite lookup_standardized, Hm. reflexivity.
  - intros x xs H. unfold Cleaning.clean. rewrite (validate_no_clash raw Hclash).
    unfold Cleaning.apply_rules, Cleaning.handle_missing,
      Cleaning.fill_median, Pandas.getitem.
    rewrite lookup_standardized, H. reflexivity.
Qed.

(** The theorem at a table with the headers [Age] and [age], at a table
    that has scores but no mileage, and at a table whose scores are
    text. *)
Lemma cleaning_stops_without_numeric_scores_witness :
  Cleaning.clean clashing_names = Raise AttributeError
  /\ Cleaning.clean no_mileage_column = Raise (KeyError "annual_mileage")
  /\ Cleaning.clean text_scores = Raise TypeError.
Proof.
  split; [|split].
  - exact (proj1 (cleaning_stops_without_numeric_scores clashing_names) eq_refl).
  - refine (proj1 (proj2 (proj2 (cleaning_stops_without_numeric_scores
                                   no_mileage_column) _))
              [Some (1 # 2)]%Q eq_refl eq_refl).
    repeat constructor. simpl. tauto.
  - refine (proj2 (proj2 (proj2 (cleaning_stops_without_numeric_scores
                                   text_scores) _))
              (Some "high") [] eq_refl).
    repeat constructor; simpl; intuition discriminate.
Defined.

(** X5.  The cleaning script returns a cleaned table as soon as the raw
    table has, under standardized names that are distinct, a numeric
    [credit_score] and a numeric [annual_mileage] column; no other
    column is needed. *)
Theorem cleaning_returns_with_numeric_scores
    (raw : Pandas.DataFrame) (xs ys : list (option Q)) :
  NoDup (Pandas.columns (Cleaning.named raw)) ->
  Pandas.lookup "credit_score" (Pandas.cols (Cleaning.named raw))
  = Some (Pandas.NumCol xs) ->
  Pandas.lookup "annual_mileage" (Pandas.cols (Cleaning.named raw))
  = Some (Pandas.NumCol ys) ->
  exists f iss, Cleaning.clean raw = Ok (f, iss).
Proof. intros D. apply clean_succeeds, NoDup_no_clash, D. Qed.

(** The theorem at a table with no other column. *)
Lemma cleaning_returns_with_numeric_scores_witness :
  exists f iss, Cleaning.clean no_credit_score = Ok (f, iss).
Proof.
  refine (cleaning_returns_with_numeric_scores no_credit_score
            [None] [Some 12000]%Q _ eq_refl eq_refl).
  repeat constructor; simpl; intuition discriminate.
Defined.

(** ** Sorting and the median *)

Section Median.

Import Pandas.
Local Open Scope Q_scope.

Lemma insert_In (x y : Q) (s : list Q) :
  In y (PyNum.insert x s) <-> y = x \/ In y s.
Proof.
  induction s as [|z r IH]; simpl; [intuition|].
  destruct (Qle_bool x z); simpl; [intuition|].
  rewrite IH. intuition.
Qed.

Lemma sort_In (y : Q) (v : list Q) : In y (PyNum.sort v) <-> In y v.
Proof.
  induction v as [|x r IH]; simpl; [tauto|].
  rewrite insert_In, IH. intuition.
Qed.

Lemma insert_ascending (x : Q) (s : list Q) :
  ascending s -> ascending (PyNum.insert x s).
Proof.
  induction s as [|z r IH]; simpl; [intuition|].
  intros [Hz Hr]. destruct (Qle_bool x z) eqn:E; simpl.
  - apply Qle_bool_iff in E. split; [|auto].
    intros y [<-|Hy]; [exact E | apply Qle_trans with z; auto].
  - assert (Hzx : z <= x).
    { destruct (Qlt_le_dec x z) as [L|L]; [|exact L].
      apply Qlt_le_weak in L. apply Qle_bool_iff in L. congruence. }
    split; [|auto].
    intros y Hy. apply insert_In in Hy. destruct Hy as [->|Hy]; auto.
Qed.

Lemma sort_ascending (v : list Q) : ascending (PyNum.sort v).
Proof.
  induction v as [|x r IH]; simpl; [exact I | apply insert_ascending, IH].
Qed.

Lemma Some_eq {A} (a b : A) : Some a = Some b -> a = b.
Proof. intros H. congruence. Qed.

Lemma median_of_In (v : list Q) (m : Q) :
  median_of v = Some m ->
  exists x y, In x v /\ In y v /\ (m == x \/ m == (x + y) / 2)
              /\ x <= y.
Proof.
  unfold median_of. set (s := PyNum.sort v).
  assert (As : ascending s) by apply sort_ascending.
  remember (length s) as n eqn:Hn.
  destruct n as [|n]; [discriminate|].
  assert (Hlt : forall i, (i < S n)%nat -> In (nth i s 0) v).
  { intros i Hi. apply sort_In. fold s. apply nth_In. lia. }
  destruct (Nat.odd (S n)).
  - intros H. apply Some_eq in H. subst m.
    exists (nth (S n / 2) s 0), (nth (S n / 2) s 0).
    assert (S n / 2 < S n)%nat by (apply Nat.div_lt; lia).
    split; [auto|split; [auto|split]].
    + left. apply Qred_correct.
    + apply Qle_refl.
  - intros H. apply Some_eq in H. subst m.
    assert (H2 : (S n / 2 < S n)%nat) by (apply Nat.div_lt; lia).
    assert (H1 : (S n / 2 - 1 < S n)%nat) by lia.
    exists (nth (S n / 2 - 1) s 0), (nth (S n / 2) s 0).
    split; [auto|split; [auto|split]].
    + right. apply Qred_correct.
    + clear -As H2 Hn.
      destruct (Nat.eq_dec (S n / 2) 0) as [E|E].
      * rewrite E. simpl. apply Qle_refl.
      * replace (S n / 2)%nat with (S (S n / 2 - 1)) at 2 by lia.
        assert (L : (S (S n / 2 - 1) < length s)%nat) by lia.
        generalize dependent (S n / 2 - 1)%nat. clear -As.
        induction s as [|x r IH]; intros i L; simpl in L; [lia|].
        destruct As as [Hx Hr]. destruct i as [|i].
        -- simpl. apply Hx. apply nth_In. lia.
        -- change (nth (S i) (x :: r) 0) with (nth i r 0).
           change (nth (S (S i)) (x :: r) 0) with (nth (S i) r 0).
           apply IH; [exact Hr | lia].
Qed.

(** The median lies between any two bounds of the numbers. *)
Lemma median_of_between (v : list Q) (a b m : Q) :
  (forall q, In q v -> a <= q <= b) ->
  median_of v = Some m -> a <= m <= b.
Proof.
  intros Hv Hm. apply median_of_In in Hm.
  destruct Hm as [x [y [Hx [Hy [[E|E] _]]]]];
    pose proof (Hv x Hx); pose proof (Hv y Hy); rewrite E.
  - assumption.
  - split.
    + apply Qle_shift_div_l; [reflexivity | lra].
    + apply Qle_shift_div_r; [reflexivity | lra].
Qed.

Lemma dropna_In {A} (xs : list (option A)) (a : A) :
  In a (dropna xs) <-> In (Some a) xs.
Proof.
  unfold dropna. rewrite in_flat_map. split.
  - intros [[b|] [Hin H]]; simpl in H; [|tauto].
    destruct H as [<-|[]]. exact Hin.
  - intros H. exists (Some a). split; [exact H | left; reflexivity].
Qed.

Lemma median_between (xs : list (option Q)) (a b m : Q) :
  (forall q, In (Some q) xs -> a <= q <= b) ->
  median xs = Some m -> a <= m <= b.
Proof.
  intros H. apply median_of_between. intros q Hq. apply H, dropna_In, Hq.
Qed.

End Median.

Section MileageMajority.

Import Pandas Cleaning.
Local Open Scope Q_scope.

Lemma insert_count (p : Q -> bool) (x : Q) (s : list Q) :
  length (filter p (PyNum.insert x s)) = length (filter p (x :: s)).
Proof.
  induction s as [|z r IH]; simpl; [reflexivity|].
  destruct (Qle_bool x z); simpl; [reflexivity|].
  destruct (p z) eqn:Ez; simpl; rewrite IH; simpl;
    destruct (p x); simpl; reflexivity.
Qed.

Lemma sort_count (p : Q -> bool) (v : list Q) :
  length (filter p (PyNum.sort v)) = length (filter p v).
Proof.
  induction v as [|x r IH]; simpl; [reflexivity|].
  rewrite insert_count. simpl. destruct (p x); simpl; rewrite IH; reflexivity.
Qed.

Lemma nonpositive_comp (x y : Q) : y <= x -> nonpositive x = true -> nonpositive y = true.
Proof.
  unfold nonpositive. intros L H. apply Qle_bool_iff in H. apply Qle_bool_iff. lra.
Qed.

(** In an ascending list the numbers that are not positive come first. *)
Lemma ascending_positive_tail (s : list Q) (i : nat) :
  ascending s ->
  (length (filter nonpositive s) <= i)%nat -> (i < length s)%nat ->
  0 < nth i s 0.
Proof.
  revert i; induction s as [|x r IH]; intros i As Hz Hi; simpl in Hi; [lia|].
  destruct As as [Hx Hr]. simpl in Hz.
  destruct (nonpositive x) eqn:E; simpl in Hz.
  - destruct i as [|i]; [lia|]. simpl. apply IH; [exact Hr | lia | lia].
  - assert (Px : 0 < x).
    { unfold nonpositive in E. destruct (Qlt_le_dec 0 x) as [L|L]; [exact L|].
      apply Qle_bool_iff in L. congruence. }
    destruct i as [|i]; [exact Px|]. simpl.
    apply Qlt_le_trans with x; [exact Px|]. apply Hx, nth_In. lia.
Qed.

Lemma median_of_positive (v : list Q) :
  (2 * length (filter nonpositive v) < length v)%nat ->
  exists m, median_of v = Some m /\ 0 < m.
Proof.
  intros H. unfold median_of. set (s := PyNum.sort v).
  assert (As : ascending s) by apply sort_ascending.
  assert (Hz : length (filter nonpositive s) = length (filter nonpositive v))
    by apply sort_count.
  assert (Hl : length s = length v) by apply sort_length.
  rewrite <- Hz, <- Hl in H. clear Hz Hl.
  remember (length s) as n eqn:Hn.
  destruct n as [|n]; [lia|].
  remember (S n / 2)%nat as k eqn:Hk.
  assert (Kn : (k < S n)%nat) by (subst k; apply Nat.div_lt; lia).
  assert (K2 : S n = (2 * k + S n mod 2)%nat) by (subst k; apply Nat.div_mod_eq).
  assert (K3 : (S n mod 2 < 2)%nat) by (apply Nat.mod_upper_bound; lia).
  destruct (Nat.odd (S n)) eqn:Eo.
  - eexists. split; [reflexivity|]. rewrite Qred_correct.
    apply ascending_positive_tail; [exact As | | lia].
    lia.
  - assert (M0 : (S n mod 2 = 0)%nat).
    { rewrite <- Nat.negb_even in Eo. apply negb_false_iff in Eo.
      apply Nat.even_spec in Eo. destruct Eo as [j Ej]. rewrite Ej.
      rewrite Nat.mul_comm. apply Nat.Div0.mod_mul. }
    eexists. split; [reflexivity|]. rewrite Qred_correct.
    assert (P1 : 0 < nth (k - 1) s 0)
      by (apply ascending_positive_tail; [exact As | lia | lia]).
    assert (P2 : 0 < nth k s 0)
      by (apply ascending_positive_tail; [exact As | lia | lia]).
    apply Qlt_shift_div_l; [reflexivity | lra].
Qed.

Lemma invalid_count_dropna (xs : list (option Q)) :
  count_true (invalid_mileage_mask xs) = length (filter nonpositive (dropna xs)).
Proof.
  unfold count_true, invalid_mileage_mask.
  induction xs as [|[q|] r IH]; simpl; [reflexivity| |exact IH].
  unfold id at 1. fold (nonpositive q). destruct (nonpositive q); simpl; rewrite IH; reflexivity.
Qed.

Lemma fillna_positive_invalid (m : Q) (xs : list (option Q)) :
  0 < m ->
  count_true (invalid_mileage_mask (fillna (Some m) xs))
  = count_true (invalid_mileage_mask xs)
  /\ (length (dropna xs) <= length (dropna (fillna (Some m) xs)))%nat.
Proof.
  intros Pm.
  assert (E : Qle_bool m 0 = false).
  { destruct (Qle_bool m 0) eqn:E; [|reflexivity].
    apply Qle_bool_iff in E. lra. }
  rewrite !invalid_count_dropna.
  induction xs as [|[q|] r [IH1 IH2]]; [simpl; auto| |].
  - change (dropna (fillna (Some m) (Some q :: r)))
      with (q :: dropna (fillna (Some m) r)).
    change (dropna (Some q :: r)) with (q :: dropna r).
    cbn [filter length]. destruct (nonpositive q); cbn [length]; split; lia.
  - change (dropna (fillna (Some m) (None :: r)))
      with (m :: dropna (fillna (Some m) r)).
    change (dropna (None :: r)) with (dropna r).
    cbn [filter length]. unfold nonpositive at 1. rewrite E. split; lia.
Qed.

(** When fewer than half of the mileages present are not positive, the
    column is complete and positive after the fill and the check. *)
Lemma mileage_checked_positive (xs : list (option Q)) :
  (2 * count_true (invalid_mileage_mask xs) < length (dropna xs))%nat ->
  forall x, In x (mileage_checked (filled xs)) -> exists q, x = Some q /\ 0 < q.
Proof.
  intros H.
  assert (H' : (2 * length (filter nonpositive (dropna xs)) < length (dropna xs))%nat)
    by (rewrite <- invalid_count_dropna; exact H).
  destruct (median_of_positive _ H') as [m [Em Pm]].
  unfold filled. unfold median at 1. rewrite Em.
  set (w := fillna (Some m) xs).
  destruct (fillna_positive_invalid m xs Pm) as [F1 F2]. fold w in F1, F2.
  assert (Hw : (2 * length (filter nonpositive (dropna w)) < length (dropna w))%nat)
    by (rewrite <- invalid_count_dropna; lia).
  destruct (median_of_positive _ Hw) as [m' [Em' Pm']].
  unfold mileage_checked. unfold median. rewrite Em'.
  intros x Hx. unfold invalid_mileage_mask in Hx. apply assign_map_In in Hx.
  destruct Hx as [->|[Hin Hf]]; [eauto|].
  destruct x as [q|].
  - exists q. split; [reflexivity|].
    destruct (Qlt_le_dec 0 q) as [L|L]; [exact L|].
    apply Qle_bool_iff in L. congruence.
  - exfalso. exact (fillna_complete m xs None Hin eq_refl).
Qed.

End MileageMajority.

(** ** The issues reported *)

Section Issues.

Import Pandas Cleaning.
Local Open Scope Q_scope.

Lemma validate_credit_score_issues (df df' : DataFrame) (iss iss' : issues) :
  validate_credit_score (df, iss) = Ok (df', iss') ->
  exists c xs, lookup "credit_score" (cols df) = Some c /\ numeric c = Ok xs
               /\ iss' = iss ++ issue "credit_score" (invalid_cs_mask xs).
Proof.
  unfold validate_credit_score, issue. intros H.
  bind_inv H. bind_inv H. apply getitem_Ok in E. exists a, a0.
  split; [exact E|split; [exact E0|]].
  destruct (existsb id (invalid_cs_mask a0)); injection H as _ <-;
    [reflexivity | rewrite app_nil_r; reflexivity].
Qed.

Lemma validate_mileage_issues (df df' : DataFrame) (iss iss' : issues) :
  validate_mileage (df, iss) = Ok (df', iss') ->
  exists c xs, lookup "annual_mileage" (cols df) = Some c /\ numeric c = Ok xs
               /\ iss' = iss ++ issue "annual_mileage" (invalid_mileage_mask xs).
Proof.
  unfold validate_mileage, issue. intros H.
  bind_inv H. bind_inv H. apply getitem_Ok in E. exists a, a0.
  split; [exact E|split; [exact E0|]].
  destruct (existsb id (invalid_mileage_mask a0)); injection H as _ <-;
    [reflexivity | rewrite app_nil_r; reflexivity].
Qed.

Lemma validate_category_issues (n : string) (valid : list string)
    (st : Frame * issues) :
  snd (validate_category n valid st)
  = snd st ++ issue n (match lookup n (cols (fst st)) with
                       | Some c => invalid_category_mask valid c
                       | None => []
                       end).
Proof.
  destruct st as [f iss]. unfold validate_category, issue. simpl fst. simpl snd.
  destruct (lookup n (cols f)) as [c|]; simpl; [|rewrite app_nil_r; reflexivity].
  destruct (existsb id (invalid_category_mask valid c)); simpl;
    [reflexivity | rewrite app_nil_r; reflexivity].
Qed.

(** The issues of a run, rule by rule. *)
Lemma validate_issues (raw : DataFrame) (g : Frame) (iss : issues) :
  validate raw = Ok (g, iss) ->
  exists c1 xs1 c2 xs2,
    lookup "credit_score" (cols (standardized raw)) = Some c1
    /\ numeric c1 = Ok xs1
    /\ lookup "annual_mileage" (cols (standardized raw)) = Some c2
    /\ numeric c2 = Ok xs2
    /\ iss = issue "credit_score" (invalid_cs_mask (filled xs1))
             ++ issue "annual_mileage" (invalid_mileage_mask (filled xs2))
             ++ issue "vehicle_ownership"
                  (category_mask "vehicle_ownership" "leased" "owned"
                     valid_ownership (standardized raw))
             ++ issue "claim_status"
                  (category_mask "claim_status" "no claim" "claim"
                     valid_claims (standardized raw)).
Proof.
  intros Hv. pose proof Hv as H. apply validate_Ok in H. destruct H as [_ H].
  unfold apply_rules in H.
  bind_inv H. rename a into df1, E into Hm.
  bind_inv H. destruct a as [df2 iss2]. rename E into Hcs.
  bind_inv H. destruct a as [df3 iss3]. rename E into Ham.
  unfold handle_missing in Hm. bind_inv Hm. rename a into dfa.
  apply fill_median_inv in E. destruct E as [c1 [xs1 [Hc1 [Hx1 ->]]]].
  apply fill_median_inv in Hm. destruct Hm as [c2 [xs2 [Hc2 [Hx2 ->]]]].
  rewrite lookup_setitem in Hc2. simpl String.eqb in Hc2. cbv iota in Hc2.
  exists c1, xs1, c2, xs2.
  split; [exact Hc1|split; [exact Hx1|split; [exact Hc2|split; [exact Hx2|]]]].
  pose proof (validate_credit_score_inv _ _ _ _ Hcs) as L2.
  pose proof (validate_mileage_inv _ _ _ _ Ham) as L3.
  apply validate_credit_score_issues in Hcs.
  destruct Hcs as [c [xs [Hc [Hx ->]]]].
  rewrite !lookup_setitem in Hc. simpl String.eqb in Hc. cbv iota in Hc.
  injection Hc as <-. simpl in Hx. injection Hx as <-.
  apply validate_mileage_issues in Ham.
  destruct Ham as [c [xs [Hc [Hx ->]]]].
  rewrite L2 in Hc. simpl String.eqb in Hc. cbv iota in Hc.
  rewrite !lookup_setitem in Hc. simpl String.eqb in Hc. cbv iota in Hc.
  injection Hc as <-. simpl in Hx. injection Hx as <-.
  cbv zeta in H. simpl fst in H. simpl snd in H.
  apply (f_equal (fun r => match r with Ok p => snd p | Raise _ => iss end)) in H.
  cbv beta iota in H. change (snd (g, iss)) with iss in H. rewrite <- H.
  assert (Other : forall n, n <> "credit_score" -> n <> "annual_mileage" ->
                            lookup n (cols df3) = lookup n (cols (standardized raw))).
  { intros n N1 N2. apply String.eqb_neq in N1, N2.
    rewrite L3, N2, L2, N1, !lookup_setitem, N1, N2. reflexivity. }
  set (f0 := readable_categories (to_frame df3)).
  assert (Hvo : lookup "vehicle_ownership" (cols f0)
                = option_map (fun c => map (replace_code "leased" "owned") (cells_of c))
                    (lookup "vehicle_ownership" (cols (standardized raw)))).
  { unfold f0, readable_categories. rewrite !lookup_replace_codes. simpl String.eqb.
    cbv iota. unfold to_frame. cbn [cols]. rewrite lookup_map.
    rewrite Other by discriminate.
    destruct (lookup "vehicle_ownership" (cols (standardized raw))); reflexivity. }
  assert (Hcl : lookup "claim_status" (cols f0)
                = option_map (fun c => map (replace_code "no claim" "claim") (cells_of c))
                    (lookup "claim_status" (cols (standardized raw)))).
  { unfold f0, readable_categories. rewrite !lookup_replace_codes. simpl String.eqb.
    cbv iota. unfold to_frame. cbn [cols]. rewrite lookup_map.
    rewrite Other by discriminate.
    destruct (lookup "claim_status" (cols (standardized raw))); reflexivity. }
  rewrite validate_category_issues, lookup_validate_category.
  simpl String.eqb. cbv iota.
  rewrite validate_category_issues. simpl fst. simpl snd.
  rewrite Hcl, Hvo. unfold category_mask.
  destruct (lookup "vehicle_ownership" (cols (standardized raw)));
    destruct (lookup "claim_status" (cols (standardized raw)));
    simpl option_map; cbv iota; rewrite <- !app_assoc; reflexivity.
Qed.

End Issues.

Section IssueFacts.

Import Pandas Cleaning.
Local Open Scope Q_scope.

Lemma issue_In (n n' : string) (k : nat) (m : list bool) :
  In (n, k) (issue n' m) -> n = n' /\ (1 <= k)%nat.
Proof.
  unfold issue. destruct (existsb id m) eqn:E; [|intros []].
  intros [H|[]]. injection H as <- <-. split; [reflexivity|].
  unfold count_true. apply existsb_exists in E. destruct E as [b [Hb Eb]].
  unfold id in Eb. subst b.
  assert (Hin : In true (filter id m)) by (apply filter_In; auto).
  destruct (filter id m); [destruct Hin | simpl; lia].
Qed.

Lemma issue_names (n : string) (m : list bool) :
  map fst (issue n m) = [] \/ map fst (issue n m) = [n].
Proof. unfold issue. destruct (existsb id m); simpl; auto. Qed.

Lemma in_range_no_invalid (xs : list (option Q)) :
  in_range xs -> existsb id (invalid_cs_mask xs) = false.
Proof.
  unfold invalid_cs_mask. induction xs as [|[q|] r IH]; intros H; simpl;
    [reflexivity| |].
  - assert (Hq : 0 <= q <= 1) by (apply H; left; reflexivity).
    assert (E0 : Qlt_bool q 0 = false).
    { unfold Qlt_bool. apply negb_false_iff, Qle_bool_iff. tauto. }
    assert (E1 : Qlt_bool 1 q = false).
    { unfold Qlt_bool. apply negb_false_iff, Qle_bool_iff. tauto. }
    unfold id at 1. rewrite E0, E1. simpl. apply IH.
    intros p Hp. apply H. right. exact Hp.
  - apply IH. intros p Hp. apply H. right. exact Hp.
Qed.

Lemma filled_in_range (xs : list (option Q)) : in_range xs -> in_range (filled xs).
Proof.
  intros H q Hq. unfold filled in Hq. apply fillna_In in Hq.
  destruct Hq as [Hq|Hm]; [exact (H q Hq)|].
  exact (median_between xs 0 1 q H Hm).
Qed.

End IssueFacts.

(** X6.  When fewer than half of the mileages present in the raw table
    are not positive, the cleaned [annual_mileage] column is complete
    and positive: the median written over the offending values is then
    itself positive. *)
Theorem cleaned_mileage_positive
    (raw : Pandas.DataFrame) (xs : list (option Q)) (col : list Cleaning.cell) :
  Pandas.lookup "annual_mileage" (Pandas.cols (Cleaning.named raw))
  = Some (Pandas.NumCol xs) ->
  (2 * Cleaning.count_true (Cleaning.invalid_mileage_mask xs)
   < length (Pandas.dropna xs))%nat ->
  Cleaning.cleaned_column "annual_mileage" raw = Ok col ->
  forall c, In c col -> exists q, c = Cleaning.Num q /\ (0 < q)%Q.
Proof.
  intros Hn Hmaj H c Hin. apply cleaned_column_inv in H.
  destruct H as [g [iss [c0 [Hv [Hl ->]]]]].
  apply validate_inv in Hv.
  destruct Hv as [df3 [Hg [_ [[c2 [xs2 [Hc2 [Hx2 H3]]]] _]]]].
  rewrite lookup_standardized, Hn in Hc2. simpl in Hc2. injection Hc2 as <-.
  simpl in Hx2. injection Hx2 as <-.
  rewrite Hg, H3 in Hl. simpl in Hl. injection Hl as <-.
  apply select_In in Hin. apply in_map_iff in Hin. destruct Hin as [x [<- Hx]].
  destruct (mileage_checked_positive xs Hmaj x Hx) as [q [-> Pq]]. eauto.
Qed.

(** The theorem at a table with one mileage of three that is not
    positive. *)
Lemma cleaned_mileage_positive_witness :
  Cleaning.cleaned_column "annual_mileage" scores_in_range
  = Ok [Cleaning.Num 12000; Cleaning.Num 9000; Cleaning.Num 9000]%Q
  /\ exists q, Cleaning.Num 9000 = Cleaning.Num q /\ (0 < q)%Q.
Proof.
  split; [vm_compute; reflexivity|].
  refine (cleaned_mileage_positive scores_in_range
            [Some 12000; Some (-1); Some 9000]%Q _ eq_refl _ eq_refl
            (Cleaning.Num 9000) _).
  - simpl. lia.
  - right. left. reflexivity.
Defined.

(** X7.  When every score present in the raw table lies in [0,1], the
    validation changes none of them, fills the missing ones with a
    value of [0,1], and reports no issue for [credit_score]. *)
Theorem scores_in_range_untouched
    (raw : Pandas.DataFrame) (xs : list (option Q))
    (g : Cleaning.Frame) (iss : Cleaning.issues) :
  Pandas.lookup "credit_score" (Pandas.cols (Cleaning.named raw))
  = Some (Pandas.NumCol xs) ->
  in_range xs ->
  Cleaning.validate raw = Ok (g, iss) ->
  Pandas.lookup "credit_score" (Pandas.cols g)
  = Some (Cleaning.cells_of (Pandas.NumCol (filled xs)))
  /\ (forall i q, nth_error xs i = Some (Some q) ->
                  nth_error (filled xs) i = Some (Some q))
  /\ in_range (filled xs)
  /\ (forall k, ~ In ("credit_score", k) iss).
Proof.
  intros Hn Hr Hv.
  pose proof (filled_in_range xs Hr) as Hf.
  pose proof (in_range_no_invalid _ Hf) as Hno.
  split; [|split; [|split]].
  - apply validate_inv in Hv.
    destruct Hv as [df3 [Hg [[c1 [xs1 [Hc1 [Hx1 H3]]]] _]]].
    rewrite lookup_standardized, Hn in Hc1. simpl in Hc1. injection Hc1 as <-.
    simpl in Hx1. injection Hx1 as <-.
    rewrite Hg, H3. simpl. rewrite (clip_valid _ Hno). reflexivity.
  - intros i q Hi. unfold filled, Pandas.fillna. rewrite nth_error_map, Hi.
    reflexivity.
  - exact Hf.
  - intros k Hin. apply validate_issues in Hv.
    destruct Hv as [c1 [xs1 [c2 [xs2 [Hc1 [Hx1 [_ [_ ->]]]]]]]].
    rewrite lookup_standardized, Hn in Hc1. simpl in Hc1. injection Hc1 as <-.
    simpl in Hx1. injection Hx1 as <-.
    unfold issue at 1 in Hin. rewrite Hno in Hin. simpl in Hin.
    repeat (apply in_app_or in Hin; destruct Hin as [Hin|Hin]);
      apply issue_In in Hin; destruct Hin as [E _]; discriminate.
Qed.

(** The theorem at a table with the scores 0.2 and 0.8 and a missing
    one: the median 0.5 fills it and only the mileage is reported. *)
Lemma scores_in_range_untouched_witness :
  Cleaning.validate scores_in_range
  = Ok (Pandas.mkTable [0; 1; 2]%nat
          [("credit_score",
            [Cleaning.Num (1 # 5); Cleaning.Num (1 # 2); Cleaning.Num (4 # 5)]%Q);
           ("annual_mileage",
            [Cleaning.Num 12000; Cleaning.Num 9000; Cleaning.Num 9000]%Q)],
        [("annual_mileage", 1%nat)])
  /\ forall k, ~ In ("credit_score", k) [("annual_mileage", 1%nat)].
Proof.
  split; [vm_compute; reflexivity|].
  refine (proj2 (proj2 (proj2
           (scores_in_range_untouched scores_in_range
              [Some (1 # 5); None; Some (4 # 5)]%Q _ _ eq_refl _ eq_refl)))).
  intros q [H|[H|[H|[]]]]; try discriminate;
    injection H as <-; split; discriminate.
Defined.

(** X8.  The issues reported by a run name each rule at most once, in
    the order [credit_score], [annual_mileage], [vehicle_ownership],
    [claim_status], and only with a positive number of offending
    cells: a rule that no cell offends is not in the report. *)
Theorem issues_are_positive_counts
    (raw : Pandas.DataFrame) (g : Cleaning.Frame) (iss : Cleaning.issues) :
  Cleaning.validate raw = Ok (g, iss) ->
  (forall n k, In (n, k) iss ->
     (1 <= k)%nat
     /\ In n ["credit_score"; "annual_mileage"; "vehicle_ownership"; "claim_status"])
  /\ NoDup (map fst iss)
  /\ exists a b c d,
       map fst iss = a ++ b ++ c ++ d
       /\ (a = [] \/ a = ["credit_score"]) /\ (b = [] \/ b = ["annual_mileage"])
       /\ (c = [] \/ c = ["vehicle_ownership"]) /\ (d = [] \/ d = ["claim_status"]).
Proof.
  intros Hv. apply validate_issues in Hv.
  destruct Hv as [c1 [xs1 [c2 [xs2 [_ [_ [_ [_ ->]]]]]]]].
  match goal with
  | |- context [issue "credit_score" ?m1 ++ issue "annual_mileage" ?m2
                ++ issue "vehicle_ownership" ?m3 ++ issue "claim_status" ?m4] =>
      set (i1 := issue "credit_score" m1); set (i2 := issue "annual_mileage" m2);
      set (i3 := issue "vehicle_ownership" m3); set (i4 := issue "claim_status" m4);
      pose proof (issue_names "credit_score" m1) as N1;
      pose proof (issue_names "annual_mileage" m2) as N2;
      pose proof (issue_names "vehicle_ownership" m3) as N3;
      pose proof (issue_names "claim_status" m4) as N4;
      fold i1 in N1; fold i2 in N2; fold i3 in N3; fold i4 in N4
  end.
  split; [|split].
  - intros n k Hin.
    repeat (apply in_app_or in Hin; destruct Hin as [Hin|Hin]);
      apply issue_In in Hin; destruct Hin as [-> Hk]; split; try exact Hk;
      simpl; auto.
  - rewrite !map_app.
    destruct N1 as [-> | ->], N2 as [-> | ->], N3 as [-> | ->], N4 as [-> | ->];
      simpl; repeat constructor; simpl; intuition discriminate.
  - exists (map fst i1), (map fst i2), (map fst i3), (map fst i4).
    rewrite !map_app. auto.
Qed.

(** The theorem at the table above: one issue, for the mileage. *)
Lemma issues_are_positive_counts_witness :
  NoDup (map fst [("annual_mileage", 1%nat)]).
Proof.
  assert (H : Cleaning.validate scores_in_range
              = Ok (Pandas.mkTable [0; 1; 2]%nat
                      [("credit_score",
                        [Cleaning.Num (1 # 5); Cleaning.Num (1 # 2); Cleaning.Num (4 # 5)]%Q);
                       ("annual_mileage",
                        [Cleaning.Num 12000; Cleaning.Num 9000; Cleaning.Num 9000]%Q)],
                    [("annual_mileage", 1%nat)]))
    by (vm_compute; reflexivity).
  exact (proj1 (proj2 (issues_are_positive_counts scores_in_range _ _ H))).
Defined.

(** ** Categories *)

Section Categories.

Import Pandas Cleaning.
Local Open Scope Q_scope.

Lemma assign_map {A} (f : A -> bool) (v : A) (xs : list A) :
  assign (map f xs) v xs = map (fun x => if f x then v else x) xs.
Proof. induction xs as [|x r IH]; simpl; [reflexivity | rewrite IH; reflexivity]. Qed.

Lemma checked_codes (zero one : string) (valid : list string)
    (xs : list (option Q)) :
  PyStr.mem zero valid = true -> PyStr.mem one valid = true ->
  category_checked valid (map (replace_code zero one) (cells_of (NumCol xs)))
  = map (code_label zero one) xs.
Proof.
  intros Hz Ho. unfold category_checked, invalid_category_mask.
  rewrite assign_map. simpl cells_of. rewrite !map_map. apply map_ext.
  intros [q|]; simpl; [|reflexivity].
  destruct (Qeq_bool q 0); [rewrite Hz; reflexivity|].
  destruct (Qeq_bool q 1); [rewrite Ho; reflexivity | reflexivity].
Qed.

Lemma checked_text (zero one : string) (valid : list string)
    (xs : list (option string)) :
  category_checked valid
    (map (replace_code zero one) (cells_of (clean_text (ObjCol xs))))
  = map (text_label valid) xs.
Proof.
  unfold category_checked, invalid_category_mask.
  rewrite assign_map, cells_of_clean_text, !map_map. apply map_ext.
  intros x. unfold text_label. simpl.
  destruct (PyStr.mem (standard_text x) valid); reflexivity.
Qed.

End Categories.

(** X9.  Before duplicates are removed, a cell of [vehicle_ownership]
    or [claim_status] is, in a numeric column, the label of its code
    (0: leased or no claim, 1: owned or claim) and missing for any other
    number; in a column of ASCII text it is the text trimmed and in
    lower case when that is one of the two labels, and missing
    otherwise. *)
Theorem category_cells
    (raw : Pandas.DataFrame) (g : Cleaning.Frame) (iss : Cleaning.issues) :
  Cleaning.validate raw = Ok (g, iss) ->
  (forall xs,
     Pandas.lookup "vehicle_ownership" (Pandas.cols (Cleaning.named raw))
     = Some (Pandas.NumCol xs) ->
     Pandas.lookup "vehicle_ownership" (Pandas.cols g)
     = Some (map (code_label "leased" "owned") xs))
  /\ (forall xs,
        Pandas.lookup "claim_status" (Pandas.cols (Cleaning.named raw))
        = Some (Pandas.NumCol xs) ->
        Pandas.lookup "claim_status" (Pandas.cols g)
        = Some (map (code_label "no claim" "claim") xs))
  /\ (forall xs,
        Pandas.lookup "vehicle_ownership" (Pandas.cols (Cleaning.named raw))
        = Some (Pandas.ObjCol xs) ->
        ascii_cells xs ->
        Pandas.lookup "vehicle_ownership" (Pandas.cols g)
        = Some (map (text_label Cleaning.valid_ownership) xs))
  /\ (forall xs,
        Pandas.lookup "claim_status" (Pandas.cols (Cleaning.named raw))
        = Some (Pandas.ObjCol xs) ->
        ascii_cells xs ->
        Pandas.lookup "claim_status" (Pandas.cols g)
        = Some (map (text_label Cleaning.valid_claims) xs)).
Proof.
  intros Hv. apply validate_inv in Hv.
  destruct Hv as [df3 [Hg [_ [_ Hother]]]].
  assert (Hvo : Pandas.lookup "vehicle_ownership" (Pandas.cols df3)
                = option_map Cleaning.clean_text
                    (Pandas.lookup "vehicle_ownership" (Pandas.cols (Cleaning.named raw))))
    by (rewrite Hother by discriminate; apply lookup_standardized).
  assert (Hcl : Pandas.lookup "claim_status" (Pandas.cols df3)
                = option_map Cleaning.clean_text
                    (Pandas.lookup "claim_status" (Pandas.cols (Cleaning.named raw))))
    by (rewrite Hother by discriminate; apply lookup_standardized).
  split; [|split; [|split]]; intros xs Hn; rewrite Hg; simpl String.eqb; cbv iota.
  - rewrite Hvo, Hn. simpl option_map. f_equal.
    apply (checked_codes "leased" "owned"); reflexivity.
  - rewrite Hcl, Hn. simpl option_map. f_equal.
    apply (checked_codes "no claim" "claim"); reflexivity.
  - intros _. rewrite Hvo, Hn. cbn [option_map]. f_equal. apply checked_text.
  - intros _. rewrite Hcl, Hn. cbn [option_map]. f_equal. apply checked_text.
Qed.

(** The theorem at a table with the codes 1, 0, 2 and a missing one,
    and with the texts Claim, NO CLAIM, yes and a missing one. *)
Lemma category_cells_witness :
  exists g iss,
    Cleaning.validate coded_ownership = Ok (g, iss)
    /\ Pandas.lookup "vehicle_ownership" (Pandas.cols g)
       = Some [Cleaning.Str "owned"; Cleaning.Str "leased"; Cleaning.NaN; Cleaning.NaN]
    /\ Pandas.lookup "claim_status" (Pandas.cols g)
       = Some [Cleaning.Str "claim"; Cleaning.Str "no claim"; Cleaning.NaN; Cleaning.NaN].
Proof.
  eexists. eexists.
  assert (H : Cleaning.validate coded_ownership = Ok _) by (vm_compute; reflexivity).
  split; [exact H|]. split.
  - exact (proj1 (category_cells _ _ _ H) [Some 1; Some 0; Some 2; None]%Q eq_refl).
  - refine (proj2 (proj2 (proj2 (category_cells _ _ _ H)))
              [Some " Claim"; Some "NO CLAIM"; Some "yes"; None] eq_refl _).
    intros s [E|[E|[E|[E|[]]]]]; try discriminate; injection E as <-; reflexivity.
Defined.

(** ** Duplicates *)

Section Duplicates.

Import Pandas Cleaning.
Local Open Scope Q_scope.

Lemma cell_eqb_refl (c : cell) : cell_eqb c c = true.
Proof.
  destruct c; simpl; [reflexivity | apply Qeq_bool_refl | apply String.eqb_refl].
Qed.

Lemma cell_eqb_trans (a b c : cell) :
  cell_eqb a b = true -> cell_eqb b c = true -> cell_eqb a c = true.
Proof.
  destruct a, b, c; simpl; try discriminate; try reflexivity.
  - apply Qeq_bool_trans.
  - rewrite !String.eqb_eq. congruence.
Qed.

Lemma row_eqb_refl (r : list cell) : row_eqb r r = true.
Proof.
  induction r as [|c r IH]; simpl; [reflexivity|].
  rewrite cell_eqb_refl, IH. reflexivity.
Qed.

Lemma row_eqb_trans (a b c : list cell) :
  row_eqb a b = true -> row_eqb b c = true -> row_eqb a c = true.
Proof.
  revert b c; induction a as [|x a IH]; intros [|y b] [|z c]; simpl;
    try discriminate; try reflexivity.
  rewrite !andb_true_iff. intros [H1 H2] [H3 H4]. split.
  - exact (cell_eqb_trans _ _ _ H1 H3).
  - exact (IH _ _ H2 H4).
Qed.

Lemma mask_split (m : list bool) :
  (length (filter id (map negb m)) + length (filter id m) = length m)%nat.
Proof.
  induction m as [|b m IH]; simpl; [reflexivity|].
  destruct b; simpl; lia.
Qed.

End Duplicates.

Section Covering.

Import Pandas.
Context {A : Type}.
Variable eqb : A -> A -> bool.
Hypothesis eqb_refl : forall x, eqb x x = true.
Hypothesis eqb_trans :
  forall x y z, eqb x y = true -> eqb y z = true -> eqb x z = true.

(** Every element is equal to one that is kept or to one seen. *)
Lemma kept_covers (xs seen : list A) (x : A) :
  In x xs ->
  (exists y, In y (kept eqb seen xs) /\ eqb x y = true)
  \/ existsb (eqb x) seen = true.
Proof.
  unfold kept. revert seen; induction xs as [|h r IH]; intros seen; simpl; [tauto|].
  intros [<-|Hin].
  - destruct (existsb (eqb h) seen) eqn:E; simpl; [right; reflexivity|].
    left. exists h. split; [left; reflexivity | apply eqb_refl].
  - destruct (IH (h :: seen) Hin) as [[y [Hy Ey]]|Hs].
    + left. exists y. split; [|exact Ey].
      destruct (existsb (eqb h) seen); simpl; auto.
    + simpl in Hs. apply orb_true_iff in Hs. destruct Hs as [Hh|Hs]; [|right; exact Hs].
      destruct (existsb (eqb h) seen) eqn:E; simpl.
      * right. apply existsb_exists in E. destruct E as [s [Hs Es]].
        apply existsb_exists. exists s. split; [exact Hs|].
        exact (eqb_trans _ _ _ Hh Es).
      * left. exists h. split; [left; reflexivity | exact Hh].
Qed.

Lemma unique_covers (xs : list A) (x : A) :
  In x xs -> exists y, In y (unique eqb xs) /\ eqb x y = true.
Proof.
  intros Hin. destruct (kept_covers xs [] x Hin) as [H|H]; [exact H|].
  simpl in H. discriminate.
Qed.

End Covering.

Lemma clean_columns (raw : Pandas.DataFrame) (f : Cleaning.Frame)
    (iss : Cleaning.issues) :
  Cleaning.clean raw = Ok (f, iss) ->
  Pandas.columns f = Pandas.columns (Cleaning.named raw).
Proof.
  intros H. apply clean_inv in H. destruct H as [g [Hv ->]].
  destruct (validate_shape _ _ _ Hv) as [C _]. rewrite <- C.
  unfold Pandas.columns, Cleaning.deduplicate, Cleaning.drop_duplicates.
  simpl. apply columns_map.
Qed.

(** X10.  The cleaned table has no duplicate row -- the report shows 0
    duplicates after cleaning -- and its rows are those of the
    validated table less its duplicates; it has as many columns as the
    raw table. *)
Theorem cleaned_table_has_no_duplicates
    (raw : Pandas.DataFrame) (f : Cleaning.Frame) (iss : Cleaning.issues) :
  Cleaning.clean raw = Ok (f, iss) ->
  Cleaning.duplicates (Cleaning.summarize f) = 0%nat
  /\ Cleaning.n_columns (Cleaning.summarize f)
     = Cleaning.n_columns (Cleaning.raw_summary raw)
  /\ exists g,
       Cleaning.validate raw = Ok (g, iss)
       /\ (Cleaning.n_rows (Cleaning.summarize f)
           + Cleaning.duplicates (Cleaning.summarize g)
           = Cleaning.n_rows (Cleaning.raw_summary raw))%nat.
Proof.
  intros H. pose proof (clean_columns raw f iss H) as C.
  apply clean_inv in H. destruct H as [g [Hv ->]].
  split; [|split].
  - unfold Cleaning.summarize. simpl. unfold Cleaning.deduplicate.
    rewrite rows_reset_index, rows_drop_duplicates, duplicated_unique.
    unfold Cleaning.count_true.
    generalize (length (Pandas.unique Cleaning.row_eqb (Cleaning.rows g))).
    induction n; simpl; auto.
  - unfold Cleaning.summarize, Cleaning.raw_summary, Cleaning.summarize. simpl.
    rewrite !length_map.
    apply (f_equal (@length string)) in C. unfold Pandas.columns in C.
    rewrite !length_map in C.
    unfold Cleaning.deduplicate, Cleaning.drop_duplicates in C. simpl in C.
    rewrite length_map in C. rewrite C.
    unfold Cleaning.named, Cleaning.rename_outcome.
    destruct (Pandas.has_column "outcome" (Cleaning.standardize_columns raw));
      simpl; rewrite ?length_map; reflexivity.
  - exists g. split; [exact Hv|].
    destruct (validate_shape _ _ _ Hv) as [_ I].
    unfold Cleaning.summarize, Cleaning.raw_summary, Cleaning.summarize. simpl.
    unfold Cleaning.deduplicate, Pandas.reset_index, Pandas.len at 1. simpl.
    rewrite length_seq, len_drop_duplicates. unfold Cleaning.keep_mask, Cleaning.count_true.
    rewrite mask_split. unfold Pandas.duplicated.
    rewrite dup_mask_length, rows_length. unfold Pandas.len. rewrite I. reflexivity.
Qed.

(** The theorem at a raw table whose second and third rows become equal
    once the text is standardized: the validated table has one
    duplicate and the cleaned table two of the three rows. *)
Lemma cleaned_table_has_no_duplicates_witness :
  exists f iss,
    Cleaning.clean near_duplicates = Ok (f, iss)
    /\ Cleaning.duplicates (Cleaning.summarize f) = 0%nat
    /\ Cleaning.n_rows (Cleaning.summarize f) = 2%nat.
Proof.
  eexists. eexists.
  assert (H : Cleaning.clean near_duplicates = Ok _) by (vm_compute; reflexivity).
  split; [exact H|]. split; [|reflexivity].
  exact (proj1 (cleaned_table_has_no_duplicates _ _ _ H)).
Defined.

(** X11.  The removal of duplicates keeps the distinct rows in the order
    of their first occurrence and numbers them from 0: the rows kept
    are rows of the table, in their order, and every row of the table
    is equal to a row that is kept. *)
Theorem deduplicate_keeps_first_occurrences (f : Cleaning.Frame) :
  Cleaning.rows (Cleaning.deduplicate f)
  = Pandas.unique Cleaning.row_eqb (Cleaning.rows f)
  /\ Pandas.index (Cleaning.deduplicate f)
     = seq 0 (length (Pandas.unique Cleaning.row_eqb (Cleaning.rows f)))
  /\ (exists m, length m = Pandas.len f
                /\ Cleaning.rows (Cleaning.deduplicate f)
                   = Pandas.select m (Cleaning.rows f))
  /\ (forall r, In r (Cleaning.rows f) ->
        exists r', In r' (Cleaning.rows (Cleaning.deduplicate f))
                   /\ Cleaning.row_eqb r r' = true).
Proof.
  assert (R : Cleaning.rows (Cleaning.deduplicate f)
              = Pandas.unique Cleaning.row_eqb (Cleaning.rows f)).
  { unfold Cleaning.deduplicate. rewrite rows_reset_index. apply rows_drop_duplicates. }
  split; [exact R|split; [|split]].
  - unfold Cleaning.deduplicate, Pandas.reset_index. simpl. f_equal.
    rewrite <- rows_drop_duplicates. symmetry. apply rows_length.
  - exists (Cleaning.keep_mask f). split; [apply keep_mask_length|].
    rewrite R. reflexivity.
  - intros r Hr. rewrite R.
    exact (unique_covers Cleaning.row_eqb row_eqb_refl row_eqb_trans _ r Hr).
Qed.

(* ================================================================= *)
(** ** The dashboard: the table it works on *)

Section Prepare.

Import Pandas App.

Lemma lookup_rename {C} (old new : string) (df : table C) :
  has_column new df = false ->
  lookup new (cols (rename old new df)) = lookup old (cols df).
Proof.
  unfold has_column, columns, rename, PyStr.mem. cbn [cols].
  induction (cols df) as [|[n c] r IH]; cbn [map existsb lookup fst snd]; [reflexivity|].
  intros H. apply orb_false_iff in H. destruct H as [Hn Hr].
  destruct (String.eqb n old) eqn:E.
  - apply String.eqb_eq in E. subst n.
    rewrite !String.eqb_refl. reflexivity.
  - rewrite Hn. rewrite String.eqb_sym, E. apply IH, Hr.
Qed.

Lemma has_column_lookup {C} (n : string) (df : table C) :
  has_column n df = false <-> lookup n (cols df) = None.
Proof. symmetry. apply lookup_None_iff. Qed.

Lemma has_column_true {C} (n : string) (df : table C) :
  has_column n df = true <-> exists c, lookup n (cols df) = Some c.
Proof.
  destruct (lookup n (cols df)) as [c|] eqn:E.
  - split; [eauto|]. intros _. destruct (has_column n df) eqn:H; [reflexivity|].
    apply has_column_lookup in H. congruence.
  - apply has_column_lookup in E. rewrite E. split; [discriminate|].
    intros [c H]; discriminate.
Qed.

Lemma lookup_rename_other {C} (old new n : string) (df : table C) :
  n <> old -> n <> new ->
  lookup n (cols (rename old new df)) = lookup n (cols df).
Proof.
  intros Ho Hn. unfold rename. cbn [cols].
  induction (cols df) as [|[k c] r IH]; cbn [map lookup fst snd]; [reflexivity|].
  destruct (String.eqb k old) eqn:E.
  - apply String.eqb_eq in E. subst k.
    apply String.eqb_neq in Ho, Hn. rewrite Ho, Hn. exact IH.
  - rewrite IH. reflexivity.
Qed.

(** The claim column the dashboard reads: [claim_status], or the
    legacy [outcome] when there is no [claim_status]. *)
Lemma lookup_rename_outcome (df : DataFrame) :
  lookup "claim_status" (cols (rename_outcome df))
  = match lookup "claim_status" (cols df) with
    | Some c => Some c
    | None => lookup "outcome" (cols df)
    end.
Proof.
  unfold rename_outcome.
  destruct (lookup "claim_status" (cols df)) as [c|] eqn:E.
  - assert (H : has_column "claim_status" df = true)
      by (apply has_column_true; eauto).
    rewrite H, andb_false_r. exact E.
  - assert (H : has_column "claim_status" df = false)
      by (apply has_column_lookup; exact E).
    rewrite H, andb_true_r.
    destruct (has_column "outcome" df) eqn:Ho.
    + apply lookup_rename, H.
    + apply has_column_lookup in Ho. rewrite Ho. exact E.
Qed.

Lemma len_rename_outcome (df : DataFrame) : len (rename_outcome df) = len df.
Proof. unfold rename_outcome. destruct (andb _ _); reflexivity. Qed.

Lemma len_readable_claim_status (df : DataFrame) :
  len (readable_claim_status df) = len df.
Proof.
  unfold readable_claim_status.
  destruct (lookup "claim_status" (cols df)) as [[xs|xs]|]; reflexivity.
Qed.

Lemma lookup_readable_claim_status (df : DataFrame) :
  lookup "claim_status" (cols (readable_claim_status df))
  = match lookup "claim_status" (cols df) with
    | Some (NumCol xs) => Some (ObjCol (map_codes xs))
    | o => o
    end.
Proof.
  unfold readable_claim_status.
  destruct (lookup "claim_status" (cols df)) as [[xs|xs]|] eqn:E;
    try exact E.
  rewrite lookup_setitem. reflexivity.
Qed.

Lemma flag_of_codes (xs : list (option Q)) :
  claim_flag_of (ObjCol (map_codes xs)) = map code_flag xs.
Proof.
  unfold claim_flag_of, map_codes. rewrite map_map. apply map_ext.
  intros [q|]; [|reflexivity]. unfold code_flag.
  destruct (Qeq_bool q 1); [reflexivity|].
  destruct (Qeq_bool q 0); reflexivity.
Qed.

Lemma flag_of_text_binary (s : string) :
  flag_of_text s = None \/ flag_of_text s = Some 0%Q \/ flag_of_text s = Some 1%Q.
Proof.
  unfold flag_of_text. cbv zeta.
  destruct (String.eqb (PyStr.lower s) "claim"); [tauto|].
  destruct (String.eqb (PyStr.lower s) "no claim"); tauto.
Qed.

Lemma claim_flag_of_binary (c : column) : binary (claim_flag_of c).
Proof.
  intros x Hx. destruct c as [xs|xs]; simpl in Hx; apply in_map_iff in Hx;
    destruct Hx as [y [<- _]]; [tauto | apply flag_of_text_binary].
Qed.

(** What [prepare] returns on a table that was read. *)
Lemma prepare_Ok (df : DataFrame) :
  prepare (Ok df)
  = let d := readable_claim_status (rename_outcome df) in
    match lookup "claim_status" (cols d) with
    | Some c =>
        ([(INFO, "Cleaned dataset loaded successfully");
          (INFO, "Created 'claim_flag' numeric column for aggregations")],
         Ok (setitem "claim_flag" (NumCol (claim_flag_of c)) d))
    | None =>
        ([(INFO, "Cleaned dataset loaded successfully");
          (ERROR, "Column 'claim_status' not found after loading. Aborting.")],
         Raise (SystemExit (ExitMsg "Column 'claim_status' not found in dataset.")))
    end.
Proof.
  unfold prepare, load_cleaned_data, add_claim_flag. cbv zeta.
  destruct (lookup "claim_status" (cols (readable_claim_status (rename_outcome df))));
    reflexivity.
Qed.

End Prepare.

(** X12.  The dashboard starts on a table that was read exactly when the
    table has a [claim_status] or an [outcome] column.  Without both it
    logs an error and stops with the message of [SystemExit], exit
    status 1; with one of them it goes on with a table of the same rows
    that has the columns [claim_status] and [claim_flag], and logs no
    error. *)
Theorem dashboard_needs_claim_column (df : Pandas.DataFrame) :
  (Pandas.has_column "claim_status" df = false ->
   Pandas.has_column "outcome" df = false ->
   snd (App.prepare (Ok df))
   = Raise (SystemExit (ExitMsg "Column 'claim_status' not found in dataset."))
   /\ has_error (fst (App.prepare (Ok df))) = true
   /\ stage_exit (snd (App.prepare (Ok df))) = Some 1%Z)
  /\ (Pandas.has_column "claim_status" df = true
      \/ Pandas.has_column "outcome" df = true ->
      exists df',
        snd (App.prepare (Ok df)) = Ok df'
        /\ has_error (fst (App.prepare (Ok df))) = false
        /\ Pandas.len df' = Pandas.len df
        /\ Pandas.has_column "claim_status" df' = true
        /\ Pandas.has_column "claim_flag" df' = true).
Proof.
  pose proof (lookup_readable_claim_status (App.rename_outcome df)) as Hr.
  rewrite lookup_rename_outcome in Hr.
  split.
  - intros H1 H2. apply has_column_lookup in H1, H2.
    rewrite H1, H2 in Hr. rewrite prepare_Ok. cbv zeta. rewrite Hr.
    repeat split; reflexivity.
  - intros H.
    assert (E : exists c, Pandas.lookup "claim_status"
                  (Pandas.cols (App.readable_claim_status (App.rename_outcome df)))
                = Some c).
    { rewrite Hr. destruct (Pandas.lookup "claim_status" (Pandas.cols df))
        as [[xs|xs]|] eqn:E1; eauto.
      destruct H as [H|H]; apply has_column_true in H; destruct H as [c H].
      - congruence.
      - rewrite H. destruct c; eauto. }
    destruct E as [c E]. rewrite prepare_Ok. cbv zeta. rewrite E.
    eexists. split; [reflexivity|]. split; [reflexivity|]. split.
    + unfold Pandas.len, Pandas.setitem. cbn [Pandas.index].
      fold (Pandas.len (App.readable_claim_status (App.rename_outcome df))).
      rewrite len_readable_claim_status. apply len_rename_outcome.
    + split; apply has_column_true; rewrite lookup_setitem.
      * simpl. eauto.
      * simpl. eauto.
Qed.

(** The theorem at a table without claim column, and at a legacy
    table. *)
Lemma dashboard_needs_claim_column_witness :
  stage_exit (snd (App.prepare (Ok no_status))) = Some 1%Z
  /\ exists df', snd (App.prepare (Ok legacy_table)) = Ok df'
                 /\ Pandas.has_column "claim_flag" df' = true.
Proof.
  split.
  - exact (proj2 (proj2 (proj1 (dashboard_needs_claim_column no_status)
                           eq_refl eq_refl))).
  - destruct (proj2 (dashboard_needs_claim_column legacy_table)
                (or_intror eq_refl)) as [df' [H1 [_ [_ [_ H2]]]]].
    exists df'. split; [exact H1 | exact H2].
Defined.

(** X13.  When the claim column ([claim_status], or [outcome] without
    [claim_status]) is numeric, the dashboard writes the labels in its
    place and the flag is the code again: 1 for the code 1, 0 for the
    code 0, missing for every other number and for NaN. *)
Theorem numeric_codes_give_their_flag
    (df df' : Pandas.DataFrame) (xs : list (option Q)) :
  Pandas.lookup "claim_status" (Pandas.cols df) = Some (Pandas.NumCol xs)
  \/ (Pandas.lookup "claim_status" (Pandas.cols df) = None
      /\ Pandas.lookup "outcome" (Pandas.cols df) = Some (Pandas.NumCol xs)) ->
  snd (App.prepare (Ok df)) = Ok df' ->
  Pandas.lookup "claim_status" (Pandas.cols df')
  = Some (Pandas.ObjCol (App.map_codes xs))
  /\ Pandas.lookup "claim_flag" (Pandas.cols df')
     = Some (Pandas.NumCol (map code_flag xs)).
Proof.
  intros H Hp.
  pose proof (lookup_readable_claim_status (App.rename_outcome df)) as Hr.
  rewrite lookup_rename_outcome in Hr.
  assert (E : Pandas.lookup "claim_status"
                (Pandas.cols (App.readable_claim_status (App.rename_outcome df)))
              = Some (Pandas.ObjCol (App.map_codes xs))).
  { rewrite Hr. destruct H as [H|[H1 H2]].
    - rewrite H. reflexivity.
    - rewrite H1, H2. reflexivity. }
  rewrite prepare_Ok in Hp. cbv zeta in Hp. rewrite E in Hp.
  cbn [snd] in Hp.
  apply (f_equal (fun r => match r with Ok d => d | Raise _ => df end)) in Hp.
  subst df'. rewrite !lookup_setitem. cbn [String.eqb Ascii.eqb Bool.eqb].
  split; [exact E|]. rewrite flag_of_codes. reflexivity.
Qed.

Lemma numeric_codes_give_their_flag_witness :
  exists df',
    snd (App.prepare (Ok legacy_table)) = Ok df'
    /\ Pandas.lookup "claim_flag" (Pandas.cols df')
       = Some (Pandas.NumCol [Some 1; Some 0; None; None]%Q).
Proof.
  eexists.
  assert (H : snd (App.prepare (Ok legacy_table)) = Ok _) by (vm_compute; reflexivity).
  split; [exact H|].
  exact (proj2 (numeric_codes_give_their_flag legacy_table _
                  [Some 1; Some 0; Some 2; None]%Q
                  (or_intror (conj eq_refl eq_refl)) H)).
Defined.

(* ================================================================= *)
(** ** The dashboard: the numbers on the cards *)


(** X14.  For a table whose flags are all missing, 0 or 1, the metric
    [total_claims] is the number of flags that are 1 (the missing ones
    count as no claim), it is at most the number of flags present, and
    [claim_rate] lies between 0 and 100. *)
Theorem metrics_of_binary_flags
    (data : Pandas.DataFrame) (flag : list (option Q)) (m : App.metrics) :
  App.claim_flag data = Ok flag ->
  binary flag ->
  App.calculate_metrics data = Ok m ->
  App.total_claims m = Z.of_nat (ones flag)
  /\ (ones flag <= valid_rows flag)%nat
  /\ (0 <= App.claim_rate m)%Q /\ (App.claim_rate m <= 100)%Q.
Proof.
  intros Hf Hb Hm. apply calculate_metrics_inv in Hm.
  destruct Hm as [flag' [Hf' [_ [Ht Hr]]]].
  rewrite Hf in Hf'. apply (f_equal (fun r => match r with Ok x => x | Raise _ => flag end)) in Hf'.
  subst flag'. rewrite Ht, Hr. split; [apply count_claims_binary, Hb|].
  split; [rewrite <- dropna_length; apply ones_le_valid|].
  apply rate_of_binary, Hb.
Qed.

Lemma metrics_of_binary_flags_witness :
  App.calculate_metrics dashboard_table
  = Ok (App.mkMetrics 3 1 50 (Some (Some (19 # 50))) (Some (Some (933333 # 100))))%Q
  /\ 1%Z = Z.of_nat (ones [Some 1; Some 0; None]%Q).
Proof.
  assert (H : App.calculate_metrics dashboard_table
              = Ok (App.mkMetrics 3 1 50 (Some (Some (19 # 50))) (Some (Some (933333 # 100))))%Q).
  { vm_compute. reflexivity. }
  split; [exact H|].
  refine (proj1 (metrics_of_binary_flags dashboard_table
                   [Some 1; Some 0; None]%Q _ eq_refl _ H)).
  intros x [<-|[<-|[<-|[]]]]; tauto.
Defined.

(* ================================================================= *)
(** ** The dashboard: the selected rows *)

Section WellFormed.

Import Pandas App.

Lemma select_length_eq {A B} (m : list bool) (xs : list A) (ys : list B) :
  length xs = length ys -> length (select m xs) = length (select m ys).
Proof.
  revert xs ys; induction m as [|b m IH]; intros [|x xs] [|y ys] H;
    simpl in *; try reflexivity; try discriminate.
  injection H as H. destruct b; simpl; rewrite (IH xs ys H); reflexivity.
Qed.

Lemma select_shorter {A} (m : list bool) (xs : list A) :
  (length (select m xs) <= length xs)%nat.
Proof.
  revert xs; induction m as [|b m IH]; intros [|x xs]; simpl; try lia.
  destruct b; simpl; specialize (IH xs); lia.
Qed.

Lemma select_pred {A} (p : A -> bool) (xs : list A) (x : A) :
  In x (select (map p xs) xs) -> p x = true.
Proof.
  induction xs as [|a r IH]; simpl; [tauto|].
  destruct (p a) eqn:E; simpl; [|exact IH].
  intros [<-|H]; [exact E | exact (IH H)].
Qed.

Lemma col_length_select (m : list bool) (c : column) (n : list nat) :
  col_length c = length n ->
  col_length (col_select m c) = length (select m n).
Proof.
  destruct c as [xs|xs]; simpl; intros H; apply select_length_eq, H.
Qed.

Lemma keys_of_select (m : list bool) (c : column) :
  keys_of (col_select m c) = select m (keys_of c).
Proof. destruct c as [xs|xs]; simpl; rewrite select_map; reflexivity. Qed.

Lemma well_formed_filter_rows (m : list bool) (d : DataFrame) :
  well_formed d -> well_formed (filter_rows m d).
Proof.
  unfold well_formed, filter_rows, len. cbn [cols index].
  intros H. apply Forall_map. eapply Forall_impl; [|exact H].
  intros [n c] Hc. cbn [fst snd] in *. apply col_length_select, Hc.
Qed.

Lemma well_formed_update (n : string) (c : column) (d : DataFrame) :
  well_formed d -> col_length c = len d -> well_formed (setitem n c d).
Proof.
  unfold well_formed, setitem, len. cbn [cols index]. intros H Hc.
  induction H as [|[k c'] r Hk Hr IH]; cbn [update].
  - constructor; [exact Hc | constructor].
  - destruct (String.eqb n k); constructor; try assumption.
Qed.

Lemma well_formed_rename (old new : string) (d : DataFrame) :
  well_formed d -> well_formed (rename old new d).
Proof.
  unfold well_formed, rename, len. cbn [cols index]. intros H.
  apply Forall_map. eapply Forall_impl; [|exact H]. intros [n c] Hc. exact Hc.
Qed.

Lemma well_formed_rename_outcome (d : DataFrame) :
  well_formed d -> well_formed (rename_outcome d).
Proof.
  intros H. unfold rename_outcome. destruct (andb _ _); [|exact H].
  apply well_formed_rename, H.
Qed.

Lemma well_formed_readable (d : DataFrame) :
  well_formed d -> well_formed (readable_claim_status d).
Proof.
  intros H. unfold readable_claim_status.
  destruct (lookup "claim_status" (cols d)) as [[xs|xs]|] eqn:E; try exact H.
  apply well_formed_update; [exact H|].
  rewrite <- (well_formed_lookup d _ _ H E). unfold map_codes. simpl.
  apply length_map.
Qed.

Lemma claim_flag_of_length (c : column) :
  length (claim_flag_of c) = col_length c.
Proof. destruct c; simpl; apply length_map. Qed.

(** The table the dashboard works on: rows and flags. *)
Lemma prepare_inv (df0 df : DataFrame) :
  snd (prepare (Ok df0)) = Ok df ->
  len df = len df0
  /\ (well_formed df0 -> well_formed df)
  /\ exists flag, lookup "claim_flag" (cols df) = Some (NumCol flag) /\ binary flag.
Proof.
  rewrite prepare_Ok. cbv zeta.
  destruct (lookup "claim_status"
              (cols (readable_claim_status (rename_outcome df0)))) as [c|] eqn:E;
    cbn [snd]; [|discriminate].
  intros H.
  apply (f_equal (fun r => match r with Ok d => d | Raise _ => df0 end)) in H.
  subst df. split; [|split].
  - unfold len, setitem. cbn [index].
    fold (len (readable_claim_status (rename_outcome df0))).
    rewrite len_readable_claim_status. apply len_rename_outcome.
  - intros W. apply well_formed_rename_outcome, well_formed_readable in W.
    apply well_formed_update; [exact W|].
    simpl. rewrite claim_flag_of_length.
    apply (well_formed_lookup _ _ _ W E).
  - exists (claim_flag_of c). rewrite lookup_setitem. simpl.
    split; [reflexivity | apply claim_flag_of_binary].
Qed.

(** What one filter keeps. *)
Lemma apply_filter_inv (name : string) (selected : list key) (d d' : DataFrame) :
  apply_filter name selected d = Ok d' ->
  columns d' = columns d
  /\ (len d' <= len d)%nat
  /\ (forall i, In i (index d') -> In i (index d))
  /\ (well_formed d -> well_formed d')
  /\ (forall n c', lookup n (cols d') = Some c' ->
        exists c, lookup n (cols d) = Some c
                  /\ (forall k, In k (keys_of c') -> In k (keys_of c))
                  /\ (forall flag, c = NumCol flag -> binary flag ->
                        exists flag', c' = NumCol flag' /\ binary flag'))
  /\ (forall n, lookup n (cols d) <> None -> lookup n (cols d') <> None)
  /\ obeys name selected d'.
Proof.
  unfold apply_filter. destruct selected as [|x sel].
  - intros H. apply (f_equal (fun r => match r with Ok d => d | Raise _ => d end)) in H.
    subst d'. repeat split; auto.
    + intros n c' Hc. exists c'. split; [exact Hc|]. split; [auto|].
      intros flag -> Hb. eauto.
    + left. reflexivity.
  - set (s := x :: sel). intros H. bind_inv H.
    apply (f_equal (fun r => match r with Ok d => d | Raise _ => d end)) in H.
    subst d'. apply getitem_Ok in E. repeat split.
    + unfold columns, filter_rows. cbn [cols]. apply columns_map.
    + unfold len, filter_rows. cbn [index]. apply select_shorter.
    + unfold filter_rows. cbn [index]. apply select_In.
    + apply well_formed_filter_rows.
    + intros n c' Hc. rewrite lookup_filter_rows in Hc.
      destruct (lookup n (cols d)) as [c|]; [|discriminate].
      simpl in Hc. injection Hc as <-. exists c. split; [reflexivity|].
      split.
      * intros k. rewrite keys_of_select. apply select_In.
      * intros flag -> Hb. simpl. eexists. split; [reflexivity|].
        apply binary_select, Hb.
    + intros n Hn. rewrite lookup_filter_rows.
      destruct (lookup n (cols d)); [discriminate | congruence].
    + right. exists (col_select (isin s a) a). split.
      * rewrite lookup_filter_rows, E. reflexivity.
      * intros k. rewrite keys_of_select. unfold isin. intros Hk.
        apply select_pred in Hk. destruct k as [y|]; [|discriminate].
        exists y. split; [reflexivity | exact Hk].
Qed.

Lemma obeys_later (name n : string) (s selected : list key) (d d' : DataFrame) :
  apply_filter n s d = Ok d' -> obeys name selected d -> obeys name selected d'.
Proof.
  intros H [->|[c [Hc Hw]]]; [left; reflexivity|].
  destruct (apply_filter_inv _ _ _ _ H) as [_ [_ [_ [_ [Hsub [Hkeep _]]]]]].
  right. destruct (lookup name (cols d')) as [c'|] eqn:E.
  - exists c'. split; [reflexivity|].
    destruct (Hsub name c' E) as [c0 [Hc0 [Hin _]]].
    rewrite Hc in Hc0. injection Hc0 as <-.
    intros k Hk. apply Hw, Hin, Hk.
  - exfalso. apply (Hkeep name); [rewrite Hc; discriminate | exact E].
Qed.

(** What one filter raises. *)
Lemma apply_filter_Raise (name : string) (selected : list key) (d : DataFrame)
    (e : exn) :
  apply_filter name selected d = Raise e ->
  selected <> [] /\ lookup name (cols d) = None /\ e = KeyError name.
Proof.
  unfold apply_filter, getitem. destruct selected as [|x sel]; [discriminate|].
  destruct (lookup name (cols d)); simpl; [discriminate|].
  intros H. injection H as <-. repeat split. discriminate.
Qed.

Lemma lookup_columns {C} (n : string) (d d' : table C) :
  columns d' = columns d -> lookup n (cols d) = None -> lookup n (cols d') = None.
Proof.
  intros H E. apply lookup_None_iff. apply lookup_None_iff in E.
  unfold columns in H. rewrite H. exact E.
Qed.

(** The four filters, one after the other. *)
Lemma filtered_df_inv (d d' : DataFrame) (sel : selection) :
  filtered_df d sel = Ok d' ->
  columns d' = columns d
  /\ (len d' <= len d)%nat
  /\ (forall i, In i (index d') -> In i (index d))
  /\ (well_formed d -> well_formed d')
  /\ (forall flag, lookup "claim_flag" (cols d) = Some (NumCol flag) ->
        binary flag ->
        exists flag', lookup "claim_flag" (cols d') = Some (NumCol flag')
                      /\ binary flag')
  /\ (forall name selected, In (name, selected) (filters sel) ->
        obeys name selected d').
Proof.
  unfold filtered_df. intros H.
  bind_inv H. rename a into d1, E into H1.
  bind_inv H. rename a into d2, E into H2.
  bind_inv H. rename a into d3, E into H3.
  destruct (apply_filter_inv _ _ _ _ H1) as [C1 [L1 [I1 [W1 [S1 [K1 O1]]]]]].
  destruct (apply_filter_inv _ _ _ _ H2) as [C2 [L2 [I2 [W2 [S2 [K2 O2]]]]]].
  destruct (apply_filter_inv _ _ _ _ H3) as [C3 [L3 [I3 [W3 [S3 [K3 O3]]]]]].
  destruct (apply_filter_inv _ _ _ _ H) as [C4 [L4 [I4 [W4 [S4 [K4 O4]]]]]].
  split; [congruence|]. split; [lia|]. split; [auto|]. split; [auto|]. split.
  - intros flag Hf Hb.
    assert (P : forall a b : DataFrame,
              (forall n, lookup n (cols a) <> None -> lookup n (cols b) <> None) ->
              (forall n c', lookup n (cols b) = Some c' ->
                 exists c, lookup n (cols a) = Some c
                   /\ (forall k, In k (keys_of c') -> In k (keys_of c))
                   /\ (forall flag, c = NumCol flag -> binary flag ->
                         exists flag', c' = NumCol flag' /\ binary flag')) ->
              (exists f, lookup "claim_flag" (cols a) = Some (NumCol f) /\ binary f) ->
              exists f, lookup "claim_flag" (cols b) = Some (NumCol f) /\ binary f).
    { intros a b K S [f [Ef Bf]].
      destruct (lookup "claim_flag" (cols b)) as [c'|] eqn:E.
      - destruct (S _ _ E) as [c [Ec [_ Hc]]]. rewrite Ef in Ec.
        injection Ec as <-. destruct (Hc f eq_refl Bf) as [f' [-> Bf']]. eauto.
      - exfalso. apply (K "claim_flag"); [rewrite Ef; discriminate | exact E]. }
    apply (P d3 d' K4 S4), (P d2 d3 K3 S3), (P d1 d2 K2 S2), (P d d1 K1 S1).
    eauto.
  - intros name selected Hin. unfold filters in Hin.
    destruct Hin as [Hin|[Hin|[Hin|[Hin|[]]]]]; injection Hin as <- <-.
    + eapply obeys_later; [exact H|]. eapply obeys_later; [exact H3|].
      eapply obeys_later; [exact H2|]. exact O1.
    + eapply obeys_later; [exact H|]. eapply obeys_later; [exact H3|]. exact O2.
    + eapply obeys_later; [exact H|]. exact O3.
    + exact O4.
Qed.

Lemma filtered_df_Raise (d : DataFrame) (sel : selection) (e : exn) :
  filtered_df d sel = Raise e ->
  exists name selected,
    In (name, selected) (filters sel) /\ selected <> []
    /\ has_column name d = false /\ e = KeyError name.
Proof.
  unfold filtered_df, filters. intros H.
  destruct (apply_filter "age" (selected_age sel) d) as [d1|e1] eqn:H1.
  2:{ simpl in H. injection H as <-.
      apply apply_filter_Raise in H1. destruct H1 as [N [L ->]].
      exists "age", (selected_age sel). split; [simpl; auto|].
      split; [exact N|]. split; [apply has_column_lookup, L | reflexivity]. }
  destruct (apply_filter_inv _ _ _ _ H1) as [C1 _]. simpl in H.
  destruct (apply_filter "gender" (selected_gender sel) d1) as [d2|e2] eqn:H2.
  2:{ simpl in H. injection H as <-.
      apply apply_filter_Raise in H2. destruct H2 as [N [L ->]].
      exists "gender", (selected_gender sel). split; [simpl; auto|].
      split; [exact N|]. split; [|reflexivity].
      apply has_column_lookup.
      exact (lookup_columns _ d1 d (eq_sym C1) L). }
  destruct (apply_filter_inv _ _ _ _ H2) as [C2 _]. simpl in H.
  destruct (apply_filter "driving_experience" (selected_experience sel) d2)
    as [d3|e3] eqn:H3.
  2:{ simpl in H. injection H as <-.
      apply apply_filter_Raise in H3. destruct H3 as [N [L ->]].
      exists "driving_experience", (selected_experience sel).
      split; [simpl; auto|].
      split; [exact N|]. split; [|reflexivity].
      apply has_column_lookup.
      apply (lookup_columns _ d2 d); [congruence | exact L]. }
  destruct (apply_filter_inv _ _ _ _ H3) as [C3 _]. simpl in H.
  apply apply_filter_Raise in H. destruct H as [N [L ->]].
  exists "vehicle_year", (selected_year sel). split; [simpl; auto|].
  split; [exact N|]. split; [|reflexivity].
  apply has_column_lookup.
  apply (lookup_columns _ d3 d); [congruence | exact L].
Qed.

End WellFormed.

Section Cards.

Import Pandas App.

Lemma kpi_cards_Ok (m k : metrics) : kpi_cards m = Ok k -> k = m.
Proof.
  unfold kpi_cards. destruct (avg_mileage m); [|discriminate].
  intros H. injection H as <-. reflexivity.
Qed.

Lemma claim_flag_lookup (d : DataFrame) (flag : list (option Q)) :
  lookup "claim_flag" (cols d) = Some (NumCol flag) -> claim_flag d = Ok flag.
Proof. intros H. unfold claim_flag, getitem. rewrite H. reflexivity. Qed.

(** The metrics of the selected rows, for a table as [prepare] leaves
    it. *)
Lemma dashboard_of_inv (df : DataFrame) (sel : selection) (dash : dashboard) :
  dashboard_of df sel = Ok dash ->
  exists d, filtered_df df sel = Ok d
            /\ calculate_metrics d = Ok (kpi dash)
            /\ chart_of "age" d = Ok (fig_age dash)
            /\ chart_of "gender" d = Ok (fig_gender dash)
            /\ chart_of "driving_experience" d = Ok (fig_experience dash)
            /\ chart_of "vehicle_ownership" d = Ok (fig_ownership dash)
            /\ chart_of "vehicle_year" d = Ok (fig_year dash)
            /\ box_of "claim_status" "speeding_violations" d = Ok (fig_speeding dash)
            /\ avg_mileage (kpi dash) <> None.
Proof.
  unfold dashboard_of. intros H.
  bind_inv H. rename a into d, E into Hd.
  bind_inv H. rename a into m, E into Hm.
  bind_inv H. rename a into k, E into Hk.
  bind_inv H. rename E into Ha.
  bind_inv H. rename E into Hg.
  bind_inv H. rename E into He.
  bind_inv H. rename E into Ho.
  bind_inv H. rename E into Hy.
  bind_inv H. rename E into Hb.
  apply (f_equal (fun r => match r with
                           | Ok x => x
                           | Raise _ => mkDashboard k a a0 a1 a2 a3 a4
                           end)) in H.
  subst dash. cbn [kpi fig_age fig_gender fig_experience fig_ownership fig_year
                   fig_speeding].
  pose proof (kpi_cards_Ok _ _ Hk) as ->.
  exists d. repeat (split; [assumption|]).
  unfold kpi_cards in Hk. destruct (avg_mileage m); [discriminate | discriminate].
Qed.

End Cards.

(** X15.  Whatever is selected, the cards the callback returns for a
    table the dashboard has prepared from a well-formed file show a
    number of claims between 0 and the number of customers, a number of
    customers no larger than the number of rows of the file, and a claim
    rate between 0 and 100. *)
Theorem cards_within_bounds
    (df0 : Pandas.DataFrame) (l : App.loc) (sel : App.selection)
    (s : App.state) (dash : App.dashboard) :
  Pandas.well_formed df0 ->
  (l < length (App.heap s))%nat ->
  snd (App.prepare (Ok df0)) = Ok (nth l (App.heap s) App.empty_frame) ->
  fst (App.update_dashboard l sel s) = Ok dash ->
  (0 <= App.total_claims (App.kpi dash)
   <= Z.of_nat (App.total_customers (App.kpi dash)))%Z
  /\ (App.total_customers (App.kpi dash) <= Pandas.len df0)%nat
  /\ (0 <= App.claim_rate (App.kpi dash))%Q
  /\ (App.claim_rate (App.kpi dash) <= 100)%Q.
Proof.
  intros W Hl Hp Hu.
  destruct (update_dashboard_spec l sel s Hl) as [s' [E _]].
  rewrite E in Hu. cbn [fst] in Hu.
  apply dashboard_of_inv in Hu. destruct Hu as [d [Hd [Hm _]]].
  destruct (prepare_inv _ _ Hp) as [Hlen [Hw [flag [Hf Hb]]]].
  destruct (filtered_df_inv _ _ _ Hd) as [_ [Hle [_ [Hwd [Hfd _]]]]].
  destruct (Hfd flag Hf Hb) as [flag' [Hf' Hb']].
  pose proof (well_formed_lookup _ _ _ (Hwd (Hw W)) Hf') as Hcl. simpl in Hcl.
  destruct (calculate_metrics_inv _ _ Hm) as [fl [Hfl [Hc [Ht Hr]]]].
  rewrite (claim_flag_lookup _ _ Hf') in Hfl.
  apply (f_equal (fun r => match r with Ok x => x | Raise _ => flag end)) in Hfl.
  subst fl. rewrite Ht, Hr, Hc, (count_claims_binary _ Hb').
  pose proof (ones_le_valid flag') as H1.
  pose proof (valid_le_length flag') as H2.
  split; [lia|]. split; [lia|]. apply rate_of_binary, Hb'.
Qed.

(** The theorem at a table of three rows, the young drivers
    selected. *)
Lemma cards_within_bounds_witness :
  exists dash,
    fst (App.update_dashboard 0%nat young_selected dashboard_state) = Ok dash
    /\ (0 <= App.total_claims (App.kpi dash)
        <= Z.of_nat (App.total_customers (App.kpi dash)))%Z.
Proof.
  eexists.
  assert (H : fst (App.update_dashboard 0%nat young_selected dashboard_state) = Ok _)
    by (vm_compute; reflexivity).
  split; [exact H|].
  refine (proj1 (cards_within_bounds dashboard_table 0%nat young_selected
                   dashboard_state _ _ _ eq_refl H)).
  - repeat constructor.
  - simpl. lia.
Defined.

(** X16.  The table the callback computes on holds rows of the loaded
    table only, with all its columns, and for each filter with a
    selection every cell of the filter's column is one of the selected
    values: a row whose value is missing is never kept.  The filtering
    fails only with [KeyError] for a filter that has a selection and
    whose column the loaded table lacks. *)
Theorem filtered_rows_are_selected
    (df : App.loc) (sel : App.selection) (s : App.state) :
  (df < length (App.heap s))%nat ->
  match App.filtered df sel s with
  | (Ok l, s') =>
      let d := nth df (App.heap s) App.empty_frame in
      let d' := nth l (App.heap s') App.empty_frame in
      Pandas.columns d' = Pandas.columns d
      /\ (Pandas.len d' <= Pandas.len d)%nat
      /\ (forall i, In i (Pandas.index d') -> In i (Pandas.index d))
      /\ (forall name selected,
            In (name, selected) (filters sel) -> obeys name selected d')
  | (Raise e, _) =>
      exists name selected,
        In (name, selected) (filters sel) /\ selected <> []
        /\ Pandas.has_column name (nth df (App.heap s) App.empty_frame) = false
        /\ e = KeyError name
  end.
Proof.
  intros Hdf.
  destruct (filtered_spec df sel s Hdf) as [r [s' [E [_ P]]]].
  rewrite E. destruct r as [l|e].
  - destruct P as [_ P]. cbv zeta.
    destruct (filtered_df_inv _ _ _ P) as [C [L [I [_ [_ O]]]]].
    repeat split; assumption.
  - apply filtered_df_Raise, P.
Qed.

Lemma filtered_rows_are_selected_witness :
  obeys "age" [Pandas.KStr "young"]
    (nth 2 (App.heap (snd (App.filtered 0%nat young_selected dashboard_state)))
         App.empty_frame).
Proof.
  assert (H : (0 < length (App.heap dashboard_state))%nat) by (simpl; lia).
  exact (proj2 (proj2 (proj2
           (filtered_rows_are_selected 0%nat young_selected dashboard_state H)))
           "age" [Pandas.KStr "young"] (or_introl eq_refl)).
Defined.

(* ================================================================= *)
(** ** The dashboard: the groups of a chart *)

Section Sorting.

Import Pandas.

Lemma Qle_bool_total (a b : Q) : Qle_bool a b = false -> Qle_bool b a = true.
Proof.
  intros H. apply Qle_bool_iff.
  destruct (Qlt_le_dec b a) as [L|L]; [apply Qlt_le_weak, L|].
  apply Qle_bool_iff in L. congruence.
Qed.

Lemma okey_leb_total (a b : option key) :
  okey_leb a b = false -> okey_leb b a = true.
Proof.
  destruct a as [[p|s]|], b as [[q|t]|]; simpl; try congruence.
  - apply Qle_bool_total.
  - intros H. destruct (String.leb_total s t) as [L|L]; congruence.
Qed.

Lemma ordered_insert (k : option key) (ks : list (option key)) :
  ordered ks -> ordered (insert_key k ks).
Proof.
  induction ks as [|j r IH]; [simpl; tauto|].
  intros H. cbn [insert_key].
  destruct (okey_leb k j) eqn:E; [simpl; simpl in H; tauto|].
  apply okey_leb_total in E. destruct H as [Hj Hr].
  cbn [ordered]. split; [|exact (IH Hr)].
  destruct r as [|b t]; [exact E|].
  cbn [insert_key]. destruct (okey_leb k b); [exact E | exact Hj].
Qed.

Lemma ordered_sort (ks : list (option key)) : ordered (sort_keys ks).
Proof.
  induction ks as [|k r IH]; [exact I|]. apply ordered_insert, IH.
Qed.

Lemma filter_insert_key (p : option key -> bool) (k : option key)
    (ks : list (option key)) :
  length (filter p (insert_key k ks)) = length (filter p (k :: ks)).
Proof.
  induction ks as [|j r IH]; [reflexivity|].
  cbn [insert_key]. destruct (okey_leb k j); [reflexivity|].
  simpl in *. destruct (p j), (p k); simpl in *; lia.
Qed.

Lemma filter_sort_keys (p : option key -> bool) (ks : list (option key)) :
  length (filter p (sort_keys ks)) = length (filter p ks).
Proof.
  induction ks as [|k r IH]; [reflexivity|].
  unfold sort_keys in *. cbn [fold_right]. rewrite filter_insert_key.
  simpl. destruct (p k); simpl; rewrite IH; reflexivity.
Qed.

Lemma In_insert_key (x k : option key) (ks : list (option key)) :
  In x (insert_key k ks) <-> x = k \/ In x ks.
Proof.
  induction ks as [|j r IH]; simpl; [intuition congruence|].
  destruct (okey_leb k j); simpl; [intuition congruence|].
  rewrite IH. intuition congruence.
Qed.

Lemma In_sort_keys (x : option key) (ks : list (option key)) :
  In x (sort_keys ks) <-> In x ks.
Proof.
  induction ks as [|k r IH]; [tauto|].
  unfold sort_keys in *. cbn [fold_right]. rewrite In_insert_key, IH.
  simpl. intuition congruence.
Qed.

End Sorting.

Section OneGroup.

Import Pandas.
Context {A : Type}.
Variable eqb : A -> A -> bool.
Hypothesis eqb_refl : forall x, eqb x x = true.
Hypothesis eqb_sym : forall x y, eqb x y = eqb y x.
Hypothesis eqb_trans :
  forall x y z, eqb x y = true -> eqb y z = true -> eqb x z = true.

Lemma filter_none (p : A -> bool) (xs : list A) :
  (forall y, In y xs -> p y = false) -> filter p xs = [].
Proof.
  induction xs as [|x r IH]; intros H; [reflexivity|].
  simpl. rewrite (H x (or_introl eq_refl)). apply IH.
  intros y Hy. apply H. right. exact Hy.
Qed.

(** Among the elements kept no two are equal. *)
Lemma kept_at_most_once (xs seen : list A) (k : A) :
  (length (filter (eqb k) (kept eqb seen xs)) <= 1)%nat.
Proof.
  revert seen; induction xs as [|x r IH]; intros seen; [simpl; lia|].
  unfold kept. cbn [dup_mask map select].
  destruct (existsb (eqb x) seen) eqn:E; cbn [negb];
    fold (kept eqb (x :: seen) r); [apply IH|].
  cbn [filter]. destruct (eqb k x) eqn:Ekx; [|apply IH].
  rewrite filter_none; [simpl; lia|].
  intros y Hy. pose proof (kept_fresh eqb r (x :: seen) y Hy) as F.
  simpl in F. apply orb_false_iff in F. destruct F as [F _].
  destruct (eqb k y) eqn:Eky; [|reflexivity].
  rewrite eqb_sym in Eky. rewrite (eqb_trans y k x Eky Ekx) in F. discriminate.
Qed.

Lemma filter_witness (p : A -> bool) (xs : list A) (y : A) :
  In y xs -> p y = true -> (1 <= length (filter p xs))%nat.
Proof.
  induction xs as [|x r IH]; simpl; [tauto|].
  intros [->|H] Hp.
  - rewrite Hp. simpl. lia.
  - destruct (p x); simpl; [lia | exact (IH H Hp)].
Qed.

End OneGroup.

Section Groups.

Import Pandas App.

Lemma filter_keyed {V} (p : option key -> bool) (f : option key -> list V)
    (ks : list (option key)) :
  length (filter (fun g => p (fst g)) (map (fun k => (k, f k)) ks))
  = length (filter p ks).
Proof.
  induction ks as [|k r IH]; [reflexivity|].
  simpl. destruct (p k); simpl; rewrite IH; reflexivity.
Qed.

(** The groups of [groupby(..., dropna=False)]. *)
Lemma groupby_groups {V} (by_ : list (option key)) (val : list V) :
  length val = length by_ ->
  ordered (map fst (groupby false by_ val))
  /\ (forall k, In k by_ ->
        length (filter (fun g => okey_eqb k (fst g)) (groupby false by_ val)) = 1%nat)
  /\ (forall g, In g (groupby false by_ val) -> In (fst g) by_ /\ snd g <> []).
Proof.
  intros L. unfold groupby. split; [|split].
  - rewrite map_map. cbn [fst]. rewrite map_id. apply ordered_sort.
  - intros k Hk.
    rewrite (filter_keyed (okey_eqb k)), filter_sort_keys.
    pose proof (kept_at_most_once okey_eqb okey_eqb_sym okey_eqb_trans by_ [] k) as H1.
    destruct (unique_covers okey_eqb okey_eqb_refl okey_eqb_trans by_ k Hk)
      as [y [Hy Ey]].
    pose proof (filter_witness (okey_eqb k) _ y Hy Ey) as H2.
    unfold kept in H1. unfold unique, duplicated in *. lia.
  - intros g Hg. apply in_map_iff in Hg. destruct Hg as [k [<- Hk]].
    cbn [fst snd]. apply (proj1 (In_sort_keys _ _)) in Hk.
    unfold unique in Hk. apply select_In in Hk. split; [exact Hk|].
    intros E. apply (f_equal (@length V)) in E.
    rewrite select_length in E by (rewrite length_map; symmetry; exact L).
    rewrite filter_id_map in E.
    pose proof (filter_witness (okey_eqb k) by_ k Hk (okey_eqb_refl k)) as H.
    simpl in E. lia.
Qed.

End Groups.

(** X17.  A bar chart of the dashboard has one group for each distinct
    value of its column, the missing value included: the groups come in
    ascending order of the value with the missing one last, every row
    of the filtered table is in exactly one group, no group is empty,
    and the sizes of the groups add up to the number of rows. *)
Theorem chart_groups_partition_rows
    (d : Pandas.DataFrame) (by_ : string) (kc : Pandas.column)
    (gs : list (option Pandas.key * list (option Q))) :
  Pandas.well_formed d ->
  Pandas.lookup by_ (Pandas.cols d) = Some kc ->
  App.claim_groups by_ d = Ok gs ->
  ordered (map fst gs)
  /\ (forall k, In k (Pandas.keys_of kc) ->
        length (filter (fun g => Pandas.okey_eqb k (fst g)) gs) = 1%nat)
  /\ (forall g, In g gs -> In (fst g) (Pandas.keys_of kc) /\ snd g <> [])
  /\ list_sum (map (fun g => length (snd g)) gs) = Pandas.len d.
Proof.
  intros W Hk H.
  pose proof (dashboard_groups_partition d by_ gs W H) as P.
  unfold App.claim_groups in H.
  bind_inv H. bind_inv H. bind_inv H.
  apply (f_equal (fun r => match r with Ok x => x | Raise _ => gs end)) in H.
  apply getitem_Ok in E, E0. rewrite Hk in E.
  apply (f_equal (fun o => match o with Some c => c | None => kc end)) in E.
  subst a.
  assert (L : length a1 = length (Pandas.keys_of kc)).
  { rewrite keys_of_length, (numeric_length _ _ E1).
    rewrite (well_formed_lookup _ _ _ W Hk), (well_formed_lookup _ _ _ W E0).
    reflexivity. }
  destruct (groupby_groups (Pandas.keys_of kc) a1 L) as [G1 [G2 G3]].
  rewrite H in G1, G2, G3. repeat split; try assumption.
  - apply G3. assumption.
  - apply G3. assumption.
Qed.

(** The theorem at the ages of a table of three rows, one of them
    missing. *)
Lemma chart_groups_partition_rows_witness :
  App.claim_groups "age" dashboard_table
  = Ok [(Some (Pandas.KStr "old"), [None]);
        (Some (Pandas.KStr "young"), [Some 1%Q]);
        (None, [Some 0%Q])]
  /\ ordered [Some (Pandas.KStr "old"); Some (Pandas.KStr "young"); None].
Proof.
  assert (H : App.claim_groups "age" dashboard_table
              = Ok [(Some (Pandas.KStr "old"), [None]);
                    (Some (Pandas.KStr "young"), [Some 1%Q]);
                    (None, [Some 0%Q])]) by (vm_compute; reflexivity).
  split; [exact H|].
  refine (proj1 (chart_groups_partition_rows dashboard_table "age" _ _ _ eq_refl H)).
  repeat constructor.
Defined.

(* ================================================================= *)
(** ** The dashboard: the bars of a chart *)

Section Bars.

Import Pandas App.
Local Open Scope Q_scope.

Lemma mean_binary (flag : list (option Q)) (m : Q) :
  binary flag -> mean flag = Some m -> 0 <= m /\ m <= 1.
Proof.
  intros H. unfold mean, mean_of.
  destruct (dropna flag) as [|v vs] eqn:E; [discriminate|].
  rewrite <- E. intros Hm.
  apply (f_equal (fun o => match o with Some x => x | None => m end)) in Hm.
  subst m.
  pose proof (sum_dropna_binary flag H) as Hs.
  pose proof (ones_le_valid flag) as Ho.
  assert (Hn : 0 < inject_Z (Z.of_nat (length (dropna flag)))).
  { change 0 with (inject_Z 0). rewrite <- Zlt_Qlt. rewrite E. simpl. lia. }
  assert (H0 : 0 <= inject_Z (Z.of_nat (ones flag))).
  { change 0 with (inject_Z 0). rewrite <- Zle_Qle. lia. }
  assert (H1 : inject_Z (Z.of_nat (ones flag))
               <= inject_Z (Z.of_nat (length (dropna flag)))).
  { rewrite <- Zle_Qle. lia. }
  set (n := inject_Z (Z.of_nat (length (dropna flag)))) in *.
  set (k := inject_Z (Z.of_nat (ones flag))) in *.
  rewrite Qred_correct. split.
  - apply Qle_shift_div_l; [exact Hn|]. rewrite Hs. lra.
  - apply Qle_shift_div_r; [exact Hn|]. rewrite Hs. lra.
Qed.

Lemma group_binary (dropna : bool) (ks : list (option key))
    (flag : list (option Q)) (g : option key * list (option Q)) :
  binary flag -> In g (groupby dropna ks flag) -> binary (snd g).
Proof. intros H Hg x Hx. apply H. eapply groupby_members; eauto. Qed.

(** The table of a bar chart. *)
Lemma chart_of_inv (by_ : string) (d g : DataFrame) (flag : list (option Q)) :
  by_ <> "claim_rate" ->
  lookup "claim_flag" (cols d) = Some (NumCol flag) ->
  chart_of by_ d = Ok g ->
  exists kc gs,
    lookup by_ (cols d) = Some kc
    /\ claim_groups by_ d = Ok gs
    /\ gs = groupby false (keys_of kc) flag
    /\ g = mkTable (seq 0 (length gs))
             [(by_, key_column kc (map fst gs));
              ("claim_rate",
               NumCol (map (fun kv => option_map (fun q => q * 100) (mean (snd kv)))
                           gs))].
Proof.
  intros Hn Hf H. unfold chart_of in H.
  bind_inv H. rename a into g0, E into Hg.
  unfold grouped_mean in Hg. bind_inv Hg. rename a into kc, E into Hk.
  bind_inv Hg. rename a into gs, E into Hgs.
  apply (f_equal (fun r => match r with Ok x => x | Raise _ => g0 end)) in Hg.
  subst g0. apply getitem_Ok in Hk.
  assert (Ec : lookup "claim_rate"
                 [(by_, key_column kc (map fst gs));
                  ("claim_rate", NumCol (map (fun kv => mean (snd kv)) gs))]
               = Some (NumCol (map (fun kv => mean (snd kv)) gs))).
  { cbn [lookup]. apply not_eq_sym in Hn. apply String.eqb_neq in Hn.
    rewrite Hn, String.eqb_refl. reflexivity. }
  unfold getitem in H. cbn [cols] in H. rewrite Ec in H. cbn [bind numeric] in H.
  apply (f_equal (fun r => match r with Ok x => x | Raise _ => g end)) in H.
  exists kc, gs. split; [exact Hk|]. split; [exact Hgs|]. split.
  - unfold claim_groups, getitem in Hgs. rewrite Hk, Hf in Hgs.
    cbn [bind numeric] in Hgs.
    apply (f_equal (fun r => match r with Ok x => x | Raise _ => gs end)) in Hgs.
    symmetry. exact Hgs.
  - rewrite <- H. unfold setitem. cbn [index cols update].
    apply String.eqb_neq in Hn. rewrite String.eqb_sym, Hn, String.eqb_refl.
    rewrite map_map. reflexivity.
Qed.

(** The bars of groups of binary flags. *)
Lemma bars_of_groups (gs : list (option key * list (option Q))) :
  (forall grp, In grp gs -> binary (snd grp)) ->
  Forall2 (fun grp r =>
             percentage r /\ (r = None <-> Forall (fun x => x = None) (snd grp)))
          gs
          (map (fun kv => option_map (fun q => q * 100) (mean (snd kv))) gs).
Proof.
  induction gs as [|grp r IH]; intros B; [constructor|].
  cbn [map]. constructor; [|apply IH; intros; apply B; right; assumption].
  specialize (B grp (or_introl eq_refl)).
  destruct (mean (snd grp)) as [m|] eqn:Em; cbn [option_map].
  - split.
    + right. exists (m * 100). split; [reflexivity|].
      destruct (mean_binary _ _ B Em) as [M0 M1]. split; lra.
    + split; [discriminate|]. intros A.
      unfold mean in Em. rewrite (dropna_all_missing _ A) in Em.
      discriminate.
  - split; [left; reflexivity|]. split; [|reflexivity]. intros _.
    unfold mean, mean_of in Em.
    destruct (dropna (snd grp)) eqn:Ed; [|discriminate].
    clear -Ed. induction (snd grp) as [|[q|] t IHt]; [constructor|discriminate|].
    constructor; [reflexivity | apply IHt; exact Ed].
Qed.

End Bars.

(** X18.  A bar chart of the callback draws a table of two columns, the
    grouping column and [claim_rate], with one row for each group.
    When the flags of the filtered table are all missing, 0 or 1, every
    bar is a percentage between 0 and 100, or missing; it is missing
    exactly for a group all of whose flags are missing. *)
Theorem bars_are_percentages
    (by_ : string) (l : App.loc) (s : App.state) (g : Pandas.DataFrame)
    (flag : list (option Q)) :
  by_ <> "claim_rate" ->
  Pandas.lookup "claim_flag" (Pandas.cols (nth l (App.heap s) App.empty_frame))
  = Some (Pandas.NumCol flag) ->
  binary flag ->
  fst (App.claim_rate_chart by_ l s) = Ok g ->
  exists gs rates,
    App.claim_groups by_ (nth l (App.heap s) App.empty_frame) = Ok gs
    /\ Pandas.columns g = [by_; "claim_rate"]
    /\ Pandas.len g = length gs
    /\ Pandas.lookup "claim_rate" (Pandas.cols g) = Some (Pandas.NumCol rates)
    /\ Forall2 (fun grp r =>
                  percentage r
                  /\ (r = None <-> Forall (fun x => x = None) (snd grp)))
               gs rates.
Proof.
  intros Hn Hf Hb H.
  destruct (chart_spec by_ l s) as [s' [E _]]. rewrite E in H. cbn [fst] in H.
  destruct (chart_of_inv by_ _ g flag Hn Hf H) as [kc [gs [Hk [Hgs [Eg ->]]]]].
  exists gs. eexists. split; [exact Hgs|]. split; [reflexivity|].
  split; [unfold Pandas.len; cbn [Pandas.index]; apply length_seq|].
  split.
  - cbn [Pandas.cols Pandas.lookup].
    apply not_eq_sym in Hn. apply String.eqb_neq in Hn.
    rewrite Hn, String.eqb_refl. reflexivity.
  - apply bars_of_groups. intros grp Hg. rewrite Eg in Hg.
    eapply group_binary; eauto.
Qed.

(** The theorem at the ages of a table of three rows. *)
Lemma bars_are_percentages_witness :
  exists g rates,
    fst (App.claim_rate_chart "age" 0%nat dashboard_state) = Ok g
    /\ Pandas.lookup "claim_rate" (Pandas.cols g) = Some (Pandas.NumCol rates)
    /\ Pandas.len g = 3%nat.
Proof.
  assert (H : fst (App.claim_rate_chart "age" 0%nat dashboard_state)
              = Ok (Pandas.mkTable [0; 1; 2]%nat
                      [("age", Pandas.ObjCol [Some "old"; Some "young"; None]);
                       ("claim_rate", Pandas.NumCol [None; Some 100; Some 0]%Q)]))
    by (vm_compute; reflexivity).
  assert (B : binary [Some 1; Some 0; None]%Q)
    by (intros x [<-|[<-|[<-|[]]]]; tauto).
  destruct (bars_are_percentages "age" 0%nat dashboard_state _
              [Some 1; Some 0; None]%Q ltac:(discriminate) eq_refl B H)
    as [gs [rates [_ [_ [L [R _]]]]]].
  eexists. exists rates. split; [exact H|]. split; [exact R|]. reflexivity.
Defined.

(* ================================================================= *)
(** ** The dashboard: the columns the callback needs *)

Section Needs.

Import Pandas App.

Lemma is_num_select (m : list bool) (c : column) :
  is_num (col_select m c) = is_num c.
Proof. destruct c; reflexivity. Qed.

Lemma apply_filter_kind (name : string) (selected : list key) (d d' : DataFrame) :
  apply_filter name selected d = Ok d' ->
  forall n, option_map is_num (lookup n (cols d'))
            = option_map is_num (lookup n (cols d)).
Proof.
  unfold apply_filter. destruct selected as [|x sel]; intros H n.
  - apply (f_equal (fun r => match r with Ok d => d | Raise _ => d end)) in H.
    subst d'. reflexivity.
  - bind_inv H.
    apply (f_equal (fun r => match r with Ok d => d | Raise _ => d end)) in H.
    subst d'. rewrite lookup_filter_rows.
    destruct (lookup n (cols d)); [|reflexivity].
    simpl. rewrite is_num_select. reflexivity.
Qed.

Lemma filtered_df_kind (d d' : DataFrame) (sel : selection) :
  filtered_df d sel = Ok d' ->
  forall n, option_map is_num (lookup n (cols d'))
            = option_map is_num (lookup n (cols d)).
Proof.
  unfold filtered_df. intros H n.
  bind_inv H. bind_inv H. bind_inv H.
  rewrite (apply_filter_kind _ _ _ _ H), (apply_filter_kind _ _ _ _ E1),
    (apply_filter_kind _ _ _ _ E0), (apply_filter_kind _ _ _ _ E).
  reflexivity.
Qed.

Lemma kind_has_column (d d' : DataFrame) (n : string) :
  option_map is_num (lookup n (cols d')) = option_map is_num (lookup n (cols d)) ->
  has_column n d' = has_column n d.
Proof.
  intros H. destruct (has_column n d) eqn:E.
  - apply has_column_true in E. destruct E as [c E]. rewrite E in H.
    apply has_column_true.
    destruct (lookup n (cols d')) as [c'|]; [eauto | discriminate].
  - apply has_column_lookup in E. rewrite E in H. apply has_column_lookup.
    destruct (lookup n (cols d')); [discriminate | reflexivity].
Qed.

Lemma kind_numeric (d d' : DataFrame) (n : string) :
  option_map is_num (lookup n (cols d')) = option_map is_num (lookup n (cols d)) ->
  numeric_if_present n d -> numeric_if_present n d'.
Proof.
  intros H N c' E. rewrite E in H.
  destruct (lookup n (cols d)) as [c|] eqn:Ec; [|discriminate].
  simpl in H. injection H as ->. apply (N c Ec).
Qed.

Lemma chart_of_column (by_ : string) (d g : DataFrame) :
  chart_of by_ d = Ok g -> has_column by_ d = true.
Proof.
  unfold chart_of, grouped_mean. intros H. bind_inv H. bind_inv E.
  apply getitem_Ok in E0. apply has_column_true. eauto.
Qed.

Lemma chart_of_Ok (by_ : string) (d : DataFrame) :
  by_ <> "claim_rate" ->
  has_column by_ d = true -> has_column "claim_flag" d = true ->
  numeric_if_present "claim_flag" d ->
  exists g, chart_of by_ d = Ok g.
Proof.
  intros Hn Hb Hf N.
  apply has_column_true in Hb, Hf. destruct Hb as [kc Hk], Hf as [fc Hfc].
  pose proof (N fc Hfc) as Hnum. destruct fc as [flag|xs]; [|discriminate].
  unfold chart_of, grouped_mean, claim_groups, getitem.
  rewrite Hk, Hfc. cbn [bind numeric cols lookup].
  apply not_eq_sym in Hn. apply String.eqb_neq in Hn.
  rewrite Hn, String.eqb_refl. cbn [bind numeric]. eauto.
Qed.

Lemma calculate_metrics_mileage (d : DataFrame) (m : metrics) :
  calculate_metrics d = Ok m ->
  has_column "claim_flag" d = true
  /\ (avg_mileage m <> None -> has_column "annual_mileage" d = true).
Proof.
  unfold calculate_metrics. intros H.
  bind_inv H. rename E into Hf. bind_inv H. bind_inv H.
  apply (f_equal (fun r => match r with Ok x => x | Raise _ => m end)) in H.
  subst m. cbn [avg_mileage]. split.
  - unfold claim_flag in Hf. bind_inv Hf. apply getitem_Ok in E1.
    apply has_column_true. eauto.
  - intros Hm. unfold average in E0.
    destruct (lookup "annual_mileage" (cols d)) as [c|] eqn:Ec.
    + apply has_column_true. eauto.
    + injection E0 as <-. congruence.
Qed.

Lemma average_Ok (name : string) (d : DataFrame) :
  numeric_if_present name d ->
  exists r, average name d = Ok r
            /\ (has_column name d = true -> r <> None).
Proof.
  intros N. unfold average.
  destruct (lookup name (cols d)) as [c|] eqn:E.
  - pose proof (N c E) as Hc. destruct c as [xs|xs]; [|discriminate].
    cbn [numeric bind]. eexists. split; [reflexivity|]. discriminate.
  - exists None. split; [reflexivity|]. intros H.
    apply has_column_true in H. destruct H as [c H]. congruence.
Qed.

Lemma box_of_Ok (x y : string) (d : DataFrame) :
  (exists b, box_of x y d = Ok b)
  <-> (has_column x d = true /\ has_column y d = true).
Proof.
  unfold box_of. rewrite !has_column_true.
  destruct (lookup x (cols d)) as [cx|], (lookup y (cols d)) as [cy|]; split.
  - eauto.
  - eauto.
  - intros [b H]; discriminate.
  - intros [_ [c H]]; discriminate.
  - intros [b H]; discriminate.
  - intros [[c H] _]; discriminate.
  - intros [b H]; discriminate.
  - intros [[c H] _]; discriminate.
Qed.

(** The dashboard exists exactly when the table has the columns. *)
Lemma dashboard_of_Ok (d : DataFrame) (sel : selection) :
  numeric_if_present "claim_flag" d ->
  numeric_if_present "credit_score" d ->
  numeric_if_present "annual_mileage" d ->
  (exists dash, dashboard_of d sel = Ok dash)
  <-> (forall name, In name required_columns -> has_column name d = true).
Proof.
  intros Nf Nc Nm. split.
  - intros [dash H]. apply dashboard_of_inv in H.
    destruct H as [d' [Hd [Hm [Ha [Hg [He [Ho [Hy [Hb Hv]]]]]]]]].
    pose proof (filtered_df_kind _ _ _ Hd) as K.
    assert (C : forall n, has_column n d' = true -> has_column n d = true).
    { intros n Hn. rewrite <- (kind_has_column d d' n (K n)). exact Hn. }
    destruct (calculate_metrics_mileage _ _ Hm) as [Hcf Ham].
    destruct (proj1 (box_of_Ok _ _ _) (ex_intro _ _ Hb)) as [Hcs Hsv].
    intros name Hin. unfold required_columns in Hin. apply C.
    destruct Hin as [<-|[<-|[<-|[<-|[<-|[<-|[<-|[<-|[<-|[]]]]]]]]]];
      eauto using chart_of_column.
  - intros R.
    assert (Hd : exists d', filtered_df d sel = Ok d').
    { destruct (filtered_df d sel) as [d'|e] eqn:E; [eauto|].
      apply filtered_df_Raise in E.
      destruct E as [name [selected [Hin [_ [Hh _]]]]].
      assert (In name required_columns).
      { unfold filters in Hin. unfold required_columns.
        destruct Hin as [Hin|[Hin|[Hin|[Hin|[]]]]]; injection Hin as <- _;
          simpl; tauto. }
      rewrite (R name H) in Hh. discriminate. }
    destruct Hd as [d' Hd].
    pose proof (filtered_df_kind _ _ _ Hd) as K.
    assert (C : forall n, In n required_columns -> has_column n d' = true).
    { intros n Hn. rewrite (kind_has_column d d' n (K n)). apply R, Hn. }
    pose proof (kind_numeric d d' _ (K "claim_flag") Nf) as Nf'.
    pose proof (kind_numeric d d' _ (K "credit_score") Nc) as Nc'.
    pose proof (kind_numeric d d' _ (K "annual_mileage") Nm) as Nm'.
    assert (Cf : has_column "claim_flag" d' = true) by (apply C; simpl; tauto).
    unfold dashboard_of. rewrite Hd. cbn [bind].
    destruct (proj1 (has_column_true _ _) Cf) as [fc Hfc].
    pose proof (Nf' fc Hfc) as Hnum. destruct fc as [flag|xs]; [|discriminate].
    destruct (average_Ok "credit_score" d' Nc') as [cs [Hcs _]].
    destruct (average_Ok "annual_mileage" d' Nm') as [am [Ham Hsome]].
    assert (Hne : am <> None) by (apply Hsome, C; simpl; tauto).
    unfold calculate_metrics. rewrite (claim_flag_lookup _ _ Hfc), Hcs, Ham.
    cbn [bind]. unfold kpi_cards. cbn [avg_mileage].
    destruct am as [v|]; [|congruence]. cbn [bind].
    destruct (chart_of_Ok "age" d') as [a ->];
      [discriminate | apply C; simpl; tauto | exact Cf | exact Nf' |].
    destruct (chart_of_Ok "gender" d') as [g ->];
      [discriminate | apply C; simpl; tauto | exact Cf | exact Nf' |].
    destruct (chart_of_Ok "driving_experience" d') as [e ->];
      [discriminate | apply C; simpl; tauto | exact Cf | exact Nf' |].
    destruct (chart_of_Ok "vehicle_ownership" d') as [o ->];
      [discriminate | apply C; simpl; tauto | exact Cf | exact Nf' |].
    destruct (chart_of_Ok "vehicle_year" d') as [y ->];
      [discriminate | apply C; simpl; tauto | exact Cf | exact Nf' |].
    cbn [bind].
    destruct (proj2 (box_of_Ok "claim_status" "speeding_violations" d')) as [b ->];
      [split; apply C; simpl; tauto|].
    cbn [bind]. eauto.
Qed.

End Needs.

(** X19.  On a table whose [claim_flag], [credit_score] and
    [annual_mileage] are numeric where present, the callback returns
    the cards and the six figures exactly when the table has the nine
    columns it reads, whatever is selected; so without
    [annual_mileage], which [calculate_metrics] allows for, it never
    returns. *)
Theorem callback_returns_iff_columns
    (l : App.loc) (sel : App.selection) (s : App.state) :
  (l < length (App.heap s))%nat ->
  numeric_if_present "claim_flag" (nth l (App.heap s) App.empty_frame) ->
  numeric_if_present "credit_score" (nth l (App.heap s) App.empty_frame) ->
  numeric_if_present "annual_mileage" (nth l (App.heap s) App.empty_frame) ->
  (exists dash, fst (App.update_dashboard l sel s) = Ok dash)
  <-> (forall name, In name required_columns ->
         Pandas.has_column name (nth l (App.heap s) App.empty_frame) = true).
Proof.
  intros Hl Nf Nc Nm.
  destruct (update_dashboard_spec l sel s Hl) as [s' [E _]].
  rewrite E. cbn [fst]. apply dashboard_of_Ok; assumption.
Qed.

(** The theorem at a table of three rows that has the nine columns. *)
Lemma callback_returns_iff_columns_witness :
  exists dash,
    fst (App.update_dashboard 0%nat young_selected dashboard_state) = Ok dash.
Proof.
  refine (proj2 (callback_returns_iff_columns 0%nat young_selected dashboard_state
                   _ _ _ _) _).
  - simpl. lia.
  - intros c Hc. vm_compute in Hc. injection Hc as <-. reflexivity.
  - intros c Hc. vm_compute in Hc. injection Hc as <-. reflexivity.
  - intros c Hc. vm_compute in Hc. injection Hc as <-. reflexivity.
  - intros name Hin. unfold required_columns in Hin.
    destruct Hin as [<-|[<-|[<-|[<-|[<-|[<-|[<-|[<-|[<-|[]]]]]]]]]]; reflexivity.
Defined.

(* ================================================================= *)
(** ** The dashboard: what the callback logs *)

Section Quiet.

Import Pandas App.

Lemma plain_Ok {A} (a : A) : plain (Ok a).
Proof. intros e H. discriminate. Qed.

Lemma plain_bind {A B} (r : result A) (k : A -> result B) :
  plain r -> (forall a, plain (k a)) -> plain (bind r k).
Proof.
  intros Hr Hk e. destruct r as [a|e0]; simpl.
  - apply Hk.
  - intros H. injection H as <-. apply Hr. reflexivity.
Qed.

Lemma plain_getitem {C} (n : string) (d : table C) : plain (getitem n d).
Proof.
  intros e. unfold getitem. destruct (lookup n (cols d)); [discriminate|].
  intros H. injection H as <-. reflexivity.
Qed.

Lemma plain_numeric (c : column) : plain (numeric c).
Proof.
  intros e. destruct c as [xs|xs]; simpl; [discriminate|].
  destruct (forallb isna xs); [discriminate|].
  intros H. injection H as <-. reflexivity.
Qed.

Lemma plain_average (n : string) (d : DataFrame) : plain (average n d).
Proof.
  unfold average. destruct (lookup n (cols d)); [|apply plain_Ok].
  apply plain_bind; [apply plain_numeric | intros; apply plain_Ok].
Qed.

Lemma plain_calculate_metrics (d : DataFrame) : plain (calculate_metrics d).
Proof.
  unfold calculate_metrics, claim_flag.
  repeat (apply plain_bind; [|intros]);
    auto using plain_getitem, plain_numeric, plain_average, plain_Ok.
Qed.

Lemma plain_kpi_cards (m : metrics) : plain (kpi_cards m).
Proof.
  intros e. unfold kpi_cards. destruct (avg_mileage m); [discriminate|].
  intros H. injection H as <-. reflexivity.
Qed.

Lemma plain_grouped_mean (by_ : string) (d : DataFrame) :
  plain (grouped_mean by_ d).
Proof.
  unfold grouped_mean, claim_groups.
  repeat (apply plain_bind; [|intros]);
    auto using plain_getitem, plain_numeric, plain_Ok.
Qed.

Lemma calm_ret {A} (a : A) : calm (ret a).
Proof. intros s. split; [reflexivity | apply plain_Ok]. Qed.

Lemma calm_lift {A} (r : result A) : plain r -> calm (lift r).
Proof. intros H s. split; [reflexivity | exact H]. Qed.

Lemma calm_deref (l : loc) : calm (deref l).
Proof. intros s. split; [reflexivity | apply plain_Ok]. Qed.

Lemma calm_alloc (d : DataFrame) : calm (alloc d).
Proof. intros s. split; [reflexivity | apply plain_Ok]. Qed.

Lemma calm_store (l : loc) (d : DataFrame) : calm (store l d).
Proof. intros s. split; [reflexivity | apply plain_Ok]. Qed.

Lemma calm_bind {A B} (m : M A) (k : A -> M B) :
  calm m -> (forall a, calm (k a)) -> calm (bindM m k).
Proof.
  intros Hm Hk s. unfold bindM. specialize (Hm s).
  destruct (m s) as [[a|e] s1]; cbn [fst snd] in *.
  - destruct Hm as [L _]. destruct (Hk a s1) as [L1 P1].
    split; [congruence | exact P1].
  - destruct Hm as [L P]. split; [exact L|].
    intros e' H. injection H as <-. apply P. reflexivity.
Qed.

Lemma calm_copy (l : loc) : calm (copy l).
Proof. apply calm_bind; [apply calm_deref | intros; apply calm_alloc]. Qed.

Lemma calm_filter_isin (name : string) (selected : list key) (l : loc) :
  calm (filter_isin name selected l).
Proof.
  unfold filter_isin. destruct selected as [|x r]; [apply calm_ret|].
  apply calm_bind; [apply calm_deref | intros d].
  apply calm_bind; [apply calm_lift, plain_getitem | intros c].
  apply calm_alloc.
Qed.

Lemma calm_filtered (df : loc) (sel : selection) : calm (filtered df sel).
Proof.
  unfold filtered.
  apply calm_bind; [apply calm_copy | intros l0].
  apply calm_bind; [apply calm_filter_isin | intros l1].
  apply calm_bind; [apply calm_filter_isin | intros l2].
  apply calm_bind; [apply calm_filter_isin | intros l3].
  apply calm_filter_isin.
Qed.

Lemma calm_metrics_at (l : loc) : calm (calculate_metrics_at l).
Proof.
  apply calm_bind; [apply calm_deref | intros d].
  apply calm_lift, plain_calculate_metrics.
Qed.

Lemma calm_scale (l : loc) : calm (scale_claim_rate l).
Proof.
  unfold scale_claim_rate.
  apply calm_bind; [apply calm_deref | intros g].
  apply calm_bind; [apply calm_lift, plain_getitem | intros c].
  apply calm_bind; [apply calm_lift, plain_numeric | intros xs].
  apply calm_store.
Qed.

Lemma calm_chart (by_ : string) (l : loc) : calm (claim_rate_chart by_ l).
Proof.
  unfold claim_rate_chart.
  apply calm_bind; [apply calm_deref | intros d].
  apply calm_bind; [apply calm_lift, plain_grouped_mean | intros g].
  apply calm_bind; [apply calm_alloc | intros lg].
  apply calm_bind; [apply calm_scale | intros _].
  apply calm_deref.
Qed.

Lemma calm_box (x y : string) (l : loc) : calm (box_chart x y l).
Proof.
  unfold box_chart.
  apply calm_bind; [apply calm_deref | intros d].
  destruct (lookup x (cols d)), (lookup y (cols d));
    try apply calm_ret; apply calm_lift; intros e H; injection H as <-;
    reflexivity.
Qed.

Lemma reports_bind {A B} (msg : string) (m : M A) (k : A -> M B) :
  calm m -> (forall a, reports msg (k a)) -> reports msg (bindM m k).
Proof.
  intros Hm Hk s. unfold bindM. specialize (Hm s).
  destruct (m s) as [[a|e] s1]; cbn [fst snd] in *.
  - destruct Hm as [L _]. specialize (Hk a s1). rewrite L in Hk. exact Hk.
  - destruct Hm as [L P]. split; [exact L | apply P; reflexivity].
Qed.

Lemma reports_logging {A} (msg : string) (a : A) :
  reports msg (bindM (logging INFO msg) (fun _ => ret a)).
Proof. intros s. reflexivity. Qed.

Lemma reports_update_body (df : loc) (sel : selection) :
  reports "Dashboard updated successfully with current filter selection."
          (update_body df sel).
Proof.
  unfold update_body.
  apply reports_bind; [apply calm_filtered | intros l].
  apply reports_bind; [apply calm_metrics_at | intros m].
  apply reports_bind; [apply calm_lift, plain_kpi_cards | intros k].
  apply reports_bind; [apply calm_chart | intros a].
  apply reports_bind; [apply calm_chart | intros g].
  apply reports_bind; [apply calm_chart | intros e].
  apply reports_bind; [apply calm_chart | intros o].
  apply reports_bind; [apply calm_chart | intros y].
  apply reports_bind; [apply calm_box | intros b].
  apply reports_logging.
Qed.

End Quiet.

(** X20.  Every call of the callback adds exactly one record to the
    log: an INFO record when it returns, an ERROR record when it fails.
    A failure is raised again as it was, and it is never a
    [SystemExit]. *)
Theorem callback_logs_outcome
    (df : App.loc) (sel : App.selection) (s : App.state) :
  match fst (App.update_dashboard df sel s) with
  | Ok _ =>
      App.logged (snd (App.update_dashboard df sel s))
      = App.logged s
        ++ [(INFO, "Dashboard updated successfully with current filter selection.")]
  | Raise e =>
      App.logged (snd (App.update_dashboard df sel s))
      = App.logged s ++ [(ERROR, "Dashboard update failed")]
      /\ is_exception e = true
      /\ fst (App.update_body df sel s) = Raise e
  end.
Proof.
  pose proof (reports_update_body df sel s) as H.
  unfold App.update_dashboard.
  destruct (App.update_body df sel s) as [[dash|e] s1]; cbn [fst snd] in *.
  - exact H.
  - destruct H as [L P]. rewrite P. cbn [fst snd App.logged].
    rewrite L. repeat split. exact P.
Qed.

(* ================================================================= *)
(** ** The dashboard: the options of the dropdowns *)

Section Options.

Import Pandas App.

Lemma key_eqb_refl (k : key) : key_eqb k k = true.
Proof. destruct k; simpl; [apply Qeq_bool_refl | apply String.eqb_refl]. Qed.

Lemma key_eqb_trans (i j k : key) :
  key_eqb i j = true -> key_eqb j k = true -> key_eqb i k = true.
Proof.
  destruct i, j, k; simpl; try discriminate.
  - apply Qeq_bool_trans.
  - intros H1 H2. apply String.eqb_eq in H1, H2. subst. apply String.eqb_refl.
Qed.

Lemma In_insert_value (x k : key) (ks : list key) :
  In x (insert_value k ks) <-> x = k \/ In x ks.
Proof.
  induction ks as [|j r IH]; simpl; [intuition congruence|].
  destruct (key_leb k j); simpl; [intuition congruence|].
  rewrite IH. intuition congruence.
Qed.

Lemma In_sorted (x : key) (ks : list key) : In x (sorted ks) <-> In x ks.
Proof.
  induction ks as [|k r IH]; [tauto|].
  unfold sorted in *. cbn [fold_right]. rewrite In_insert_value, IH.
  simpl. intuition congruence.
Qed.

Lemma In_dropna {A} (x : A) (xs : list (option A)) :
  In x (dropna xs) <-> In (Some x) xs.
Proof.
  induction xs as [|[a|] r IH]; simpl; [tauto| |].
  - rewrite IH. intuition congruence.
  - rewrite IH. intuition congruence.
Qed.

(** The options of a column. *)
Lemma options_inv (name : string) (d : DataFrame) (c : column) (opts : list key) :
  lookup name (cols d) = Some c ->
  options name d = Ok opts ->
  (forall k, In k opts -> In (Some k) (keys_of c))
  /\ (forall k, In (Some k) (keys_of c) -> existsb (key_eqb k) opts = true).
Proof.
  intros Hc H. unfold options, getitem in H. rewrite Hc in H. cbn [bind] in H.
  apply (f_equal (fun r => match r with Ok x => x | Raise _ => opts end)) in H.
  subst opts. split.
  - intros k Hk. apply (proj1 (In_sorted _ _)) in Hk. unfold unique in Hk.
    apply select_In in Hk. apply (proj1 (In_dropna _ _)), Hk.
  - intros k Hk. apply (proj2 (In_dropna _ _)) in Hk.
    destruct (unique_covers key_eqb key_eqb_refl key_eqb_trans _ k Hk)
      as [y [Hy Ey]].
    apply existsb_exists. exists y. split; [apply In_sorted, Hy | exact Ey].
Qed.

End Options.

(** X21.  The options of a dropdown are values of its column, and every
    value present in the column is one of them.  So a selection of all
    the options keeps exactly the rows whose value is present: it is
    not the empty selection, which keeps the rows with a missing value
    too. *)
Theorem all_options_keep_present_rows
    (name : string) (d : Pandas.DataFrame) (c : Pandas.column)
    (opts : list Pandas.key) :
  Pandas.lookup name (Pandas.cols d) = Some c ->
  App.options name d = Ok opts ->
  (forall k, In k opts -> In (Some k) (Pandas.keys_of c))
  /\ Pandas.isin opts c = map (fun k => negb (Pandas.isna k)) (Pandas.keys_of c)
  /\ (opts <> [] ->
      apply_filter name opts d
      = Ok (Pandas.filter_rows
              (map (fun k => negb (Pandas.isna k)) (Pandas.keys_of c)) d))
  /\ apply_filter name [] d = Ok d.
Proof.
  intros Hc H. destruct (options_inv name d c opts Hc H) as [H1 H2].
  assert (E : Pandas.isin opts c
              = map (fun k => negb (Pandas.isna k)) (Pandas.keys_of c)).
  { unfold Pandas.isin. apply map_ext_in. intros [k|] Hk; [|reflexivity].
    simpl. apply H2, Hk. }
  split; [exact H1|]. split; [exact E|]. split; [|reflexivity].
  intros Hne. unfold apply_filter, Pandas.getitem. rewrite Hc.
  destruct opts as [|x r]; [congruence|]. cbn [bind]. rewrite E. reflexivity.
Qed.

(** The theorem at the ages of a table of three rows, one of them
    missing. *)
Lemma all_options_keep_present_rows_witness :
  App.options "age" dashboard_table
  = Ok [Pandas.KStr "old"; Pandas.KStr "young"]
  /\ Pandas.isin [Pandas.KStr "old"; Pandas.KStr "young"]
       (Pandas.ObjCol [Some "young"; None; Some "old"])
     = [true; false; true].
Proof.
  assert (H : App.options "age" dashboard_table
              = Ok [Pandas.KStr "old"; Pandas.KStr "young"])
    by (vm_compute; reflexivity).
  split; [exact H|].
  exact (proj1 (proj2 (all_options_keep_present_rows "age" dashboard_table
                         (Pandas.ObjCol [Some "young"; None; Some "old"]) _
                         eq_refl H))).
Defined.

(* ================================================================= *)
(** ** The summary: the claim rate of a text status *)

Section SummaryRate.

Import Pandas.
Local Open Scope Q_scope.

Lemma sum_indicator (bs : list bool) :
  PyNum.sum (map MetricsSummary.indicator bs)
  == inject_Z (Z.of_nat (length (filter id bs))).
Proof.
  induction bs as [|b r IH]; [reflexivity|].
  destruct b.
  - change (1 + PyNum.sum (map MetricsSummary.indicator r)
            == inject_Z (Z.of_nat (S (length (filter id r))))).
    rewrite inject_S, IH. reflexivity.
  - change (0 + PyNum.sum (map MetricsSummary.indicator r)
            == inject_Z (Z.of_nat (length (filter id r)))).
    rewrite IH. ring.
Qed.

Lemma total_claims_text (xs : list (option string)) :
  MetricsSummary.total_claims (ObjCol xs) == inject_Z (Z.of_nat (claims_in xs)).
Proof.
  unfold MetricsSummary.total_claims, claims_in.
  rewrite sum_indicator, filter_id_map. reflexivity.
Qed.

Lemma claims_in_le (xs : list (option string)) :
  (claims_in xs <= length xs)%nat.
Proof. apply filter_length_le. Qed.

Lemma mean_of_nonempty (v : list Q) :
  v <> [] ->
  mean_of v = Some (Qred (PyNum.sum v / inject_Z (Z.of_nat (length v)))).
Proof. destruct v; [congruence | reflexivity]. Qed.

Lemma claim_rate_text (x : option string) (r : list (option string)) :
  MetricsSummary.claim_rate (ObjCol (x :: r))
  = Some (Qred (Qred (MetricsSummary.total_claims (ObjCol (x :: r))
                      / inject_Z (Z.of_nat (length (x :: r)))) * 100)).
Proof.
  unfold MetricsSummary.claim_rate, MetricsSummary.bool_mean,
    MetricsSummary.total_claims, MetricsSummary.scale.
  rewrite mean_of_nonempty by discriminate.
  rewrite !length_map. reflexivity.
Qed.

End SummaryRate.

(** X22.  For a text [claim_status] the summary counts as claims the
    cells whose lower case is [claim], and its claim rate is 100 times
    that count over the number of all rows, the rows with a missing or
    unknown status included; it lies between 0 and 100, and it is NaN
    for a table without rows. *)
Theorem summary_rate_of_text_status (xs : list (option string)) :
  (MetricsSummary.total_claims (Pandas.ObjCol xs)
   == inject_Z (Z.of_nat (claims_in xs)))%Q
  /\ MetricsSummary.claim_rate (Pandas.ObjCol []) = None
  /\ (xs <> [] ->
      exists r,
        MetricsSummary.claim_rate (Pandas.ObjCol xs) = Some r
        /\ (r == 100 * inject_Z (Z.of_nat (claims_in xs))
                 / inject_Z (Z.of_nat (length xs)))%Q
        /\ (0 <= r)%Q /\ (r <= 100)%Q).
Proof.
  split; [apply total_claims_text|]. split; [reflexivity|].
  intros Hne. destruct xs as [|x r]; [congruence|].
  rewrite claim_rate_text. eexists. split; [reflexivity|].
  rewrite !Qred_correct, total_claims_text.
  pose proof (claims_in_le (x :: r)) as Hle.
  assert (Hn : (0 < inject_Z (Z.of_nat (length (x :: r))))%Q).
  { change 0%Q with (inject_Z 0). rewrite <- Zlt_Qlt. simpl. lia. }
  assert (H0 : (0 <= inject_Z (Z.of_nat (claims_in (x :: r))))%Q).
  { change 0%Q with (inject_Z 0). rewrite <- Zle_Qle. lia. }
  assert (H1 : (inject_Z (Z.of_nat (claims_in (x :: r)))
                <= inject_Z (Z.of_nat (length (x :: r))))%Q).
  { rewrite <- Zle_Qle. lia. }
  set (n := inject_Z (Z.of_nat (length (x :: r)))) in *.
  set (k := inject_Z (Z.of_nat (claims_in (x :: r)))) in *.
  assert (Hm0 : (0 <= k / n)%Q) by (apply Qle_shift_div_l; [exact Hn | lra]).
  assert (Hm1 : (k / n <= 1)%Q) by (apply Qle_shift_div_r; [exact Hn | lra]).
  split; [|split; lra].
  field. intros E. rewrite E in Hn. revert Hn. apply Qlt_irrefl.
Qed.

(** The theorem at a status of five rows with three claims, one of the
    rows missing. *)
Lemma summary_rate_of_text_status_witness :
  exists r,
    MetricsSummary.claim_rate
      (Pandas.ObjCol [Some "claim"; Some "no claim"; Some "claim"; Some "claim"; None])
    = Some r
    /\ (r == 60)%Q.
Proof.
  destruct (proj2 (proj2 (summary_rate_of_text_status
              [Some "claim"; Some "no claim"; Some "claim"; Some "claim"; None]))
              ltac:(discriminate)) as [r [Hr [Er _]]].
  exists r. split; [exact Hr|]. rewrite Er. reflexivity.
Defined.

Section Agreement.

Import Pandas.
Local Open Scope Q_scope.

Lemma flag_labelled (x : option string) :
  labelled x ->
  App.flag_of_text (PyStr.str x)
  = Some (MetricsSummary.indicator (MetricsSummary.is_claim x))
  /\ Visualization.to_num x
     = MetricsSummary.indicator (MetricsSummary.is_claim x).
Proof.
  intros [s [-> H]].
  unfold App.flag_of_text, Visualization.to_num, MetricsSummary.is_claim.
  cbn [PyStr.str]. cbv zeta. destruct H as [H|H]; rewrite H; split; reflexivity.
Qed.

Lemma claim_flag_labelled (xs : list (option string)) :
  (forall x, In x xs -> labelled x) ->
  App.claim_flag_of (ObjCol xs)
  = map (fun x => Some (MetricsSummary.indicator (MetricsSummary.is_claim x))) xs
  /\ Visualization.claim_status_num (ObjCol xs) = App.claim_flag_of (ObjCol xs).
Proof.
  intros H. unfold App.claim_flag_of, Visualization.claim_status_num. split.
  - apply map_ext_in. intros x Hx. apply (flag_labelled x (H x Hx)).
  - apply map_ext_in. intros x Hx.
    destruct (flag_labelled x (H x Hx)) as [-> ->]. reflexivity.
Qed.

Lemma dropna_map_Some {A B} (f : A -> B) (xs : list A) :
  dropna (map (fun x => Some (f x)) xs) = map f xs.
Proof. induction xs as [|x r IH]; simpl; [reflexivity | rewrite IH; reflexivity]. Qed.

Lemma rate_of_labelled (x : option string) (r : list (option string)) :
  (forall y, In y (x :: r) -> labelled y) ->
  option_map F64.round2 (MetricsSummary.claim_rate_double (ObjCol (x :: r)))
  = Some (App.rate_of (App.claim_flag_of (ObjCol (x :: r)))).
Proof.
  intros H. destruct (claim_flag_labelled _ H) as [E _]. rewrite E.
  unfold App.rate_of. rewrite dropna_map_Some.
  unfold MetricsSummary.claim_rate_double.
  rewrite map_map.
  set (v := map (fun y => MetricsSummary.indicator (MetricsSummary.is_claim y))
                (x :: r)).
  assert (Hv : exists m, F64.mean_of v = Some m).
  { unfold F64.mean_of, v. cbn [map]. eauto. }
  destruct Hv as [m ->]. reflexivity.
Qed.

End Agreement.

(** X23.  On a table whose [claim_status] is text and holds one of the
    two labels in every row, the three scripts agree: the claim rate
    of the summary table is the claim rate on the cards of the
    dashboard when nothing is selected, and the indicator of the
    charts is the flag of the dashboard. *)
Theorem scripts_agree_on_labelled_status
    (df df' : Pandas.DataFrame) (xs : list (option string)) (m : App.metrics) :
  Pandas.lookup "claim_status" (Pandas.cols df) = Some (Pandas.ObjCol xs) ->
  xs <> [] ->
  (forall x, In x xs -> labelled x) ->
  snd (App.prepare (Ok df)) = Ok df' ->
  App.calculate_metrics df' = Ok m ->
  MetricsSummary.summary_claim_rate df = Ok (Some (App.claim_rate m))
  /\ Pandas.lookup "claim_flag" (Pandas.cols df')
     = Some (Pandas.NumCol (Visualization.claim_status_num (Pandas.ObjCol xs)))
  /\ (inject_Z (App.total_claims m)
      == MetricsSummary.total_claims (Pandas.ObjCol xs))%Q.
Proof.
  intros Hc Hne Hl Hp Hm.
  assert (Hf : Pandas.lookup "claim_flag" (Pandas.cols df')
               = Some (Pandas.NumCol (App.claim_flag_of (Pandas.ObjCol xs)))).
  { pose proof (lookup_readable_claim_status (App.rename_outcome df)) as Hr.
    rewrite lookup_rename_outcome, Hc in Hr.
    rewrite prepare_Ok in Hp. cbv zeta in Hp. rewrite Hr in Hp. cbn [snd] in Hp.
    apply (f_equal (fun r => match r with Ok d => d | Raise _ => df end)) in Hp.
    subst df'. rewrite lookup_setitem. reflexivity. }
  destruct (claim_flag_labelled xs Hl) as [Ef Ev].
  destruct (calculate_metrics_inv _ _ Hm) as [flag [Hfl [_ [Ht Hr]]]].
  rewrite (claim_flag_lookup _ _ Hf) in Hfl.
  apply (f_equal (fun r => match r with Ok x => x | Raise _ => flag end)) in Hfl.
  subst flag. split; [|split].
  - unfold MetricsSummary.summary_claim_rate, Pandas.getitem.
    rewrite Hc. cbn [bind]. rewrite Hr.
    destruct xs as [|x r]; [congruence|]. rewrite (rate_of_labelled x r Hl).
    reflexivity.
  - rewrite Ev. exact Hf.
  - rewrite Ht, count_claims_binary by apply claim_flag_of_binary.
    rewrite total_claims_text. unfold claims_in, ones. rewrite Ef.
    assert (E : length (filter (fun x => match x with
                                         | Some q => Qeq_bool q 1
                                         | None => false
                                         end)
                          (map (fun x => Some (MetricsSummary.indicator
                                                 (MetricsSummary.is_claim x))) xs))
                = length (filter MetricsSummary.is_claim xs)).
    { clear. induction xs as [|x r IH]; [reflexivity|].
      cbn [map filter]. destruct (MetricsSummary.is_claim x); cbn; rewrite IH;
        reflexivity. }
    rewrite E. reflexivity.
Qed.

(** The theorem at a table of three rows, two of them claims. *)
Lemma scripts_agree_on_labelled_status_witness :
  MetricsSummary.summary_claim_rate labelled_table = Ok (Some (6667 # 100)%Q).
Proof.
  assert (Hp : exists df', snd (App.prepare (Ok labelled_table)) = Ok df'
                           /\ App.calculate_metrics df'
                              = Ok (App.mkMetrics 3 2 (6667 # 100) None None)).
  { eexists. split; [vm_compute; reflexivity|]. vm_compute. reflexivity. }
  destruct Hp as [df' [Hp Hm]].
  refine (proj1 (scripts_agree_on_labelled_status labelled_table df'
                   [Some "Claim"; Some "no claim"; Some "claim"] _
                   eq_refl _ _ Hp Hm)).
  - discriminate.
  - intros x [<-|[<-|[<-|[]]]]; eexists; split; try reflexivity; simpl; tauto.
Defined.

(* ================================================================= *)
(** ** The summary and the charts: groups without the missing key *)

Section PresentKeys.

Import Pandas.

Lemma sum_filter_weights {K} (f : K -> nat) (p : K -> bool) (ks : list K) :
  list_sum (map f (filter p ks))
  = list_sum (map (fun k => if p k then f k else 0%nat) ks).
Proof.
  induction ks as [|k r IH]; [reflexivity|].
  simpl. destruct (p k); simpl; rewrite IH; reflexivity.
Qed.

Lemma list_sum_split {K} (f g h : K -> nat) (ks : list K) :
  (forall k, (f k + g k = h k)%nat) ->
  (list_sum (map f ks) + list_sum (map g ks) = list_sum (map h ks))%nat.
Proof.
  intros H. induction ks as [|k r IH]; [reflexivity|].
  simpl. specialize (H k). lia.
Qed.

Lemma isna_okey (k : option key) : isna k = okey_eqb None k.
Proof. destruct k; reflexivity. Qed.

Lemma sum_missing_weight (c : nat) (ks : list (option key)) :
  list_sum (map (fun k => if isna k then c else 0%nat) ks)
  = (length (filter isna ks) * c)%nat.
Proof.
  induction ks as [|k r IH]; [reflexivity|].
  simpl. destruct (isna k); simpl; rewrite IH; lia.
Qed.

(** The rows of the missing key are the group of the missing key, if
    there is one. *)
Lemma missing_group_size (by_ : list (option key)) :
  list_sum (map (fun k => if isna k then group_size okey_eqb by_ k else 0%nat)
                (unique okey_eqb by_))
  = length (filter isna by_).
Proof.
  rewrite (map_ext _ (fun k => if isna k then group_size okey_eqb by_ None
                               else 0%nat))
    by (intros [k|]; reflexivity).
  rewrite sum_missing_weight.
  assert (G : group_size okey_eqb by_ None = length (filter isna by_)).
  { unfold group_size. apply filter_same. intros y. symmetry. apply isna_okey. }
  rewrite G.
  pose proof (kept_at_most_once okey_eqb okey_eqb_sym okey_eqb_trans by_ [] None)
    as H1.
  unfold kept in H1. fold (duplicated okey_eqb by_) in H1.
  fold (unique okey_eqb by_) in H1.
  rewrite (filter_same (okey_eqb None) isna) in H1
    by (intros y; symmetry; apply isna_okey).
  destruct (length (filter isna by_)) as [|n] eqn:E; [lia|].
  assert (Hin : In None by_).
  { destruct (filter isna by_) as [|y t] eqn:F; [discriminate|].
    assert (Hy : In y (filter isna by_)) by (rewrite F; left; reflexivity).
    apply filter_In in Hy. destruct Hy as [Hy Hn].
    destruct y; [discriminate | exact Hy]. }
  destruct (unique_covers okey_eqb okey_eqb_refl okey_eqb_trans by_ None Hin)
    as [y [Hy Ey]].
  pose proof (filter_witness (okey_eqb None) _ y Hy Ey) as H2.
  rewrite (filter_same (okey_eqb None) isna) in H2
    by (intros z; symmetry; apply isna_okey).
  assert (length (filter isna (unique okey_eqb by_)) = 1%nat) as -> by lia.
  lia.
Qed.

Lemma present_split {A} (xs : list (option A)) :
  (length (dropna xs) + length (filter isna xs) = length xs)%nat.
Proof. induction xs as [|[a|] r IH]; simpl; lia. Qed.

(** Without the group of the missing key, the sizes of the groups add
    up to the number of rows whose key is present. *)
Lemma groupby_present_partition {V} (by_ : list (option key)) (val : list V) :
  length val = length by_ ->
  list_sum (map (fun g => length (snd g)) (groupby true by_ val))
  = length (dropna by_).
Proof.
  intros L. unfold groupby. rewrite map_map. cbn [snd].
  rewrite (map_ext _ (group_size okey_eqb by_)).
  2:{ intros k. rewrite select_length by (rewrite length_map; auto).
      apply filter_id_map. }
  rewrite sum_filter_weights.
  rewrite (list_sum_sort_keys
             (fun k => if negb (isna k) then group_size okey_eqb by_ k else 0%nat)).
  pose proof (list_sum_split
                (fun k => if negb (isna k) then group_size okey_eqb by_ k else 0%nat)
                (fun k => if isna k then group_size okey_eqb by_ k else 0%nat)
                (group_size okey_eqb by_) (unique okey_eqb by_)) as S.
  rewrite missing_group_size in S.
  rewrite (sum_sizes_unique okey_eqb okey_eqb_refl okey_eqb_sym okey_eqb_trans) in S.
  pose proof (present_split by_) as P.
  assert (forall k : option key,
            ((if negb (isna k) then group_size okey_eqb by_ k else 0)
             + (if isna k then group_size okey_eqb by_ k else 0)
             = group_size okey_eqb by_ k)%nat) as Hk
    by (intros k; destruct (isna k); simpl; lia).
  specialize (S Hk). lia.
Qed.

(** The groups of [groupby(..., dropna=True)]. *)
Lemma groupby_present_groups {V} (by_ : list (option key)) (val : list V)
    (g : option key * list V) :
  length val = length by_ ->
  In g (groupby true by_ val) ->
  fst g <> None /\ In (fst g) by_ /\ snd g <> [].
Proof.
  intros L Hg. unfold groupby in Hg. apply in_map_iff in Hg.
  destruct Hg as [k [<- Hk]]. cbn [fst snd].
  apply filter_In in Hk. destruct Hk as [Hk Hn].
  apply (proj1 (In_sort_keys _ _)) in Hk.
  unfold unique in Hk. apply select_In in Hk.
  split; [destruct k; [discriminate | discriminate]|]. split; [exact Hk|].
  intros E. apply (f_equal (@length V)) in E.
  rewrite select_length in E by (rewrite length_map; symmetry; exact L).
  rewrite filter_id_map in E.
  pose proof (filter_witness (okey_eqb k) by_ k Hk (okey_eqb_refl k)) as H.
  simpl in E. lia.
Qed.

End PresentKeys.

(** X24.  The groups of a breakdown of the summary hold exactly the
    rows whose key is present: their sizes add up to the number of
    rows of the table less the number of rows with a missing key. *)
Theorem summary_groups_hold_present_rows
    (df : Pandas.DataFrame) (by_ : string) (kc : Pandas.column) (ns : list nat) :
  Pandas.well_formed df ->
  Pandas.lookup by_ (Pandas.cols df) = Some kc ->
  MetricsSummary.group_sizes by_ df = Ok ns ->
  list_sum ns = length (Pandas.dropna (Pandas.keys_of kc))
  /\ (list_sum ns + length (filter Pandas.isna (Pandas.keys_of kc))
      = Pandas.len df)%nat.
Proof.
  intros W Hk H.
  unfold MetricsSummary.group_sizes, MetricsSummary.status_groups,
    Pandas.getitem in H.
  rewrite Hk in H. cbn [bind] in H.
  destruct (Pandas.lookup "claim_status" (Pandas.cols df)) as [c|] eqn:Ec;
    [|discriminate].
  cbn [bind] in H.
  apply (f_equal (fun r => match r with Ok x => x | Raise _ => ns end)) in H.
  pose proof (well_formed_lookup _ _ _ W Hk) as Lk.
  pose proof (well_formed_lookup _ _ _ W Ec) as Lc.
  rewrite <- keys_of_length in Lk.
  assert (E : list_sum ns = length (Pandas.dropna (Pandas.keys_of kc))).
  { subst ns. destruct c as [xs|xs]; rewrite map_map; cbn [snd Pandas.col_length];
      apply groupby_present_partition; simpl in Lc; congruence. }
  split; [exact E|]. rewrite E, <- Lk. apply present_split.
Qed.

(** The theorem at a table of two rows, one of them without age. *)
Lemma summary_groups_hold_present_rows_witness :
  MetricsSummary.group_sizes "age" missing_age = Ok [1%nat]
  /\ list_sum [1%nat] = length (Pandas.dropna [Some (Pandas.KStr "young"); None]).
Proof.
  assert (H : MetricsSummary.group_sizes "age" missing_age = Ok [1%nat])
    by (vm_compute; reflexivity).
  split; [exact H|].
  refine (proj1 (summary_groups_hold_present_rows missing_age "age" _ _ _ eq_refl H)).
  repeat constructor.
Defined.

Section InteractiveBars.

Import Pandas Visualization.
Local Open Scope Q_scope.

Lemma indicator_binary (xs : list (option string)) :
  binary (claim_status_num (ObjCol xs)).
Proof.
  intros y Hy. simpl in Hy. apply in_map_iff in Hy. destruct Hy as [x [<- _]].
  unfold to_num. destruct (PyStr.mem _ _); tauto.
Qed.

Lemma indicator_present (xs : list (option string)) (y : option Q) :
  In y (claim_status_num (ObjCol xs)) -> y <> None.
Proof.
  intros Hy. simpl in Hy. apply in_map_iff in Hy. destruct Hy as [x [<- _]].
  discriminate.
Qed.

Lemma mean_defined (v : list (option Q)) :
  v <> [] -> (forall y, In y v -> y <> None) -> exists m, mean v = Some m.
Proof.
  intros Hne Hp. destruct v as [|[q|] r]; [congruence| |].
  - unfold mean, mean_of. cbn [dropna flat_map app]. eauto.
  - exfalso. apply (Hp None); [left|]; reflexivity.
Qed.

End InteractiveBars.

(** X25.  For a text [claim_status] every bar of an interactive chart
    is defined and lies between 0 and 100, and no bar stands for the
    missing value of the grouping column: the indicator is never
    missing, and the rows without a value are in no group. *)
Theorem interactive_bars_are_defined
    (df df' : Pandas.DataFrame) (by_ : string) (kc : Pandas.column)
    (xs : list (option string)) (bars : list (option Pandas.key * option Q)) :
  Pandas.well_formed df ->
  by_ <> "claim_status_num" ->
  Pandas.lookup by_ (Pandas.cols df) = Some kc ->
  Pandas.lookup "claim_status" (Pandas.cols df) = Some (Pandas.ObjCol xs) ->
  Visualization.preprocess df = Ok df' ->
  Visualization.grouped_rate by_ df' = Ok bars ->
  forall b, In b bars ->
    fst b <> None /\ In (fst b) (Pandas.keys_of kc)
    /\ exists q, snd b = Some q /\ (0 <= q)%Q /\ (q <= 100)%Q.
Proof.
  intros W Hn Hk Hc Hp Hg b Hb.
  unfold Visualization.preprocess, Pandas.getitem in Hp. rewrite Hc in Hp.
  cbn [bind] in Hp.
  apply (f_equal (fun r => match r with Ok d => d | Raise _ => df end)) in Hp.
  subst df'.
  unfold Visualization.grouped_rate, Visualization.num_groups, Pandas.getitem in Hg.
  rewrite !lookup_setitem in Hg.
  apply String.eqb_neq in Hn. rewrite Hn, Hk, String.eqb_refl in Hg.
  cbn [bind Pandas.numeric] in Hg.
  apply (f_equal (fun r => match r with Ok x => x | Raise _ => bars end)) in Hg.
  subst bars. apply in_map_iff in Hb. destruct Hb as [g [<- Hg]]. cbn [fst snd].
  assert (L : length (Visualization.claim_status_num (Pandas.ObjCol xs))
              = length (Pandas.keys_of kc)).
  { rewrite keys_of_length, (well_formed_lookup _ _ _ W Hk).
    rewrite <- (well_formed_lookup _ _ _ W Hc). simpl. apply length_map. }
  destruct (groupby_present_groups _ _ g L Hg) as [G1 [G2 G3]].
  split; [exact G1|]. split; [exact G2|].
  assert (B : binary (snd g)).
  { intros y Hy. apply (indicator_binary xs).
    eapply groupby_members; eauto. }
  assert (P : forall y, In y (snd g) -> y <> None).
  { intros y Hy. apply (indicator_present xs).
    eapply groupby_members; eauto. }
  destruct (mean_defined _ G3 P) as [m Hm]. rewrite Hm. cbn [option_map].
  eexists. split; [reflexivity|].
  destruct (mean_binary _ _ B Hm) as [M0 M1].
  rewrite Qred_correct. split; lra.
Qed.

(** The theorem at the driving experience of a table of four rows. *)
Lemma interactive_bars_are_defined_witness :
  exists df',
    Visualization.preprocess chart_table = Ok df'
    /\ Visualization.grouped_rate "driving_experience" df'
       = Ok [(Some (Pandas.KStr "0-9y"), Some (100 # 3)%Q);
             (Some (Pandas.KStr "10-19y"), Some 0%Q)]
    /\ exists q, Some 0%Q = Some q /\ (0 <= q)%Q /\ (q <= 100)%Q.
Proof.
  assert (Hp : exists df', Visualization.preprocess chart_table = Ok df'
                 /\ Visualization.grouped_rate "driving_experience" df'
                    = Ok [(Some (Pandas.KStr "0-9y"), Some (100 # 3)%Q);
                          (Some (Pandas.KStr "10-19y"), Some 0%Q)]).
  { eexists. split; [vm_compute; reflexivity|]. vm_compute. reflexivity. }
  destruct Hp as [df' [Hp Hg]].
  exists df'. split; [exact Hp|]. split; [exact Hg|].
  refine (proj2 (proj2 (interactive_bars_are_defined chart_table df'
             "driving_experience" _ _ _ _ _ eq_refl eq_refl Hp Hg
             (Some (Pandas.KStr "10-19y"), Some 0%Q) _))).
  - repeat constructor.
  - discriminate.
  - right. left. reflexivity.
Defined.

(* ================================================================= *)
(** ** The summary and the dashboard on numeric codes *)

Section Codes.

Import Pandas.

Lemma code_flag_binary (xs : list (option Q)) :
  binary xs -> map code_flag xs = xs.
Proof.
  intros H. rewrite <- (map_id xs) at 2. apply map_ext_in. intros x Hx.
  destruct (H x Hx) as [->|[->| ->]]; reflexivity.
Qed.

End Codes.

(** X26.  On a table whose [claim_status] is numeric and holds only the
    codes 0 and 1 and missing values, with at least one code present,
    the summary and the dashboard agree even where a status is
    missing: both leave the missing rows out of the claim rate, and
    both count the codes 1 as the claims. *)
Theorem scripts_agree_on_numeric_codes
    (df df' : Pandas.DataFrame) (xs : list (option Q)) (m : App.metrics) :
  Pandas.lookup "claim_status" (Pandas.cols df) = Some (Pandas.NumCol xs) ->
  binary xs ->
  Pandas.dropna xs <> [] ->
  snd (App.prepare (Ok df)) = Ok df' ->
  App.calculate_metrics df' = Ok m ->
  MetricsSummary.summary_claim_rate df = Ok (Some (App.claim_rate m))
  /\ (inject_Z (App.total_claims m)
      == MetricsSummary.total_claims (Pandas.NumCol xs))%Q.
Proof.
  intros Hc Hb Hne Hp Hm.
  assert (Hf : Pandas.lookup "claim_flag" (Pandas.cols df')
               = Some (Pandas.NumCol xs)).
  { pose proof (lookup_readable_claim_status (App.rename_outcome df)) as Hr.
    rewrite lookup_rename_outcome, Hc in Hr.
    rewrite prepare_Ok in Hp. cbv zeta in Hp. rewrite Hr in Hp. cbn [snd] in Hp.
    apply (f_equal (fun r => match r with Ok d => d | Raise _ => df end)) in Hp.
    subst df'. rewrite lookup_setitem. cbn [String.eqb Ascii.eqb Bool.eqb].
    rewrite flag_of_codes, (code_flag_binary xs Hb). reflexivity. }
  destruct (calculate_metrics_inv _ _ Hm) as [flag [Hfl [_ [Ht Hr]]]].
  rewrite (claim_flag_lookup _ _ Hf) in Hfl.
  apply (f_equal (fun r => match r with Ok x => x | Raise _ => flag end)) in Hfl.
  subst flag. split.
  - unfold MetricsSummary.summary_claim_rate, Pandas.getitem.
    rewrite Hc. cbn [bind]. rewrite Hr.
    unfold MetricsSummary.claim_rate_double, App.rate_of.
    destruct (F64.mean_of (Pandas.dropna xs)) as [mu|] eqn:Em; [reflexivity|].
    destruct (Pandas.dropna xs); [congruence | discriminate Em].
  - rewrite Ht, (count_claims_binary _ Hb).
    unfold MetricsSummary.total_claims, Pandas.sum.
    symmetry. apply sum_dropna_binary, Hb.
Qed.

(** The theorem at a table of four rows, one of them without status. *)
Lemma scripts_agree_on_numeric_codes_witness :
  MetricsSummary.summary_claim_rate coded_table = Ok (Some (6667 # 100)%Q).
Proof.
  assert (Hp : exists df', snd (App.prepare (Ok coded_table)) = Ok df'
                           /\ App.calculate_metrics df'
                              = Ok (App.mkMetrics 4 2 (6667 # 100) None None)).
  { eexists. split; [vm_compute; reflexivity|]. vm_compute. reflexivity. }
  destruct Hp as [df' [Hp Hm]].
  refine (proj1 (scripts_agree_on_numeric_codes coded_table df'
                   [Some 1; Some 0; None; Some 1]%Q _ eq_refl _ _ Hp Hm)).
  - intros x [<-|[<-|[<-|[<-|[]]]]]; tauto.
  - discriminate.
Defined.
